(** * bpyrenderer.lighting: procedural lighting setups and their metadata

    A shallow embedding of [src/bpyrenderer/lighting.py], in three parts:
    the model of the module, the vocabulary of the properties, and the
    properties with their proofs.

    - Python numbers are exact rationals ([Q]); the integer literals of the
      source ([4], [0], [1300]) and its float literals are the rationals of
      the same value.  [blackbody_to_rgb] is given a second time over IEEE
      binary64 ([blackbody_to_rgb_f]) to evaluate it bit for bit.  Where
      rounding could decide (a strict bound met at a boundary, the sums of
      the selector's weights, [sin^2 + cos^2]), a property leaves a margin
      and is stated away from the boundary.
    - A metadata record is a Python dict, as [json.load] returns it:
      [value] is the JSON data model, a dict being an association list in
      insertion order.  Python lists and tuples are both [VList].  The
      dynamic operations of the source ([in], subscripts, iteration,
      [tuple]) fail on the operand types on which Python fails.
    - The Blender scene is explicit state: [w_scene] lists the light
      objects linked into the current collection, in creation order.  An
      object is its light datablock, its location and its rotation; the
      names Blender gives to objects, and a datablock that never gets an
      object because a property setter rejected a value before, are not
      represented.  What a property setter accepts is the host's
      business: a rejection is an error of class [HostError].
    - The [random] module is an interface ([RandomSource]); [uniform],
      [randint] and [choices] are written over it as CPython writes them.
      Every answer of the random source is logged in [w_draws].
    - [math]/[numpy] trigonometry is an interface ([MathLib]).
    - [setup_random_lighting] and [clear_lights] complete the module;
      [RenderRandomLights] holds the [setup_random_lighting] of the script
      [examples/lighting/render_random_lights.py]. *)

From Stdlib Require Import List String Ascii ZArith QArith Lia Lqa Bool.
From Stdlib Require Import DecimalString.
From Stdlib Require Import Floats.PrimFloat.
Import ListNotations.

Set Warnings "-register-all,-inexact-float".
Local Open Scope string_scope.
Local Open Scope list_scope.
Local Open Scope Q_scope.

(** * The model *)

(** ** Python values *)

Inductive value : Type :=
| VNone
| VBool (b : bool)
| VNum (q : Q)
| VStr (s : string)
| VList (l : list value)
| VDict (d : list (string * value)).

Definition dict := list (string * value).

(** Exceptions: the class, the message template, and the values the
    source interpolates into it (an f-string's holes are written [{}]). *)
Inductive exn_class : Type :=
| ValueError
| KeyError
| TypeError
| IndexError
| AttributeError
| HostError.   (* raised by a bpy / mathutils property setter *)

Record exn : Type := Exn {
  e_class : exn_class;
  e_text : string;
  e_args : list value }.

Definition result (A : Type) : Type := (exn + A)%type.

(** *** Dict operations *)

Fixpoint dict_get (d : dict) (k : string) : option value :=
  match d with
  | [] => None
  | (k', v) :: d' => if String.eqb k k' then Some v else dict_get d' k
  end.

Definition dict_has (d : dict) (k : string) : bool :=
  match dict_get d k with Some _ => true | None => false end.

(** [d[k] = v]: replaces the value of an existing key in place, appends a
    new key at the end. *)
Fixpoint dict_set (d : dict) (k : string) (v : value) : dict :=
  match d with
  | [] => [(k, v)]
  | (k', v') :: d' =>
      if String.eqb k k' then (k', v) :: d' else (k', v') :: dict_set d' k v
  end.

(** *** Dynamic operations *)

Definition is_str (s : string) (v : value) : bool :=
  match v with VStr s' => String.eqb s s' | _ => false end.

(** [v in [s1, s2, ...]] for a list of string literals. *)
Definition in_strs (v : value) (l : list string) : bool :=
  existsb (fun s => is_str s v) l.

Fixpoint chars (s : string) : list value :=
  match s with
  | EmptyString => []
  | String c s' => VStr (String c EmptyString) :: chars s'
  end.

Definition substring_of (k s : string) : bool :=
  match String.index 0 k s with Some _ => true | None => false end.

Definition not_iterable : exn := Exn TypeError "object is not iterable" [].
Definition not_subscriptable : exn :=
  Exn TypeError "object is not subscriptable" [].
Definition bad_index : exn := Exn TypeError "indices must be integers" [].
Definition not_a_number : exn := Exn TypeError "unsupported operand type" [].
Definition out_of_range : exn := Exn IndexError "index out of range" [].

(** [iter(v)] *)
Definition py_iter (v : value) : result (list value) :=
  match v with
  | VList l => inr l
  | VStr s => inr (chars s)
  | VDict d => inr (map (fun kv => VStr (fst kv)) d)
  | VNone | VBool _ | VNum _ => inl not_iterable
  end.

(** [tuple(v)] *)
Definition py_tuple (v : value) : result value :=
  match py_iter v with
  | inr l => inr (VList l)
  | inl e => inl e
  end.

(** ['k' in v] *)
Definition py_contains (k : string) (v : value) : result bool :=
  match v with
  | VDict d => inr (dict_has d k)
  | VList l => inr (existsb (is_str k) l)
  | VStr s => inr (substring_of k s)
  | VNone | VBool _ | VNum _ => inl not_iterable
  end.

(** [v['k']] *)
Definition py_getitem (v : value) (k : string) : result value :=
  match v with
  | VDict d =>
      match dict_get d k with
      | Some x => inr x
      | None => inl (Exn KeyError "{}" [VStr k])
      end
  | VList _ | VStr _ => inl bad_index
  | VNone | VBool _ | VNum _ => inl not_subscriptable
  end.

(** [v[n]] for a literal index [n]. *)
Definition py_index (v : value) (n : nat) : result value :=
  match v with
  | VList l =>
      match nth_error l n with Some x => inr x | None => inl out_of_range end
  | VStr s =>
      match nth_error (chars s) n with
      | Some x => inr x
      | None => inl out_of_range
      end
  | VDict _ => inl (Exn KeyError "{}" [VNum (inject_Z (Z.of_nat n))])
  | VNone | VBool _ | VNum _ => inl not_subscriptable
  end.

(** Numbers in arithmetic and comparisons; [bool] is a subclass of [int]. *)
Definition as_number (v : value) : option Q :=
  match v with
  | VNum q => Some q
  | VBool true => Some 1
  | VBool false => Some 0
  | _ => None
  end.

Definition vec3 : Type := (Q * Q * Q)%type.

Definition tuple3 (t : vec3) : value :=
  let '(x, y, z) := t in VList [VNum x; VNum y; VNum z].

(** ** The Color-Temperature Model *)

Definition blackbody_to_rgb (temperature : Q) : vec3 :=
  if Qle_bool temperature 4000 then
    let r := 1.0 in
    let g := 0.7 + 0.3 * (temperature - 2700) / 1300 in
    let b := 0.4 + 0.6 * (temperature - 2700) / 1300 in
    (r, g, b)
  else
    let r := 1.0 in
    let g := 1.0 in
    let b := 0.8 + 0.2 * (temperature - 4000) / 2500 in
    (r, g, b).

(** The call [blackbody_to_rgb(x)] on a value read from a record. *)
Definition call_blackbody_to_rgb (x : value) : result value :=
  match as_number x with
  | Some t => inr (tuple3 (blackbody_to_rgb t))
  | None => inl not_a_number
  end.

(** The same function over binary64, every literal and operation as
    Python evaluates it. *)
Definition blackbody_to_rgb_f (temperature : float) : float * float * float :=
  if PrimFloat.leb temperature 4000%float then
    (1.0, 0.7 + 0.3 * (temperature - 2700) / 1300,
          0.4 + 0.6 * (temperature - 2700) / 1300)%float
  else
    (1.0, 1.0, 0.8 + 0.2 * (temperature - 4000) / 2500)%float.

Definition rgb_eq (a b : vec3) : Prop :=
  let '(r, g, bl) := a in
  let '(r', g', bl') := b in
  r == r' /\ g == g' /\ bl == bl'.

(** ** The host scene *)

Inductive light_shape : Type := SQUARE | RECTANGLE | DISK | ELLIPSE.

(** A light datablock.  [size_y] is [None] while the host's default is
    untouched. *)
Inductive light_data : Type :=
| POINT (energy : Q) (color : vec3) (shadow_soft_size : Q)
| AREA (energy : Q) (color : vec3) (shape : light_shape) (size : Q)
       (size_y : option Q)
| SUN (energy : Q) (color : vec3) (angle : Q).

Record light_object : Type := Light {
  data : light_data;
  location : vec3;
  rotation_euler : vec3 }.

Inductive light_kind : Type := Point | Area | Sun.

Definition kind_of (o : light_object) : light_kind :=
  match data o with
  | POINT _ _ _ => Point
  | AREA _ _ _ _ _ => Area
  | SUN _ _ _ => Sun
  end.

Definition color_of (o : light_object) : vec3 :=
  match data o with
  | POINT _ c _ | AREA _ c _ _ _ | SUN _ c _ => c
  end.

Definition origin : vec3 := (0, 0, 0).

Definition rejected (what : string) : exn := Exn HostError what [].

(** What a float property accepts.  The host stores the number it is
    given in its own representation, here the reduced fraction: two
    numbers that compare equal in Python are stored as the same number. *)
Definition host_float (what : string) (v : value) : result Q :=
  match as_number v with
  | Some q => inr (Qred q)
  | None => inl (rejected what)
  end.

(** What a three-component float property, or [Euler(...)], accepts. *)
Definition host_vec3 (what : string) (v : value) : result vec3 :=
  match v with
  | VList [a; b; c] =>
      match as_number a, as_number b, as_number c with
      | Some x, Some y, Some z => inr (Qred x, Qred y, Qred z)
      | _, _, _ => inl (rejected what)
      end
  | _ => inl (rejected what)
  end.

Definition host_shape (s : string) : result light_shape :=
  if String.eqb s "SQUARE" then inr SQUARE
  else if String.eqb s "RECTANGLE" then inr RECTANGLE
  else if String.eqb s "DISK" then inr DISK
  else if String.eqb s "ELLIPSE" then inr ELLIPSE
  else inl (rejected "shape").

Fixpoint set_nth {A : Type} (n : nat) (x : A) (l : list A) : list A :=
  match l, n with
  | [], _ => []
  | _ :: l', O => x :: l'
  | y :: l', S n' => y :: set_nth n' x l'
  end.

(** ** The [random] and [math] modules *)

Record RandomSource : Type := {
  rs_state : Type;
  rs_random : rs_state -> Q * rs_state;          (* Random.random() *)
  rs_randbelow : Z -> rs_state -> Z * rs_state   (* Random._randbelow(n) *)
}.

(** [random()] is in [0, 1) and [_randbelow(n)] in [0, n). *)
Definition rs_lawful (R : RandomSource) : Prop :=
  (forall s, 0 <= fst (rs_random R s) /\ fst (rs_random R s) < 1) /\
  (forall n s, (0 < n)%Z ->
     (0 <= fst (rs_randbelow R n s) < n)%Z).

Record MathLib : Type := {
  m_pi : Q;
  m_sin : Q -> Q;
  m_cos : Q -> Q;
  m_sqrt : Q -> Q;
  m_atan2 : Q -> Q -> Q }.

(** What the random source was asked, and what it answered. *)
Inductive draw : Type :=
| DUniform (a b x : Q)
| DRandint (a b k : Z)
| DRandom (u : Q).

Definition string_of_nat (n : nat) : string :=
  NilEmpty.string_of_uint (Nat.to_uint n).

(** ** The engine *)

Section Engine.

Variable R : RandomSource.

Record world : Type := World {
  w_rng : rs_state R;
  w_draws : list draw;
  w_scene : list light_object }.

(** A computation changes the world and then returns or raises; what it
    did to the world before raising stays done. *)
Definition M (A : Type) : Type := world -> result A * world.

Definition ret {A : Type} (x : A) : M A := fun w => (inr x, w).

Definition raise {A : Type} (e : exn) : M A := fun w => (inl e, w).

Definition bind {A B : Type} (c : M A) (k : A -> M B) : M B :=
  fun w =>
    match c w with
    | (inr x, w') => k x w'
    | (inl e, w') => (inl e, w')
    end.

Definition lift {A : Type} (r : result A) : M A := fun w => (r, w).

Notation "x <- c ;; k" := (bind c (fun x => k))
  (at level 61, c at next level, right associativity).
Notation "c ;;; k" := (bind c (fun _ => k))
  (at level 61, right associativity).

(** [for x in xs: acc = body(x, acc)] *)
Fixpoint for_each {A S : Type} (xs : list A) (body : A -> S -> M S) (acc : S)
  : M S :=
  match xs with
  | [] => ret acc
  | x :: xs' => acc' <- body x acc ;; for_each xs' body acc'
  end.

(** *** Light Materialization Gateway *)

(** [bpy.context.collection.objects.link(light_obj)]; the handle is the
    object's place in the scene. *)
Definition objects_link (o : light_object) : M nat :=
  fun w =>
    (inr (List.length (w_scene w)),
     World (w_rng w) (w_draws w) (w_scene w ++ [o])).

(** Assignment to a property of a linked object. *)
Definition object_set (h : nat) (o : light_object) : M unit :=
  fun w => (inr tt, World (w_rng w) (w_draws w) (set_nth h o (w_scene w))).

Definition add_point_light (location energy color size : value)
  : M light_object :=
  e <- lift (host_float "energy" energy) ;;
  c <- lift (host_vec3 "color" color) ;;
  s <- lift (host_float "shadow_soft_size" size) ;;
  let light_data := POINT e c s in
  h <- objects_link (Light light_data origin origin) ;;
  loc <- lift (host_vec3 "location" location) ;;
  let light_obj := Light light_data loc origin in
  object_set h light_obj ;;;
  ret light_obj.

Definition add_area_light
    (location rotation energy color size : value) (shape : string)
  : M light_object :=
  e <- lift (host_float "energy" energy) ;;
  c <- lift (host_vec3 "color" color) ;;
  sh <- lift (host_shape shape) ;;
  size0 <- lift (py_index size 0) ;;
  sx <- lift (host_float "size" size0) ;;
  sy <- (if in_strs (VStr shape) ["RECTANGLE"; "ELLIPSE"] then
           size1 <- lift (py_index size 1) ;;
           y <- lift (host_float "size_y" size1) ;;
           ret (Some y)
         else ret None) ;;
  let light_data := AREA e c sh sx sy in
  h <- objects_link (Light light_data origin origin) ;;
  loc <- lift (host_vec3 "location" location) ;;
  object_set h (Light light_data loc origin) ;;;
  rot <- lift (host_vec3 "rotation_euler" rotation) ;;
  let light_obj := Light light_data loc rot in
  object_set h light_obj ;;;
  ret light_obj.

Definition add_sun_light (rotation energy color angle : value)
  : M light_object :=
  e <- lift (host_float "energy" energy) ;;
  c <- lift (host_vec3 "color" color) ;;
  a <- lift (host_float "angle" angle) ;;
  let light_data := SUN e c a in
  h <- objects_link (Light light_data origin origin) ;;
  rot <- lift (host_vec3 "rotation_euler" rotation) ;;
  let light_obj := Light light_data origin rot in
  object_set h light_obj ;;;
  ret light_obj.

(** Defaults of [add_area_light]'s keyword arguments. *)
Definition default_rotation : value := VList [VNum 0; VNum 0; VNum 0].
Definition default_shape : string := "RECTANGLE".

(** *** Metadata Codec: decode *)

Definition valid_types : list string :=
  ["env_map"; "studio"; "dramatic"; "natural"; "random"].

Definition must_include (what : string) : exn := Exn KeyError what [].

Definition studio_entry (light_info : value) (lights : list light_object)
  : M (list light_object) :=
  has <- lift (py_contains "role" light_info) ;;
  if negb has then
    raise (must_include "Studio light metadata must include 'role'")
  else
    role <- lift (py_getitem light_info "role") ;;
    if in_strs role ["key"; "fill"; "back"] then
      p <- lift (py_getitem light_info "position") ;;
      location <- lift (py_tuple p) ;;
      r <- lift (py_getitem light_info "rotation") ;;
      rotation <- lift (py_tuple r) ;;
      energy <- lift (py_getitem light_info "energy") ;;
      t <- lift (py_getitem light_info "color_temperature") ;;
      color <- lift (call_blackbody_to_rgb t) ;;
      s <- lift (py_getitem light_info "size") ;;
      size <- lift (py_tuple s) ;;
      light <- add_area_light location rotation energy color size
                 default_shape ;;
      ret (lights ++ [light])
    else ret lights.

Definition dramatic_entry (light_info : value) (lights : list light_object)
  : M (list light_object) :=
  has <- lift (py_contains "type" light_info) ;;
  if negb has then
    raise (must_include "Dramatic light metadata must include 'type'")
  else
    ty <- lift (py_getitem light_info "type") ;;
    if is_str "area" ty then
      p <- lift (py_getitem light_info "position") ;;
      location <- lift (py_tuple p) ;;
      r <- lift (py_getitem light_info "rotation") ;;
      rotation <- lift (py_tuple r) ;;
      energy <- lift (py_getitem light_info "energy") ;;
      t <- lift (py_getitem light_info "color_temperature") ;;
      color <- lift (call_blackbody_to_rgb t) ;;
      s <- lift (py_getitem light_info "size") ;;
      size <- lift (py_tuple s) ;;
      light <- add_area_light location rotation energy color size
                 "RECTANGLE" ;;
      ret (lights ++ [light])
    else ret lights.

Definition natural_entry (light_info : value) (lights : list light_object)
  : M (list light_object) :=
  has <- lift (py_contains "type" light_info) ;;
  if negb has then
    raise (must_include "Natural light metadata must include 'type'")
  else
    ty <- lift (py_getitem light_info "type") ;;
    if is_str "sun" ty then
      r <- lift (py_getitem light_info "rotation") ;;
      rotation <- lift (py_tuple r) ;;
      energy <- lift (py_getitem light_info "energy") ;;
      t <- lift (py_getitem light_info "color_temperature") ;;
      color <- lift (call_blackbody_to_rgb t) ;;
      angle <- lift (py_getitem light_info "angle") ;;
      light <- add_sun_light rotation energy color angle ;;
      ret (lights ++ [light])
    else
      ty' <- lift (py_getitem light_info "type") ;;
      if is_str "area" ty' then
        p <- lift (py_getitem light_info "position") ;;
        location <- lift (py_tuple p) ;;
        energy <- lift (py_getitem light_info "energy") ;;
        t <- lift (py_getitem light_info "color_temperature") ;;
        color <- lift (call_blackbody_to_rgb t) ;;
        s <- lift (py_getitem light_info "size") ;;
        size <- lift (py_tuple s) ;;
        light <- add_area_light location default_rotation energy color size
                   default_shape ;;
        ret (lights ++ [light])
      else ret lights.

Definition random_entry (light_info : value) (lights : list light_object)
  : M (list light_object) :=
  has <- lift (py_contains "type" light_info) ;;
  if negb has then
    raise (must_include "Random light metadata must include 'type'")
  else
    ty <- lift (py_getitem light_info "type") ;;
    if is_str "point" ty then
      p <- lift (py_getitem light_info "position") ;;
      location <- lift (py_tuple p) ;;
      energy <- lift (py_getitem light_info "energy") ;;
      c <- lift (py_getitem light_info "color") ;;
      color <- lift (py_tuple c) ;;
      size <- lift (py_getitem light_info "size") ;;
      light <- add_point_light location energy color size ;;
      ret (lights ++ [light])
    else ret lights.

Definition setup_lighting_from_metadata (metadata : dict)
  : M (list light_object) :=
  match dict_get metadata "lighting_type" with
  | None | Some VNone =>
      raise (Exn ValueError "Metadata must include 'lighting_type'" [])
  | Some lighting_type =>
      if negb (in_strs lighting_type valid_types) then
        raise (Exn ValueError "Invalid lighting_type: {}. Must be one of {}"
                 [lighting_type; VList (map VStr valid_types)])
      else
        let lights := [] in
        if is_str "env_map" lighting_type then ret lights
        else if negb (dict_has metadata "lights") then
          raise (Exn KeyError
                   "Metadata for {} lighting must include 'lights' array"
                   [lighting_type])
        else
          entries <- lift (match dict_get metadata "lights" with
                           | Some v => py_iter v
                           | None => inl (Exn KeyError "{}" [VStr "lights"])
                           end) ;;
          if is_str "studio" lighting_type then
            for_each entries studio_entry lights
          else if is_str "dramatic" lighting_type then
            for_each entries dramatic_entry lights
          else if is_str "natural" lighting_type then
            for_each entries natural_entry lights
          else
            for_each entries random_entry lights
  end.

(** *** The [random] module, as CPython's [random.py] writes it *)

Definition random_random : M Q :=
  fun w =>
    let (u, s) := rs_random R (w_rng w) in
    (inr u, World s (w_draws w ++ [DRandom u]) (w_scene w)).

(** [uniform(a, b)] is [a + (b - a) * self.random()]. *)
Definition uniform (a b : Q) : M Q :=
  fun w =>
    let (u, s) := rs_random R (w_rng w) in
    let x := a + (b - a) * u in
    (inr x, World s (w_draws w ++ [DUniform a b x]) (w_scene w)).

(** [randint(a, b)] is [randrange(a, b + 1)], that is
    [a + self._randbelow(b + 1 - a)] when the range is not empty. *)
Definition randint (a b : Z) : M Z :=
  let width := (b + 1 - a)%Z in
  if (0 <? width)%Z then
    fun w =>
      let (r, s) := rs_randbelow R width (w_rng w) in
      let k := (a + r)%Z in
      (inr k, World s (w_draws w ++ [DRandint a b k]) (w_scene w))
  else raise (Exn ValueError "empty range for randrange()" []).

(** [itertools.accumulate] *)
Fixpoint accumulate_from (total : Q) (l : list Q) : list Q :=
  match l with
  | [] => []
  | x :: l' => (total + x) :: accumulate_from (total + x) l'
  end.

Definition accumulate (l : list Q) : list Q :=
  match l with
  | [] => []
  | x :: l' => x :: accumulate_from x l'
  end.

(** [bisect_right(a, x, 0, hi)] on a sorted list: the index of the first
    of the first [hi] elements that is greater than [x]. *)
Fixpoint bisect (a : list Q) (x : Q) (hi : nat) : nat :=
  match a, hi with
  | y :: a', S hi' => if Qle_bool y x then S (bisect a' x hi') else O
  | _, _ => O
  end.

(** [choices(population, weights=weights)[0]] *)
Definition choices (population : list string) (weights : list Q) : M string :=
  let n := List.length population in
  let cum_weights := accumulate weights in
  let total := last cum_weights 0 in
  if Qle_bool total 0 then
    raise (Exn ValueError "Total of weights must be greater than zero" [])
  else
    u <- random_random ;;
    match nth_error population (bisect cum_weights (u * total) (n - 1)) with
    | Some x => ret x
    | None => raise out_of_range
    end.

(** *** The [math] module *)

Variable L : MathLib.

Definition radians (x : Q) : Q := x * (m_pi L / 180).

(** *** Archetype samplers *)

Definition setup_studio_lighting
    (key_light_energy fill_light_energy back_light_energy
     key_light_color fill_light_color back_light_color : value)
  : M (list light_object) :=
  key_light <- add_area_light
    (tuple3 (4, -4, 4))
    (tuple3 (radians 45, radians 0, radians 45))
    key_light_energy key_light_color
    (VList [VNum 2; VNum 1]) default_shape ;;
  fill_light <- add_area_light
    (tuple3 (-4, -4, 2))
    (tuple3 (radians 30, radians 0, radians (-45)))
    fill_light_energy fill_light_color
    (VList [VNum 3; VNum 2]) default_shape ;;
  back_light <- add_area_light
    (tuple3 (0, 4, 3))
    (tuple3 (radians (-45), radians 0, radians 0))
    back_light_energy back_light_color
    (VList [VNum 2; VNum 0.5]) default_shape ;;
  ret [key_light; fill_light; back_light].

Definition lighting_types : list (string * Q) :=
  [("studio", 0.25); ("dramatic", 0.2); ("natural", 0.25);
   ("random", 0.15); ("env_map", 0.15)].

Definition warm : Q * Q := (2700, 3500).
Definition neutral : Q * Q := (4000, 5500).
Definition cool : Q * Q := (6000, 7500).

(** [metadata["lights"].append(entry)] *)
Definition lights_append (metadata : dict) (entry : value) : result dict :=
  match dict_get metadata "lights" with
  | Some (VList l) => inr (dict_set metadata "lights" (VList (l ++ [entry])))
  | Some _ => inl (Exn AttributeError "object has no attribute 'append'" [])
  | None => inl (Exn KeyError "{}" [VStr "lights"])
  end.

Definition dramatic_light (i : nat) (acc : list light_object * dict)
  : M (list light_object * dict) :=
  let '(lights, metadata) := acc in
  theta <- uniform 0 (2 * m_pi L) ;;
  phi <- uniform 0 (m_pi L / 2) ;;
  r <- uniform 2 4 ;;
  let pos := (r * m_sin L phi * m_cos L theta,
              r * m_sin L phi * m_sin L theta,
              r * m_cos L phi) in
  let '(x, y, z) := pos in
  let rot := (m_atan2 L (- z) (m_sqrt L (x ^ 2 + y ^ 2)),
              0,
              m_atan2 L y x + m_pi L) in
  energy <- uniform 1000 2000 ;;
  temp <- uniform (fst warm) (snd warm) ;;
  size0 <- uniform 0.5 2 ;;
  size1 <- uniform 0.5 2 ;;
  let size := VList [VNum size0; VNum size1] in
  light <- add_area_light (tuple3 pos) (tuple3 rot) (VNum energy)
             (tuple3 (blackbody_to_rgb temp)) size "RECTANGLE" ;;
  metadata' <- lift (lights_append metadata (VDict [
    ("type", VStr "area");
    ("role", VStr ("dramatic_" ++ string_of_nat (i + 1))%string);
    ("energy", VNum energy);
    ("color_temperature", VNum temp);
    ("position", tuple3 pos);
    ("rotation", tuple3 rot);
    ("size", size)])) ;;
  ret (lights ++ [light], metadata').

Definition random_light (i : nat) (acc : list light_object * dict)
  : M (list light_object * dict) :=
  let '(lights, metadata) := acc in
  let min_radius := 2 in
  let max_radius := 4 in
  let min_energy := 300 in
  let max_energy := 800 in
  theta <- uniform 0 (2 * m_pi L) ;;
  phi <- uniform 0 (m_pi L) ;;
  r <- uniform min_radius max_radius ;;
  let pos := (r * m_sin L phi * m_cos L theta,
              r * m_sin L phi * m_sin L theta,
              r * m_cos L phi) in
  energy <- uniform min_energy max_energy ;;
  temp <- uniform (fst neutral) (snd neutral) ;;
  let color := blackbody_to_rgb temp in
  light <- add_point_light (tuple3 pos) (VNum energy) (tuple3 color)
             (VNum 0.1) ;;
  metadata' <- lift (lights_append metadata (VDict [
    ("type", VStr "point");
    ("role", VStr ("random_" ++ string_of_nat (i + 1))%string);
    ("energy", VNum energy);
    ("color_temperature", VNum temp);
    ("color", tuple3 color);
    ("position", tuple3 pos);
    ("size", VNum 0.1)])) ;;
  ret (lights ++ [light], metadata').

Definition range (n : Z) : list nat := seq 0 (Z.to_nat n).

Definition generate_random_lighting_setup (lighting_type : option string)
  : M (list light_object * dict) :=
  lighting_type <-
    match lighting_type with
    | Some t =>
        if negb (existsb (String.eqb t) (map fst lighting_types)) then
          raise (Exn ValueError "Invalid lighting type: {}. Must be one of {}"
                   [VStr t;
                    VList (map (fun kv => VStr (fst kv)) lighting_types)])
        else ret t
    | None => choices (map fst lighting_types) (map snd lighting_types)
    end ;;
  let lights := [] in
  let metadata :=
    [("lighting_type", VStr lighting_type); ("lights", VList [])] in
  if String.eqb lighting_type "env_map" then
    strength <- uniform 0.8 1.5 ;;
    let metadata :=
      dict_set metadata "env_map" (VDict [("strength", VNum strength)]) in
    ret (lights, metadata)
  else if String.eqb lighting_type "studio" then
    key_energy <- uniform 800 1500 ;;
    fill_energy <- uniform 200 600 ;;
    back_energy <- uniform 400 800 ;;
    key_temp <- uniform (fst neutral) (snd neutral) ;;
    fill_temp <- uniform (fst cool) (snd cool) ;;
    back_temp <- uniform (fst warm) (snd warm) ;;
    lights <- setup_studio_lighting
      (VNum key_energy) (VNum fill_energy) (VNum back_energy)
      (tuple3 (blackbody_to_rgb key_temp))
      (tuple3 (blackbody_to_rgb fill_temp))
      (tuple3 (blackbody_to_rgb back_temp)) ;;
    let metadata := dict_set metadata "lights" (VList [
      VDict [("type", VStr "area");
             ("role", VStr "key");
             ("energy", VNum key_energy);
             ("color_temperature", VNum key_temp);
             ("position", VList [VNum 4; VNum (-4); VNum 4]);
             ("rotation", VList [VNum (radians 45); VNum 0; VNum (radians 45)]);
             ("size", VList [VNum 2; VNum 1])];
      VDict [("type", VStr "area");
             ("role", VStr "fill");
             ("energy", VNum fill_energy);
             ("color_temperature", VNum fill_temp);
             ("position", VList [VNum (-4); VNum (-4); VNum 2]);
             ("rotation",
              VList [VNum (radians 30); VNum 0; VNum (radians (-45))]);
             ("size", VList [VNum 3; VNum 2])];
      VDict [("type", VStr "area");
             ("role", VStr "back");
             ("energy", VNum back_energy);
             ("color_temperature", VNum back_temp);
             ("position", VList [VNum 0; VNum 4; VNum 3]);
             ("rotation", VList [VNum (radians (-45)); VNum 0; VNum 0]);
             ("size", VList [VNum 2; VNum 0.5])]]) in
    ret (lights, metadata)
  else if String.eqb lighting_type "dramatic" then
    num_lights <- randint 1 2 ;;
    for_each (range num_lights) dramatic_light (lights, metadata)
  else if String.eqb lighting_type "natural" then
    elevation <- uniform (-60) (-30) ;;
    azimuth <- uniform 0 360 ;;
    let sun_rot := (radians elevation, radians azimuth, 0) in
    sun_energy <- uniform 2 5 ;;
    sun_size <- uniform 0.5 5 ;;
    let sun_angle := radians sun_size in
    sun_temp <- uniform (fst neutral) (snd neutral) ;;
    sun <- add_sun_light (tuple3 sun_rot) (VNum sun_energy)
             (tuple3 (blackbody_to_rgb sun_temp)) (VNum sun_angle) ;;
    let lights := lights ++ [sun] in
    fill_x <- uniform (-3) 3 ;;
    fill_y <- uniform (-3) 3 ;;
    fill_z <- uniform 1 3 ;;
    let fill_pos := (fill_x, fill_y, fill_z) in
    fill_energy <- uniform 200 400 ;;
    fill_temp <- uniform (fst cool) (snd cool) ;;
    fill_size0 <- uniform 1 3 ;;
    fill_size1 <- uniform 1 3 ;;
    let fill_size := VList [VNum fill_size0; VNum fill_size1] in
    fill <- add_area_light (tuple3 fill_pos) default_rotation (VNum fill_energy)
              (tuple3 (blackbody_to_rgb fill_temp)) fill_size default_shape ;;
    let lights := lights ++ [fill] in
    let metadata := dict_set metadata "lights" (VList [
      VDict [("type", VStr "sun");
             ("role", VStr "main");
             ("energy", VNum sun_energy);
             ("color_temperature", VNum sun_temp);
             ("rotation", tuple3 sun_rot);
             ("angle", VNum sun_angle)];
      VDict [("type", VStr "area");
             ("role", VStr "fill");
             ("energy", VNum fill_energy);
             ("color_temperature", VNum fill_temp);
             ("position", tuple3 fill_pos);
             ("size", fill_size)]]) in
    ret (lights, metadata)
  else
    num_lights <- randint 2 5 ;;
    let lights := [] in
    let metadata := dict_set metadata "lights" (VList []) in
    for_each (range num_lights) random_light (lights, metadata).

End Engine.

Arguments World {R} _ _ _.
Arguments w_rng {R} _.
Arguments w_draws {R} _.
Arguments w_scene {R} _.
Arguments ret {R A} _ _.
Arguments raise {R A} _ _.
Arguments lift {R A} _ _.
Arguments bind {R A B} _ _ _.
Arguments for_each {R A S} _ _ _ _.
Arguments objects_link {R} _ _.
Arguments object_set {R} _ _ _.
Arguments add_point_light {R} _ _ _ _ _.
Arguments add_area_light {R} _ _ _ _ _ _ _.
Arguments add_sun_light {R} _ _ _ _ _.
Arguments studio_entry {R} _ _ _.
Arguments dramatic_entry {R} _ _ _.
Arguments natural_entry {R} _ _ _.
Arguments random_entry {R} _ _ _.
Arguments random_random {R} _.
Arguments uniform {R} _ _ _.
Arguments randint {R} _ _ _.
Arguments choices {R} _ _ _.
Arguments setup_studio_lighting {R} _ _ _ _ _ _ _ _.
Arguments dramatic_light {R} _ _ _ _.
Arguments random_light {R} _ _ _ _.
Arguments setup_lighting_from_metadata {R} _ _.
Arguments generate_random_lighting_setup {R} _ _ _.

(** ** The other setups of the module *)

Section Setups.

Context {R : RandomSource} (L : MathLib).

Notation "x <- c ;; k" := (bind c (fun x => k))
  (at level 61, c at next level, right associativity).

(** Defaults of [add_point_light]'s keyword arguments [color] and
    [size]. *)
Definition default_color : value := VList [VNum 1; VNum 1; VNum 1].
Definition default_size : value := VNum 0.1.

Definition setup_random_lighting (num_lights : Z)
    (min_radius max_radius min_energy max_energy : Q)
  : M R (list light_object) :=
  for_each (range num_lights) (fun _ lights =>
    theta <- uniform 0 (2 * m_pi L) ;;
    phi <- uniform 0 (m_pi L) ;;
    r <- uniform min_radius max_radius ;;
    let x := r * m_sin L phi * m_cos L theta in
    let y := r * m_sin L phi * m_sin L theta in
    let z := r * m_cos L phi in
    energy <- uniform min_energy max_energy ;;
    light <- add_point_light (tuple3 (x, y, z)) (VNum energy)
               default_color default_size ;;
    ret (lights ++ [light])) [].

(** [obj.type]: every object of [w_scene] has a light datablock. *)
Definition object_type (obj : light_object) : string := "LIGHT".

(** [clear_lights()]: the loop is taken to visit every object of
    [bpy.data.objects], and [remove(obj, do_unlink=True)] to take the
    object out of the scene. *)
Definition clear_lights : M R unit :=
  fun w =>
    (inr tt,
     World (w_rng w) (w_draws w)
       (filter (fun obj => negb (String.eqb (object_type obj) "LIGHT"))
               (w_scene w))).

End Setups.

(** ** [examples/lighting/render_random_lights.py]

    The script has its own [add_point_light] and [blackbody_to_rgb], the
    same statements as the module's, and its own [setup_random_lighting],
    which colors the lights. *)

Module RenderRandomLights.

Section Script.

Context {R : RandomSource} (L : MathLib).

Notation "x <- c ;; k" := (bind c (fun x => k))
  (at level 61, c at next level, right associativity).

Definition setup_random_lighting (num_lights : Z) : M R (list light_object) :=
  for_each (range num_lights) (fun _ lights =>
    theta <- uniform 0 (2 * m_pi L) ;;
    phi <- uniform 0 (m_pi L) ;;
    r <- uniform 2 4 ;;
    let x := r * m_sin L phi * m_cos L theta in
    let y := r * m_sin L phi * m_sin L theta in
    let z := r * m_cos L phi in
    temp <- uniform 2700 6500 ;;
    let color := blackbody_to_rgb temp in
    energy <- uniform 500 2000 ;;
    light <- add_point_light (tuple3 (x, y, z)) (VNum energy) (tuple3 color)
               default_size ;;
    ret (lights ++ [light])) [].

End Script.

End RenderRandomLights.

(** ** Running the model *)

(** A random source that replays a sequence of answers. *)
Definition replay (us : nat -> Q) (ks : nat -> Z) : RandomSource := {|
  rs_state := nat;
  rs_random := fun s => (us s, S s);
  rs_randbelow := fun n s => ((ks s mod n)%Z, S s) |}.

Definition low_source : RandomSource := replay (fun _ => 0) (fun _ => 0%Z).
Definition mid_source : RandomSource := replay (fun _ => 1 # 2) (fun _ => 1%Z).

(** Rational stand-ins for [math] and [numpy], to run the samplers. *)
Definition rational_math : MathLib := {|
  m_pi := 355 # 113;
  m_sin := fun x => x - x ^ 3 / 6;
  m_cos := fun x => 1 - x ^ 2 / 2;
  m_sqrt := fun x => (x + 1) / 2;
  m_atan2 := fun y x => y / (1 + x ^ 2) |}.

Definition empty_world (R : RandomSource) (s : rs_state R) : world R :=
  World s [] [].

(** * Vocabulary of the properties *)

(** ** Worlds and computations *)

(** The world after a computation that only added lights. *)
Definition with_lights {R : RandomSource} (w : world R)
    (added : list light_object) : world R :=
  World (w_rng w) (w_draws w) (w_scene w ++ added).

Section Computations.

Context {R : RandomSource}.

(** [scene_op c r added]: in every world, [c] comes to the result [r]
    (a value or an error), adds the lights [added] at the end of the
    scene, and leaves the random source and the log of draws as they
    were. *)
Definition scene_op {A : Type} (c : M R A) (r : result A)
    (added : list light_object) : Prop :=
  forall w, c w = (r, World (w_rng w) (w_draws w) (w_scene w ++ added)).

(** A computation is [framed] when it is a [scene_op]: it neither reads
    nor changes the random source, and its result and the lights it adds
    are the same in every world. *)
Definition framed {A : Type} (c : M R A) : Prop :=
  exists r added, scene_op c r added.

(** [yields c P]: in every world, [c] returns, and the value it returns,
    the draws it makes and the lights it adds satisfy [P]. *)
Definition yields {A : Type} (c : M R A)
    (P : A -> list draw -> list light_object -> Prop) : Prop :=
  forall w, exists x ds added s',
    c w = (inr x, World s' (w_draws w ++ ds) (w_scene w ++ added)) /\
    P x ds added.

End Computations.

(** ** Errors of the decoder *)

Definition missing_lighting_type : exn :=
  Exn ValueError "Metadata must include 'lighting_type'" [].

Definition invalid_lighting_type (v : value) : exn :=
  Exn ValueError "Invalid lighting_type: {}. Must be one of {}"
    [v; VList (map VStr valid_types)].

Definition missing_lights (v : value) : exn :=
  Exn KeyError "Metadata for {} lighting must include 'lights' array" [v].

Definition key_error (k : string) : exn := Exn KeyError "{}" [VStr k].

(** The error kinds of the specification. *)
Inductive error_kind : Type := MissingField | InvalidEnum.

(** The checks that [setup_lighting_from_metadata] makes before it looks
    at any light entry. *)
Definition passes_validation (metadata : dict) : bool :=
  match dict_get metadata "lighting_type" with
  | Some v =>
      in_strs v valid_types &&
      (is_str "env_map" v || dict_has metadata "lights")
  | None => false
  end.

(** ** The loops of the decoder *)

(** The four archetypes that carry lights, and what the decoder's four
    loops look at: the tag that selects the loop, the key the loop
    requires in every entry, the values of that key it acts on, and the
    body of the loop. *)
Inductive archetype : Type := Studio | Dramatic | Natural | RandomPoints.

Definition tag (a : archetype) : string :=
  match a with
  | Studio => "studio"
  | Dramatic => "dramatic"
  | Natural => "natural"
  | RandomPoints => "random"
  end.

Definition discriminant (a : archetype) : string :=
  match a with
  | Studio => "role"
  | Dramatic | Natural | RandomPoints => "type"
  end.

Definition recognized (a : archetype) (v : value) : bool :=
  match a with
  | Studio => in_strs v ["key"; "fill"; "back"]
  | Dramatic => is_str "area" v
  | Natural => is_str "sun" v || is_str "area" v
  | RandomPoints => is_str "point" v
  end.

Definition entry_body {R : RandomSource} (a : archetype)
  : value -> list light_object -> M R (list light_object) :=
  match a with
  | Studio => studio_entry
  | Dramatic => dramatic_entry
  | Natural => natural_entry
  | RandomPoints => random_entry
  end.

Definition missing_discriminant (a : archetype) : exn :=
  must_include
    match a with
    | Studio => "Studio light metadata must include 'role'"
    | Dramatic => "Dramatic light metadata must include 'type'"
    | Natural => "Natural light metadata must include 'type'"
    | RandomPoints => "Random light metadata must include 'type'"
    end.

Definition is_recognized (a : archetype) (e : dict) : bool :=
  match dict_get e (discriminant a) with
  | Some v => recognized a v
  | None => false
  end.

(** The keys a loop body reads from an entry whose discriminant it
    recognizes, in the order in which it reads them. *)
Definition required_fields (a : archetype) (v : value) : list string :=
  match a with
  | Studio | Dramatic =>
      ["position"; "rotation"; "energy"; "color_temperature"; "size"]
  | Natural =>
      if is_str "sun" v
      then ["rotation"; "energy"; "color_temperature"; "angle"]
      else ["position"; "energy"; "color_temperature"; "size"]
  | RandomPoints => ["position"; "energy"; "color"; "size"]
  end.

Definition iterable (v : value) : bool :=
  match py_iter v with inr _ => true | inl _ => false end.

Definition is_number (v : value) : bool :=
  match as_number v with Some _ => true | None => false end.

(** The fields on which the body computes between two reads have the
    type the generator gives them: sequences for [position], [rotation]
    and [color], a number for [color_temperature]. *)
Definition field_well_typed (k : string) (v : value) : bool :=
  if existsb (String.eqb k) ["position"; "rotation"; "color"] then iterable v
  else if String.eqb k "color_temperature" then is_number v
  else true.

Definition well_typed_entry (e : dict) : bool :=
  forallb (fun kv => field_well_typed (fst kv) (snd kv)) e.

Definition first_missing (e : dict) (keys : list string) : option string :=
  find (fun k => negb (dict_has e k)) keys.

(** A number on which the arithmetic of [blackbody_to_rgb] goes through
    in Python: a float, or an integer within the range of a float (on a
    larger integer the conversion to float raises [OverflowError], which
    the rationals do not have). *)
Definition float_range : Q := inject_Z (2 ^ 1023).

Definition in_float_range (v : value) : bool :=
  match as_number v with
  | Some q => Qle_bool (- float_range) q && Qle_bool q float_range
  | None => true
  end.

Definition temperature_in_range (e : dict) : bool :=
  match dict_get e "color_temperature" with
  | Some t => in_float_range t
  | None => true
  end.

(** ** Colors of reconstructed lights *)

Definition vred (t : vec3) : vec3 :=
  let '(x, y, z) := t in (Qred x, Qred y, Qred z).

(** The color the loop body of archetype [a] gives to the light of entry
    [e]: the stored [color] for random point lights, the color of the
    stored [color_temperature] for the others. *)
Definition color_decoded (a : archetype) (e : dict) : option vec3 :=
  match a with
  | RandomPoints =>
      match dict_get e "color" with
      | Some c =>
          match py_tuple c with
          | inr t =>
              match host_vec3 "color" t with
              | inr x => Some x
              | inl _ => None
              end
          | inl _ => None
          end
      | None => None
      end
  | Studio | Dramatic | Natural =>
      match dict_get e "color_temperature" with
      | Some t =>
          match as_number t with
          | Some q => Some (vred (blackbody_to_rgb q))
          | None => None
          end
      | None => None
      end
  end.

(** The rule of the specification: the stored [color] when the entry has
    one, the color of the stored [color_temperature] otherwise. *)
Definition color_by_precedence (e : dict) : option vec3 :=
  match dict_get e "color" with
  | Some _ => color_decoded RandomPoints e
  | None => color_decoded Studio e
  end.

(** The color the loop body of archetype [a] hands to the gateway for
    the entry [e], before the host stores it: the three numbers of the
    stored [color] for random point lights, the color of the stored
    [color_temperature] for the others. *)
Definition color_handed (a : archetype) (e : dict) : option vec3 :=
  match a with
  | RandomPoints =>
      match dict_get e "color" with
      | Some c =>
          match py_tuple c with
          | inr (VList [x; y; z]) =>
              match as_number x, as_number y, as_number z with
              | Some r, Some g, Some b => Some (r, g, b)
              | _, _, _ => None
              end
          | _ => None
          end
      | None => None
      end
  | Studio | Dramatic | Natural =>
      match dict_get e "color_temperature" with
      | Some t =>
          match as_number t with
          | Some q => Some (blackbody_to_rgb q)
          | None => None
          end
      | None => None
      end
  end.

(** A color that the host stores as it is given: the host stores a
    negative channel of a light's color as 0, which [host_vec3] does not
    do. *)
Definition no_negative_channel (c : vec3) : Prop :=
  let '(r, g, b) := c in 0 <= r /\ 0 <= g /\ 0 <= b.

(** ** Lights and entries of the generator *)

Definition area_light (location rotation : vec3) (energy : Q) (color : vec3)
    (size0 size1 : Q) : light_object :=
  Light (AREA (Qred energy) (vred color) RECTANGLE (Qred size0)
              (Some (Qred size1)))
        (vred location) (vred rotation).

Definition sun_light (rotation : vec3) (energy : Q) (color : vec3) (angle : Q)
  : light_object :=
  Light (SUN (Qred energy) (vred color) (Qred angle)) origin (vred rotation).

Definition point_light (location : vec3) (energy : Q) (color : vec3) (size : Q)
  : light_object :=
  Light (POINT (Qred energy) (vred color) (Qred size)) (vred location) origin.

Definition area_entry (role : string) (energy temp : Q) (pos rot : vec3)
    (size0 size1 : Q) : value :=
  VDict [("type", VStr "area");
         ("role", VStr role);
         ("energy", VNum energy);
         ("color_temperature", VNum temp);
         ("position", tuple3 pos);
         ("rotation", tuple3 rot);
         ("size", VList [VNum size0; VNum size1])].

Definition sun_entry (energy temp : Q) (rot : vec3) (angle : Q) : value :=
  VDict [("type", VStr "sun");
         ("role", VStr "main");
         ("energy", VNum energy);
         ("color_temperature", VNum temp);
         ("rotation", tuple3 rot);
         ("angle", VNum angle)].

Definition fill_entry (energy temp : Q) (pos : vec3) (size0 size1 : Q)
  : value :=
  VDict [("type", VStr "area");
         ("role", VStr "fill");
         ("energy", VNum energy);
         ("color_temperature", VNum temp);
         ("position", tuple3 pos);
         ("size", VList [VNum size0; VNum size1])].

Definition point_entry (role : string) (energy temp : Q) (color pos : vec3)
  : value :=
  VDict [("type", VStr "point");
         ("role", VStr role);
         ("energy", VNum energy);
         ("color_temperature", VNum temp);
         ("color", tuple3 color);
         ("position", tuple3 pos);
         ("size", VNum 0.1)].

(** ** Documented intervals and cardinalities *)

(** A draw lies within the interval that was asked for. *)
Definition draw_within (d : draw) : Prop :=
  match d with
  | DUniform a b x => a <= x /\ x <= b
  | DRandint a b k => (a <= k <= b)%Z
  | DRandom u => 0 <= u /\ u < 1
  end.

Inductive interval : Type :=
| IReal (a b : Q)
| IInt (a b : Z)
| IUnit.

Definition request_of (d : draw) : interval :=
  match d with
  | DUniform a b _ => IReal a b
  | DRandint a b _ => IInt a b
  | DRandom _ => IUnit
  end.

(** The intervals of the specification, in the order in which an
    archetype samples them; [n] is the number of lights.
    - studio: key, fill and back energy; key (neutral), fill (cool) and
      back (warm) temperature;
    - dramatic: the number of lights, then for each light azimuth, polar
      angle, radius, energy, temperature (warm) and the two sizes;
    - natural: sun elevation and azimuth in degrees, sun energy, sun
      angle in degrees, sun temperature (neutral); fill x, y, z, energy,
      temperature (cool) and the two sizes;
    - random: the number of lights, then for each light azimuth, polar
      angle, radius, energy and temperature (neutral);
    - env_map: the environment strength. *)
Definition documented_intervals (L : MathLib) (lighting_type : string)
    (n : nat) : list interval :=
  if String.eqb lighting_type "studio" then
    [IReal 800 1500; IReal 200 600; IReal 400 800;
     IReal 4000 5500; IReal 6000 7500; IReal 2700 3500]
  else if String.eqb lighting_type "dramatic" then
    IInt 1 2 ::
    List.concat (repeat [IReal 0 (2 * m_pi L); IReal 0 (m_pi L / 2); IReal 2 4;
                    IReal 1000 2000; IReal 2700 3500;
                    IReal 0.5 2; IReal 0.5 2] n)
  else if String.eqb lighting_type "natural" then
    [IReal (-60) (-30); IReal 0 360; IReal 2 5; IReal 0.5 5; IReal 4000 5500;
     IReal (-3) 3; IReal (-3) 3; IReal 1 3; IReal 200 400; IReal 6000 7500;
     IReal 1 3; IReal 1 3]
  else if String.eqb lighting_type "random" then
    IInt 2 5 ::
    List.concat (repeat [IReal 0 (2 * m_pi L); IReal 0 (m_pi L); IReal 2 4;
                    IReal 300 800; IReal 4000 5500] n)
  else
    [IReal 0.8 1.5].

Definition within (q : Q) (i : Q * Q) : bool :=
  Qle_bool (fst i) q && Qle_bool q (snd i).

Definition number_within (e : dict) (k : string) (i : Q * Q) : bool :=
  match dict_get e k with
  | Some (VNum q) => within q i
  | _ => false
  end.

Fixpoint all_within (vs : list value) (bounds : list (Q * Q)) : bool :=
  match vs, bounds with
  | [], [] => true
  | VNum q :: vs', i :: bounds' => within q i && all_within vs' bounds'
  | _, _ => false
  end.

Definition numbers_within (e : dict) (k : string) (bounds : list (Q * Q))
  : bool :=
  match dict_get e k with
  | Some (VList vs) => all_within vs bounds
  | _ => false
  end.

Definition entries_within (check : dict -> bool) (es : list value) : bool :=
  forallb (fun e => match e with VDict d => check d | _ => false end) es.

(** The numeric fields of a record lie in the intervals documented for
    its archetype. *)
Definition record_within (metadata : dict) : bool :=
  match dict_get metadata "lighting_type", dict_get metadata "lights" with
  | Some (VStr t), Some (VList es) =>
      if String.eqb t "studio" then
        match es with
        | [VDict key; VDict fill; VDict back] =>
            number_within key "energy" (800, 1500) &&
            number_within key "color_temperature" (4000, 5500) &&
            number_within fill "energy" (200, 600) &&
            number_within fill "color_temperature" (6000, 7500) &&
            number_within back "energy" (400, 800) &&
            number_within back "color_temperature" (2700, 3500)
        | _ => false
        end
      else if String.eqb t "dramatic" then
        entries_within (fun d =>
          number_within d "energy" (1000, 2000) &&
          number_within d "color_temperature" (2700, 3500) &&
          numbers_within d "size" [(0.5, 2); (0.5, 2)]) es
      else if String.eqb t "natural" then
        match es with
        | [VDict sun; VDict fill] =>
            number_within sun "energy" (2, 5) &&
            number_within sun "color_temperature" (4000, 5500) &&
            numbers_within fill "position" [(-3, 3); (-3, 3); (1, 3)] &&
            number_within fill "energy" (200, 400) &&
            number_within fill "color_temperature" (6000, 7500) &&
            numbers_within fill "size" [(1, 3); (1, 3)]
        | _ => false
        end
      else if String.eqb t "random" then
        entries_within (fun d =>
          number_within d "energy" (300, 800) &&
          number_within d "color_temperature" (4000, 5500)) es
      else
        match dict_get metadata "env_map" with
        | Some (VDict env) => number_within env "strength" (0.8, 1.5)
        | _ => false
        end
  | _, _ => false
  end.

Definition roles_of (metadata : dict) : list (option value) :=
  match dict_get metadata "lights" with
  | Some (VList es) =>
      map (fun e => match e with
                    | VDict d => dict_get d "role"
                    | _ => None
                    end) es
  | _ => []
  end.

(** The number and kinds of lights of an archetype. *)
Definition cardinality (lighting_type : string) (lights : list light_object)
    (metadata : dict) : Prop :=
  if String.eqb lighting_type "studio" then
    map kind_of lights = [Area; Area; Area] /\
    roles_of metadata =
      [Some (VStr "key"); Some (VStr "fill"); Some (VStr "back")]
  else if String.eqb lighting_type "dramatic" then
    (List.length lights = 1 \/ List.length lights = 2)%nat /\
    Forall (fun o => kind_of o = Area) lights
  else if String.eqb lighting_type "natural" then
    map kind_of lights = [Sun; Area]
  else if String.eqb lighting_type "random" then
    (2 <= List.length lights <= 5)%nat /\
    Forall (fun o => kind_of o = Point) lights
  else
    lights = [].

(** ** Sampler runs *)

Section Runs.

Context {R : RandomSource} (L : MathLib).

Definition archetypes : list string := map fst lighting_types.

(** What a sampler run must have produced, for the archetype tagged
    [t]: the lights returned are the lights added to the scene; the
    record decodes to them in any world; the record carries the tag; the
    requests made of the random source are the documented intervals; and,
    with a lawful random source, the number and kinds of lights are those
    of the archetype and every draw and every recorded field lies within
    its interval. *)
Definition sampled_well (t : string) (out : list light_object * dict)
    (ds : list draw) (added : list light_object) : Prop :=
  let (lights, metadata) := out in
  added = lights /\
  (forall wd : world R,
     setup_lighting_from_metadata metadata wd =
     (inr lights, with_lights wd lights)) /\
  dict_get metadata "lighting_type" = Some (VStr t) /\
  map request_of ds = documented_intervals L t (List.length lights) /\
  (rs_lawful R ->
   cardinality t lights metadata /\
   (0 <= m_pi L -> Forall draw_within ds /\ record_within metadata = true)).

Definition studio_lights (ke fe be kt ft bt : Q) : list light_object :=
  [area_light (4, -4, 4) (radians L 45, 0, radians L 45)
     ke (blackbody_to_rgb kt) 2 1;
   area_light (-4, -4, 2) (radians L 30, 0, radians L (-45))
     fe (blackbody_to_rgb ft) 3 2;
   area_light (0, 4, 3) (radians L (-45), 0, 0)
     be (blackbody_to_rgb bt) 2 0.5].

Definition natural_lights (se st : Q) (rot : vec3) (angle fe ft : Q)
    (pos : vec3) (s0 s1 : Q) : list light_object :=
  [sun_light rot se (blackbody_to_rgb st) angle;
   area_light pos (0, 0, 0) fe (blackbody_to_rgb ft) s0 s1].

Definition record_of (t : string) (es : list value) : dict :=
  [("lighting_type", VStr t); ("lights", VList es)].

(** One turn of a sampling loop: the light, its entry, its draws. *)
Definition item : Type := (light_object * value * list draw)%type.
Definition item_light (it : item) : light_object := fst (fst it).
Definition item_entry (it : item) : value := snd (fst it).
Definition item_draws (it : item) : list draw := snd it.

Definition dramatic_requests : list interval :=
  [IReal 0 (2 * m_pi L); IReal 0 (m_pi L / 2); IReal 2 4;
   IReal 1000 2000; IReal 2700 3500; IReal 0.5 2; IReal 0.5 2].

Definition dramatic_check (d : dict) : bool :=
  number_within d "energy" (1000, 2000) &&
  number_within d "color_temperature" (2700, 3500) &&
  numbers_within d "size" [(0.5, 2); (0.5, 2)].

Definition random_requests : list interval :=
  [IReal 0 (2 * m_pi L); IReal 0 (m_pi L); IReal 2 4;
   IReal 300 800; IReal 4000 5500].

Definition random_check (d : dict) : bool :=
  number_within d "energy" (300, 800) &&
  number_within d "color_temperature" (4000, 5500).

(** What one turn of a loop establishes. *)
Definition turn_ok (k : light_kind)
    (body : value -> list light_object -> M R (list light_object))
    (requests : list interval) (check : dict -> bool)
    (o : light_object) (e : value) (ds : list draw) : Prop :=
  kind_of o = k /\
  (forall acc (wd : world R),
     body e acc wd = (inr (acc ++ [o]), with_lights wd [o])) /\
  map request_of ds = requests /\
  (rs_lawful R -> 0 <= m_pi L ->
   Forall draw_within ds /\
   match e with VDict d => check d | _ => false end = true).

Definition turns_ok (k : light_kind)
    (body : value -> list light_object -> M R (list light_object))
    (requests : list interval) (check : dict -> bool) (items : list item)
  : Prop :=
  Forall (fun it => turn_ok k body requests check
                      (item_light it) (item_entry it) (item_draws it)) items.

End Runs.

(** ** Records and sources used as examples *)

Definition key_entry : value :=
  VDict [("type", VStr "area"); ("role", VStr "key");
         ("energy", VNum 1000); ("color_temperature", VNum 2700);
         ("position", VList [VNum 4; VNum (-4); VNum 4]);
         ("rotation", VList [VNum 0; VNum 0; VNum 0]);
         ("size", VList [VNum 2; VNum 1])].

Definition back_entry : value :=
  VDict [("type", VStr "area"); ("role", VStr "back");
         ("energy", VNum 600); ("color_temperature", VNum 3000);
         ("position", VList [VNum 0; VNum 4; VNum 3]);
         ("rotation", VList [VNum 0; VNum 0; VNum 0]);
         ("size", VList [VNum 2; VNum 0.5])].

(** A studio record whose second entry has no [role]. *)
Definition studio_second_without_role : dict :=
  [("lighting_type", VStr "studio");
   ("lights", VList [key_entry; VDict [("type", VStr "area")]])].

(** A studio record whose second entry has a role that is none of
    [key], [fill], [back], and the same record without that entry. *)
Definition studio_with_unknown : dict :=
  [("lighting_type", VStr "studio");
   ("lights", VList [key_entry; VDict [("role", VStr "unknown")]; back_entry])].

Definition studio_key_back : dict :=
  [("lighting_type", VStr "studio");
   ("lights", VList [key_entry; back_entry])].

(** A natural record whose sun has no [energy], after a complete fill
    light. *)
Definition natural_sun_without_energy : dict :=
  [("lighting_type", VStr "natural");
   ("lights", VList [
      VDict [("type", VStr "area"); ("role", VStr "fill");
             ("energy", VNum 300); ("color_temperature", VNum 6500);
             ("position", VList [VNum 1; VNum 2; VNum 3]);
             ("size", VList [VNum 1; VNum 2])];
      VDict [("type", VStr "sun"); ("role", VStr "main");
             ("color_temperature", VNum 5000);
             ("rotation", VList [VNum (-1); VNum 2; VNum 0]);
             ("angle", VNum 0.05)]])].

(** A studio record whose key light stores the color black next to its
    color temperature. *)
Definition studio_with_stored_color : dict :=
  [("lighting_type", VStr "studio");
   ("lights", VList [
      VDict [("type", VStr "area"); ("role", VStr "key");
             ("energy", VNum 1000); ("color_temperature", VNum 2700);
             ("color", VList [VNum 0; VNum 0; VNum 0]);
             ("position", VList [VNum 4; VNum (-4); VNum 4]);
             ("rotation", VList [VNum 0; VNum 0; VNum 0]);
             ("size", VList [VNum 2; VNum 1])]])].

(** A studio record whose key light has a number for its position and
    no other parameter. *)
Definition studio_position_number : dict :=
  [("lighting_type", VStr "studio");
   ("lights", VList [VDict [("role", VStr "key"); ("position", VNum 5)]])].

(** A random source that answers 0 and 1/2 in turn. *)
Definition alternating : RandomSource :=
  replay (fun n => if Nat.even n then 0 else 1 # 2) (fun _ => 0%Z).

(** ** Colors a display can show *)

(** Every channel of the color lies in [0, 1]. *)
Definition in_gamut (c : vec3) : Prop :=
  let '(r, g, b) := c in
  (0 <= r /\ r <= 1) /\ (0 <= g /\ g <= 1) /\ (0 <= b /\ b <= 1).

Definition blue (c : vec3) : Q := snd c.

Definition blue_f (c : float * float * float) : float := snd c.

(** Every channel of [c] is at most the same channel of [c']. *)
Definition channels_le (c c' : vec3) : Prop :=
  let '(r, g, b) := c in
  let '(r', g', b') := c' in
  r <= r' /\ g <= g' /\ b <= b'.

(** The color of a fill light, whose temperature is drawn from the cool
    band: white but for a blue between 0.95 and 1.1 (0.96 and 1.08 are
    its values at the ends of the band, up to rounding). *)
Definition cool_fill (o : light_object) : Prop :=
  let '(r, g, b) := color_of o in
  r == 1 /\ g == 1 /\ 19 # 20 <= b /\ b <= 11 # 10.

(** The colors of the lights of an archetype: every light but the fill
    light of studio and natural setups has a color a display can show. *)
Definition colors_generated (t : string) (lights : list light_object)
  : Prop :=
  if String.eqb t "studio" then
    match lights with
    | [key; fill; back] =>
        in_gamut (color_of key) /\ cool_fill fill /\ in_gamut (color_of back)
    | _ => False
    end
  else if String.eqb t "natural" then
    match lights with
    | [sun; fill] => in_gamut (color_of sun) /\ cool_fill fill
    | _ => False
    end
  else Forall (fun o => in_gamut (color_of o)) lights.

(** ** The selector and the type argument *)

(** The type the selector gives for the number [u] that [random()]
    answers: the first whose cumulative weight exceeds [u], so that
    studio, dramatic, natural, random and env_map get 25, 20, 25, 15 and
    15 hundredths of [0, 1). *)
Definition selected (u : Q) : string :=
  if Qle_bool 0.85 u then "env_map"
  else if Qle_bool 0.70 u then "random"
  else if Qle_bool 0.45 u then "natural"
  else if Qle_bool 0.25 u then "dramatic"
  else "studio".

(** [u] is at least a billionth away from the four thresholds, where
    the sums of the weights that the selector compares with, computed in
    floating point, need not be the sums of the rationals. *)
Definition clear_of_thresholds (u : Q) : Prop :=
  Forall (fun c => u + (1 # 1000000000) <= c \/ c + (1 # 1000000000) <= u)
         [0.25; 0.45; 0.70; 0.85].

Definition invalid_type (t : string) : exn :=
  Exn ValueError "Invalid lighting type: {}. Must be one of {}"
    [VStr t; VList (map VStr archetypes)].

(** ** Labels of generated entries *)

Definition kind_name (k : light_kind) : string :=
  match k with
  | Point => "point"
  | Area => "area"
  | Sun => "sun"
  end.

Definition field_of (k : string) (e : value) : option value :=
  match e with
  | VDict d => dict_get d k
  | _ => None
  end.

Definition types_of (metadata : dict) : list (option value) :=
  match dict_get metadata "lights" with
  | Some (VList es) => map (field_of "type") es
  | _ => []
  end.

(** [prefix1], [prefix2], ..., [prefixn]. *)
Definition numbered (prefix : string) (n : nat) : list (option value) :=
  map (fun i => Some (VStr (prefix ++ string_of_nat (i + 1)))) (seq 0 n).

(** The roles the generator writes for [n] lights of the archetype
    tagged [t]. *)
Definition roles_written (t : string) (n : nat) : list (option value) :=
  if String.eqb t "studio" then
    [Some (VStr "key"); Some (VStr "fill"); Some (VStr "back")]
  else if String.eqb t "dramatic" then numbered "dramatic_" n
  else if String.eqb t "natural" then [Some (VStr "main"); Some (VStr "fill")]
  else if String.eqb t "random" then numbered "random_" n
  else [].

(** The record says of every light which one it is and what it is. *)
Definition labelled (t : string) (out : list light_object * dict) : Prop :=
  let (lights, metadata) := out in
  roles_of metadata = roles_written t (List.length lights) /\
  types_of metadata =
    map (fun o => Some (VStr (kind_name (kind_of o)))) lights.

(** One turn of a sampling loop wrote the role [prefix(i+1)] and the
    type of the light. *)
Definition turn_labelled (prefix : string) (i : nat) (o : light_object)
    (e : value) : Prop :=
  field_of "role" e = Some (VStr (prefix ++ string_of_nat (i + 1))) /\
  field_of "type" e = Some (VStr (kind_name (kind_of o))).

(** ** Positions on a sphere *)

(** The square of the distance from the origin, and the height. *)
Definition norm2 (v : vec3) : Q :=
  let '(x, y, z) := v in x * x + y * y + z * z.

Definition height (v : vec3) : Q := snd v.

(** A light whose distance from the origin lies between [lo] and
    [hi], up to the factors [1 - eps] and [1 + eps]. *)
Definition in_shell (lo hi eps : Q) (o : light_object) : Prop :=
  lo * lo * ((1 - eps) * (1 - eps)) <= norm2 (location o) /\
  norm2 (location o) <= hi * hi * ((1 + eps) * (1 + eps)).

(** What the properties of positions ask of [sin] and [cos], on the
    angles that are drawn: [sin^2 + cos^2] is 1 up to [eps], as it is for
    any sine and cosine computed to that accuracy; and the cosine of an
    angle between 0 and [pi / 2] is not negative. *)
Definition pythagorean (L : MathLib) (eps : Q) : Prop :=
  forall x, 0 <= x -> x <= 2 * m_pi L ->
    1 - eps <= m_sin L x * m_sin L x + m_cos L x * m_cos L x /\
    m_sin L x * m_sin L x + m_cos L x * m_cos L x <= 1 + eps.

Definition cos_of_acute (L : MathLib) : Prop :=
  forall x, 0 <= x -> x <= m_pi L / 2 -> 0 <= m_cos L x.

(** Where a dramatic and a random light are, given a lawful random
    source and these properties. *)
Definition dramatic_place (R : RandomSource) (L : MathLib) (eps : Q)
    (o : light_object) : Prop :=
  rs_lawful R -> 0 <= m_pi L -> 0 <= eps -> eps <= 1 ->
  pythagorean L eps -> cos_of_acute L ->
  in_shell 2 4 eps o /\ 0 <= height (location o).

Definition random_place (R : RandomSource) (L : MathLib) (eps : Q)
    (o : light_object) : Prop :=
  rs_lawful R -> 0 <= m_pi L -> 0 <= eps -> eps <= 1 ->
  pythagorean L eps -> in_shell 2 4 eps o.

(** A rational [math] whose sine and cosine lie on the unit circle: the
    parametrization of the circle by the tangent of the half angle, the
    half angle standing for its tangent. *)
Definition tangent_math : MathLib := {|
  m_pi := 355 # 113;
  m_sin := fun x => x / (1 + (x / 2) * (x / 2));
  m_cos := fun x => (1 - (x / 2) * (x / 2)) / (1 + (x / 2) * (x / 2));
  m_sqrt := fun x => (x + 1) / 2;
  m_atan2 := fun y x => y / (1 + x * x) |}.

(** ** What the decoder's loops create and read *)

(** The lights the loop of an archetype can create, whatever its entries
    say: rectangular area lights for studio and dramatic records; suns,
    which stay at the origin, and unrotated rectangular area lights for
    natural records; unrotated point lights for random records. *)
Definition made_by (a : archetype) (o : light_object) : Prop :=
  match a with
  | Studio | Dramatic =>
      exists e c sx sy, data o = AREA e c RECTANGLE sx (Some sy)
  | Natural =>
      (exists e c angle, data o = SUN e c angle /\ location o = origin) \/
      (exists e c sx sy, data o = AREA e c RECTANGLE sx (Some sy) /\
                         rotation_euler o = origin)
  | RandomPoints =>
      exists e c s, data o = POINT e c s /\ rotation_euler o = origin
  end.

(** Every key the loop of an archetype looks up in an entry. *)
Definition keys_read (a : archetype) : list string :=
  match a with
  | Studio =>
      ["role"; "position"; "rotation"; "energy"; "color_temperature"; "size"]
  | Dramatic =>
      ["type"; "position"; "rotation"; "energy"; "color_temperature"; "size"]
  | Natural =>
      ["type"; "rotation"; "energy"; "color_temperature"; "angle";
       "position"; "size"]
  | RandomPoints => ["type"; "position"; "energy"; "color"; "size"]
  end.

(** Two entries that have the same values under the keys the loop
    reads. *)
Definition alike (a : archetype) (e e' : dict) : Prop :=
  forall k, In k (keys_read a) -> dict_get e k = dict_get e' k.

(** ** Lights of [setup_random_lighting] *)


(** A point light of the default size with an energy between 500 and
    2000 and a color a display can show. *)
Definition colored_point (o : light_object) : Prop :=
  exists loc e c,
    o = Light (POINT e c (1 # 10)) loc origin /\
    500 <= e /\ e <= 2000 /\ in_gamut c.

(** ** More records used as examples *)

(** A record tagged env_map whose [lights] are a number. *)
Definition env_map_with_junk : dict :=
  [("lighting_type", VStr "env_map"); ("lights", VNum 3)].

(** A studio record whose only entry calls itself a point light. *)
Definition studio_point_entry : dict :=
  [("lighting_type", VStr "studio");
   ("lights", VList [
      VDict [("type", VStr "point"); ("role", VStr "key");
             ("energy", VNum 1000); ("color_temperature", VNum 4000);
             ("color", VList [VNum 0; VNum 0; VNum 1]);
             ("position", VList [VNum 4; VNum (-4); VNum 4]);
             ("rotation", VList [VNum 0; VNum 0; VNum 0]);
             ("size", VList [VNum 2; VNum 1])]])].

(** The entry of [studio_with_stored_color] with its keys in another
    order, without the stored [color] and [type], and with a name. *)
Definition reordered_entry : dict :=
  [("size", VList [VNum 2; VNum 1]);
   ("rotation", VList [VNum 0; VNum 0; VNum 0]);
   ("position", VList [VNum 4; VNum (-4); VNum 4]);
   ("color_temperature", VNum 2700);
   ("energy", VNum 1000);
   ("role", VStr "key");
   ("name", VStr "main light")].

Definition studio_reordered : dict :=
  [("note", VStr "edited by hand");
   ("lights", VList [VDict reordered_entry]);
   ("lighting_type", VStr "studio")].

(** * Properties *)

(** ** The Color-Temperature Model *)

Lemma blackbody_to_rgb_low (t : Q) :
  t <= 4000 ->
  blackbody_to_rgb t =
    (1.0, 0.7 + 0.3 * (t - 2700) / 1300, 0.4 + 0.6 * (t - 2700) / 1300).
Proof.
  intros H. unfold blackbody_to_rgb.
  apply Qle_bool_iff in H. now rewrite H.
Qed.

Lemma blackbody_to_rgb_high (t : Q) :
  4000 < t ->
  blackbody_to_rgb t = (1.0, 1.0, 0.8 + 0.2 * (t - 4000) / 2500).
Proof.
  intros H. unfold blackbody_to_rgb.
  destruct (Qle_bool t 4000) eqn:E; [|reflexivity].
  apply Qle_bool_iff in E. exfalso. now apply (Qlt_not_le _ _ H).
Qed.

(** C2, as stated, fails at 4000 K: the first branch is the one that
    applies there, and it gives blue = 0.4 + 0.6 = 1, not 0.8. *)
Lemma blackbody_4000_is_not_08 :
  ~ (rgb_eq (blackbody_to_rgb 2700) (1.0, 0.7, 0.4) /\
     rgb_eq (blackbody_to_rgb 4000) (1.0, 1.0, 0.8) /\
     rgb_eq (blackbody_to_rgb 6500) (1.0, 1.0, 1.0)).
Proof.
  intros (_ & (_ & _ & Hb) & _).
  vm_compute in Hb. discriminate Hb.
Qed.

(** C2, amended: the spot values of the Kelvin-to-RGB model are
    (1, 0.7, 0.4) at 2700 K, (1, 1, 1) at 4000 K, which the first branch
    ([temperature <= 4000]) computes, and (1, 1, 1) at 6500 K; over the
    rationals and, bit for bit, over binary64. *)
Theorem blackbody_spot_values :
  rgb_eq (blackbody_to_rgb 2700) (1.0, 0.7, 0.4) /\
  rgb_eq (blackbody_to_rgb 4000) (1.0, 1.0, 1.0) /\
  rgb_eq (blackbody_to_rgb 6500) (1.0, 1.0, 1.0) /\
  blackbody_to_rgb 4000 =
    (1.0, 0.7 + 0.3 * (4000 - 2700) / 1300, 0.4 + 0.6 * (4000 - 2700) / 1300) /\
  blackbody_to_rgb_f 2700 = (1.0, 0.7, 0.4)%float /\
  blackbody_to_rgb_f 4000 = (1.0, 1.0, 1.0)%float /\
  blackbody_to_rgb_f 6500 = (1.0, 1.0, 1.0)%float.
Proof.
  repeat split; try reflexivity.
Qed.

(** ** The world monad *)

Section Frame.

Context {R : RandomSource}.

Lemma world_eta (w : world R) : World (w_rng w) (w_draws w) (w_scene w) = w.
Proof. now destruct w. Qed.

Lemma bind_lift_inr {A B : Type} (r : result A) (k : A -> M R B) w x :
  r = inr x -> bind (lift r) k w = k x w.
Proof. intros ->. reflexivity. Qed.

Lemma bind_lift_inl {A B : Type} (r : result A) (k : A -> M R B) w e :
  r = inl e -> bind (lift r) k w = (inl e, w).
Proof. intros ->. reflexivity. Qed.

Lemma for_each_app {A S : Type} (xs ys : list A) (body : A -> S -> M R S) acc :
  forall w,
    for_each (xs ++ ys) body acc w =
    bind (for_each xs body acc) (for_each ys body) w.
Proof.
  revert acc. induction xs as [|x xs IH]; intros acc w; simpl.
  - reflexivity.
  - unfold bind in *. destruct (body x acc w) as [[e|acc'] w1].
    + reflexivity.
    + apply IH.
Qed.

Lemma framed_lift {A : Type} (r : result A) : framed (R:=R) (lift r).
Proof.
  exists r, []. intros w. unfold lift.
  now rewrite app_nil_r, world_eta.
Qed.

Lemma framed_ret {A : Type} (x : A) : framed (ret (R:=R) x).
Proof. exact (framed_lift (inr x)). Qed.

Lemma framed_raise {A : Type} (e : exn) : framed (raise (R:=R) (A:=A) e).
Proof. exact (framed_lift (inl e)). Qed.

Lemma framed_bind {A B : Type} (c : M R A) (k : A -> M R B) :
  framed c -> (forall x, framed (k x)) -> framed (bind c k).
Proof.
  intros (r & a & Hc) Hk. destruct r as [e|x].
  - exists (inl e), a. intros w. unfold bind. now rewrite Hc.
  - destruct (Hk x) as (r' & a' & Hk').
    exists r', (a ++ a'). intros w. unfold bind.
    rewrite Hc, Hk'. simpl. now rewrite app_assoc.
Qed.

Lemma framed_if {A : Type} (b : bool) (c1 c2 : M R A) :
  framed c1 -> framed c2 -> framed (if b then c1 else c2).
Proof. now destruct b. Qed.

Lemma framed_for_each {A S : Type} (xs : list A) (body : A -> S -> M R S) :
  (forall x acc, framed (body x acc)) ->
  forall acc, framed (for_each xs body acc).
Proof.
  intros Hb. induction xs as [|x xs IH]; intros acc; simpl.
  - apply framed_ret.
  - apply framed_bind; [apply Hb | apply IH].
Qed.

Lemma set_nth_length {A : Type} (l : list A) (x y : A) :
  set_nth (List.length l) y (l ++ [x]) = l ++ [y].
Proof. induction l as [|z l IH]; simpl; [reflexivity | now rewrite IH]. Qed.

End Frame.

(** ** The gateway and the decoder are framed *)

Section Framed.

Context {R : RandomSource}.

Ltac frame_lifts :=
  repeat (apply framed_bind; [apply framed_lift | intro]).

Lemma framed_link_set1 (d : light_data) (v : value) (what : string)
    (mk : vec3 -> light_object) :
  framed (R:=R)
    (bind (objects_link (Light d origin origin)) (fun h =>
     bind (lift (host_vec3 what v)) (fun x =>
     bind (object_set h (mk x)) (fun _ => ret (mk x))))).
Proof.
  destruct (host_vec3 what v) as [e|x] eqn:Hv.
  - exists (inl e), [Light d origin origin]. intros w.
    reflexivity.
  - exists (inr (mk x)), [mk x]. intros w.
    unfold bind, objects_link, lift, object_set, ret. simpl.
    now rewrite set_nth_length.
Qed.

Lemma framed_add_point_light (location energy color size : value) :
  framed (R:=R) (add_point_light location energy color size).
Proof.
  unfold add_point_light. frame_lifts.
  apply (framed_link_set1 _ location "location"
           (fun loc => Light (POINT x x0 x1) loc origin)).
Qed.

Lemma framed_add_sun_light (rotation energy color angle : value) :
  framed (R:=R) (add_sun_light rotation energy color angle).
Proof.
  unfold add_sun_light. frame_lifts.
  apply (framed_link_set1 _ rotation "rotation_euler"
           (fun rot => Light (SUN x x0 x1) origin rot)).
Qed.

Lemma framed_add_area_light
    (location rotation energy color size : value) (shape : string) :
  framed (R:=R) (add_area_light location rotation energy color size shape).
Proof.
  unfold add_area_light. frame_lifts.
  apply framed_bind.
  { apply framed_if; [frame_lifts; apply framed_ret | apply framed_ret]. }
  intros sy.
  set (d := AREA x x0 x1 (x3) sy).
  destruct (host_vec3 "location" location) as [e|loc] eqn:Hl.
  - exists (inl e), [Light d origin origin]. intros w.
    reflexivity.
  - destruct (host_vec3 "rotation_euler" rotation) as [e|rot] eqn:Hr.
    + exists (inl e), [Light d loc origin]. intros w.
      unfold bind, objects_link, lift, object_set. simpl.
      now rewrite set_nth_length.
    + exists (inr (Light d loc rot)), [Light d loc rot]. intros w.
      unfold bind, objects_link, lift, object_set, ret. simpl.
      now rewrite !set_nth_length.
Qed.

Lemma framed_studio_entry (light_info : value) lights :
  framed (R:=R) (studio_entry light_info lights).
Proof.
  unfold studio_entry. frame_lifts.
  apply framed_if; [apply framed_raise|]. frame_lifts.
  apply framed_if; [|apply framed_ret]. frame_lifts.
  apply framed_bind; [apply framed_add_area_light | intro; apply framed_ret].
Qed.

Lemma framed_dramatic_entry (light_info : value) lights :
  framed (R:=R) (dramatic_entry light_info lights).
Proof.
  unfold dramatic_entry. frame_lifts.
  apply framed_if; [apply framed_raise|]. frame_lifts.
  apply framed_if; [|apply framed_ret]. frame_lifts.
  apply framed_bind; [apply framed_add_area_light | intro; apply framed_ret].
Qed.

Lemma framed_natural_entry (light_info : value) lights :
  framed (R:=R) (natural_entry light_info lights).
Proof.
  unfold natural_entry. frame_lifts.
  apply framed_if; [apply framed_raise|]. frame_lifts.
  apply framed_if.
  - frame_lifts.
    apply framed_bind; [apply framed_add_sun_light | intro; apply framed_ret].
  - frame_lifts. apply framed_if; [|apply framed_ret]. frame_lifts.
    apply framed_bind; [apply framed_add_area_light | intro; apply framed_ret].
Qed.

Lemma framed_random_entry (light_info : value) lights :
  framed (R:=R) (random_entry light_info lights).
Proof.
  unfold random_entry. frame_lifts.
  apply framed_if; [apply framed_raise|]. frame_lifts.
  apply framed_if; [|apply framed_ret]. frame_lifts.
  apply framed_bind; [apply framed_add_point_light | intro; apply framed_ret].
Qed.

Lemma framed_setup_lighting_from_metadata (metadata : dict) :
  framed (R:=R) (setup_lighting_from_metadata metadata).
Proof.
  unfold setup_lighting_from_metadata.
  destruct (dict_get metadata "lighting_type") as [v|]; [|apply framed_raise].
  assert (H : framed (R:=R)
    (if negb (in_strs v valid_types)
     then raise (Exn ValueError "Invalid lighting_type: {}. Must be one of {}"
                   [v; VList (map VStr valid_types)])
     else
       if is_str "env_map" v then ret []
       else if negb (dict_has metadata "lights")
       then raise (Exn KeyError
              "Metadata for {} lighting must include 'lights' array" [v])
       else
         bind (lift match dict_get metadata "lights" with
                    | Some v0 => py_iter v0
                    | None => inl (Exn KeyError "{}" [VStr "lights"])
                    end)
           (fun entries =>
            if is_str "studio" v then for_each entries studio_entry []
            else if is_str "dramatic" v then for_each entries dramatic_entry []
            else if is_str "natural" v then for_each entries natural_entry []
            else for_each entries random_entry []))).
  { apply framed_if; [apply framed_raise|].
    apply framed_if; [apply framed_ret|].
    apply framed_if; [apply framed_raise|].
    frame_lifts.
    repeat apply framed_if; apply framed_for_each; intros.
    - apply framed_studio_entry.
    - apply framed_dramatic_entry.
    - apply framed_natural_entry.
    - apply framed_random_entry. }
  destruct v; try exact H. apply framed_raise.
Qed.

End Framed.

(** ** Reconstruction: determinism and failure *)

(** C9: reconstruction consumes no randomness and is a function of the
    record alone: two runs on the same record, in worlds that differ in
    the state of the random source, in what was drawn so far and in what
    the scene holds, return the same lights (or raise the same error) and
    add the same lights to the scene; the random source is left as it
    was. *)
Theorem reconstruction_is_deterministic
    (R : RandomSource) (metadata : dict) (w1 w2 : world R) :
  fst (setup_lighting_from_metadata metadata w1) =
  fst (setup_lighting_from_metadata metadata w2) /\
  (exists added,
     w_scene (snd (setup_lighting_from_metadata metadata w1)) =
       w_scene w1 ++ added /\
     w_scene (snd (setup_lighting_from_metadata metadata w2)) =
       w_scene w2 ++ added) /\
  w_rng (snd (setup_lighting_from_metadata metadata w1)) = w_rng w1 /\
  w_draws (snd (setup_lighting_from_metadata metadata w1)) = w_draws w1.
Proof.
  destruct (framed_setup_lighting_from_metadata (R:=R) metadata)
    as (r & added & H).
  rewrite (H w1), (H w2). simpl.
  repeat split. now exists added.
Qed.

Lemma in_strs_VNone (l : list string) : in_strs VNone l = false.
Proof. induction l; simpl; auto. Qed.

Lemma failed_validation (R : RandomSource) (metadata : dict) (w : world R) :
  passes_validation metadata = false ->
  exists e, setup_lighting_from_metadata metadata w = (inl e, w).
Proof.
  unfold passes_validation, setup_lighting_from_metadata.
  destruct (dict_get metadata "lighting_type") as [v|];
    [|intros _; eexists; reflexivity].
  intros H.
  assert (Hv : in_strs v valid_types = false \/
               (in_strs v valid_types = true /\ is_str "env_map" v = false /\
                dict_has metadata "lights" = false)).
  { destruct (in_strs v valid_types); [right|now left].
    simpl in H. apply orb_false_iff in H. tauto. }
  destruct Hv as [Hv|(Hv & He & Hl)].
  - destruct v; rewrite ?Hv; simpl; eexists; reflexivity.
  - destruct v; try (rewrite in_strs_VNone in Hv; discriminate);
      rewrite Hv, He, Hl; simpl; eexists; reflexivity.
Qed.

(** C6, as stated, fails: the key light of the record is in the scene
    when the second entry makes the call raise. *)
Lemma failed_decode_leaves_a_light :
  ~ (forall (R : RandomSource) (metadata : dict) (w w' : world R) (e : exn),
       setup_lighting_from_metadata metadata w = (inl e, w') ->
       w_scene w' = w_scene w).
Proof.
  intros H.
  destruct (setup_lighting_from_metadata studio_second_without_role
              (empty_world low_source 0%nat)) as [[e|ls] w'] eqn:E.
  - pose proof (H _ _ _ _ _ E) as Hs.
    vm_compute in E. injection E as _ <-.
    vm_compute in Hs. discriminate Hs.
  - vm_compute in E. discriminate E.
Qed.

(** ** Validation of a record *)

(** C4, as stated, fails: however the errors are sorted into kinds, a
    record in which [lighting_type] is present with the value [null],
    which is none of the five valid values, raises the very error that a
    record without the key raises. *)
Lemma null_lighting_type_raises_as_absent :
  ~ (exists kind : exn -> error_kind,
       forall (R : RandomSource) (metadata : dict) (w : world R),
         (dict_get metadata "lighting_type" = None ->
          exists e w', setup_lighting_from_metadata metadata w = (inl e, w') /\
                       kind e = MissingField) /\
         (forall v, dict_get metadata "lighting_type" = Some v ->
                    in_strs v valid_types = false ->
          exists e w', setup_lighting_from_metadata metadata w = (inl e, w') /\
                       kind e = InvalidEnum) /\
         (forall t, dict_get metadata "lighting_type" = Some (VStr t) ->
                    In t ["studio"; "dramatic"; "natural"; "random"] ->
                    dict_get metadata "lights" = None ->
          exists e w', setup_lighting_from_metadata metadata w = (inl e, w') /\
                       kind e = MissingField)).
Proof.
  intros (kind & H).
  pose (w := empty_world low_source 0%nat).
  destruct (H low_source [] w) as (Habsent & _ & _).
  destruct (H low_source [("lighting_type", VNone)] w) as (_ & Hnull & _).
  destruct (Habsent eq_refl) as (e1 & w1 & E1 & K1).
  destruct (Hnull VNone eq_refl eq_refl) as (e2 & w2 & E2 & K2).
  vm_compute in E1. vm_compute in E2.
  injection E1 as <- _. injection E2 as <- _.
  rewrite K1 in K2. discriminate K2.
Qed.

(** C4, amended: in this order, the call raises [ValueError] ("Metadata
    must include 'lighting_type'") when [lighting_type] is absent or
    null; [ValueError] again, with another message, when it is present,
    not null and not one of the five valid values; and, for the four
    archetypes with lights, [KeyError] when the [lights] key is absent.
    The first two errors have the same class and differ in their
    message; none of the three touches the world. *)
Theorem decode_validation
    (R : RandomSource) (metadata : dict) (w : world R) :
  (dict_get metadata "lighting_type" = None \/
   dict_get metadata "lighting_type" = Some VNone ->
   setup_lighting_from_metadata metadata w = (inl missing_lighting_type, w)) /\
  (forall v,
     dict_get metadata "lighting_type" = Some v -> v <> VNone ->
     in_strs v valid_types = false ->
     setup_lighting_from_metadata metadata w =
       (inl (invalid_lighting_type v), w)) /\
  (forall t,
     dict_get metadata "lighting_type" = Some (VStr t) ->
     In t ["studio"; "dramatic"; "natural"; "random"] ->
     dict_get metadata "lights" = None ->
     setup_lighting_from_metadata metadata w =
       (inl (missing_lights (VStr t)), w)) /\
  e_class missing_lighting_type = ValueError /\
  (forall v, e_class (invalid_lighting_type v) = ValueError) /\
  (forall v, e_class (missing_lights v) = KeyError).
Proof.
  unfold setup_lighting_from_metadata.
  repeat split.
  - intros [H|H]; now rewrite H.
  - intros v H Hn Hv. rewrite H, Hv.
    destruct v; try reflexivity. now elim Hn.
  - intros t H Ht Hl. rewrite H. unfold dict_has. rewrite Hl.
    simpl in Ht.
    destruct Ht as [<-|[<-|[<-|[<-|[]]]]]; reflexivity.
Qed.

Lemma decode_validation_witness :
  let w := empty_world low_source 0%nat in
  setup_lighting_from_metadata [] w = (inl missing_lighting_type, w) /\
  setup_lighting_from_metadata [("lighting_type", VNone)] w =
    (inl missing_lighting_type, w) /\
  setup_lighting_from_metadata [("lighting_type", VStr "bogus")] w =
    (inl (invalid_lighting_type (VStr "bogus")), w) /\
  setup_lighting_from_metadata [("lighting_type", VStr "studio")] w =
    (inl (missing_lights (VStr "studio")), w).
Proof.
  intros w. split; [|split; [|split]].
  - apply (decode_validation low_source [] w). left. reflexivity.
  - apply (decode_validation low_source [("lighting_type", VNone)] w).
    right. reflexivity.
  - apply (decode_validation low_source [("lighting_type", VStr "bogus")] w).
    + reflexivity.
    + discriminate.
    + reflexivity.
  - apply (decode_validation low_source [("lighting_type", VStr "studio")] w).
    + reflexivity.
    + simpl. tauto.
    + reflexivity.
Defined.

(** ** Light entries *)

Section Entries.

Context {R : RandomSource}.

Lemma decode_light_bearing (a : archetype) (metadata : dict) (v : value)
    (w : world R) :
  dict_get metadata "lighting_type" = Some (VStr (tag a)) ->
  dict_get metadata "lights" = Some v ->
  setup_lighting_from_metadata metadata w =
  bind (lift (py_iter v))
       (fun entries => for_each entries (entry_body a) []) w.
Proof.
  intros Ht Hl. unfold setup_lighting_from_metadata, dict_has.
  rewrite Ht, Hl. destruct a; reflexivity.
Qed.

Lemma entry_without_discriminant (a : archetype) (e : dict) lights
    (w : world R) :
  dict_get e (discriminant a) = None ->
  entry_body a (VDict e) lights w = (inl (missing_discriminant a), w).
Proof.
  intros H.
  destruct a; simpl in *;
    unfold studio_entry, dramatic_entry, natural_entry, random_entry,
      bind, lift, py_contains, dict_has;
    now rewrite H.
Qed.

Lemma entry_unrecognized (a : archetype) (e : dict) (v : value) lights
    (w : world R) :
  dict_get e (discriminant a) = Some v ->
  recognized a v = false ->
  entry_body a (VDict e) lights w = (inr lights, w).
Proof.
  intros H Hv.
  destruct a; simpl in *;
    unfold studio_entry, dramatic_entry, natural_entry, random_entry,
      bind, lift, py_contains, py_getitem, dict_has;
    rewrite H; simpl.
  - now rewrite Hv.
  - now rewrite Hv.
  - apply orb_false_iff in Hv. destruct Hv as (-> & ->). reflexivity.
  - now rewrite Hv.
Qed.

(** The loop up to and including one entry. *)
Lemma for_each_at {A S : Type} (pre post : list A) (x : A)
    (body : A -> S -> M R S) acc w :
  for_each (pre ++ x :: post) body acc w =
  bind (for_each pre body acc)
       (fun acc1 => bind (body x acc1) (for_each post body)) w.
Proof. now rewrite for_each_app. Qed.

End Entries.

Lemma framed_entry_body {R : RandomSource} (a : archetype) (x : value) lights :
  framed (R:=R) (entry_body a x lights).
Proof.
  destruct a; simpl.
  - apply framed_studio_entry.
  - apply framed_dramatic_entry.
  - apply framed_natural_entry.
  - apply framed_random_entry.
Qed.

(** C6, amended: a call that fails returns no light list, only the
    error; it leaves the random source and the lights that were in the
    scene untouched, but nothing that it linked before failing is taken
    out again: the scene it leaves extends the scene it found, and it
    extends the scene reached after any run of entries that went through.
    The scene is unchanged when the record fails the checks made before
    the first entry ([lighting_type] absent, null or invalid, or no
    [lights] key). *)
Theorem failed_decode_keeps_linked_lights
    (R : RandomSource) (metadata : dict) (w w' : world R) (e : exn) :
  setup_lighting_from_metadata metadata w = (inl e, w') ->
  w_rng w' = w_rng w /\
  w_draws w' = w_draws w /\
  (exists added, w_scene w' = w_scene w ++ added) /\
  (forall a pre post lights w1,
     dict_get metadata "lighting_type" = Some (VStr (tag a)) ->
     dict_get metadata "lights" = Some (VList (pre ++ post)) ->
     for_each pre (entry_body a) [] w = (inr lights, w1) ->
     exists more, w_scene w' = w_scene w1 ++ more) /\
  (passes_validation metadata = false -> w' = w).
Proof.
  intros E.
  destruct (framed_setup_lighting_from_metadata (R:=R) metadata)
    as (r & added & H).
  pose proof (H w) as Hw. rewrite E in Hw.
  injection Hw as _ Hw'.
  split; [now rewrite Hw'|]. split; [now rewrite Hw'|].
  split; [exists added; now rewrite Hw'|].
  split.
  - intros a pre post lights w1 Ht Hl Hpre.
    rewrite (decode_light_bearing a _ _ w Ht Hl) in E.
    simpl in E. change (bind (lift (inr ?l)) ?k w) with (k l w) in E.
    cbv beta in E. rewrite for_each_app in E.
    unfold bind in E. rewrite Hpre in E.
    destruct (framed_for_each (R:=R) post (entry_body a)
                (framed_entry_body a) lights) as (r' & more & Hpost).
    rewrite Hpost in E. injection E as _ <-.
    now exists more.
  - intros Hv. destruct (failed_validation R metadata w Hv) as (e' & E').
    rewrite E' in E. injection E as _ <-.
    reflexivity.
Qed.

Lemma failed_decode_keeps_linked_lights_witness :
  let w := empty_world low_source 0%nat in
  let key_light :=
    Light (AREA 1000 (1, 7 # 10, 2 # 5) RECTANGLE 2 (Some 1))
          (4, -4, 4) (0, 0, 0) in
  let w' := @World low_source 0%nat [] [key_light] in
  exists more, w_scene w' = [key_light] ++ more.
Proof.
  intros w key_light w'.
  refine (proj1 (proj2 (proj2 (proj2
    (failed_decode_keeps_linked_lights low_source
       studio_second_without_role w w'
       (must_include "Studio light metadata must include 'role'") _))))
    Studio [key_entry] [VDict [("type", VStr "area")]] [key_light] w'
    eq_refl eq_refl _).
  - vm_compute. reflexivity.
  - vm_compute. reflexivity.
Defined.

(** C5: an entry without its discriminant key ([role] for studio,
    [type] for dramatic, natural and random) makes the call fail, with
    the "must include" [KeyError] once the entries before it are through;
    an entry whose discriminant is present with a value the archetype
    does not recognize is passed over: the call behaves, in result and in
    scene, as on the record without that entry. *)
Theorem permissive_skip
    (R : RandomSource) (a : archetype) (metadata : dict)
    (pre post : list value) (e : dict) (w : world R) :
  dict_get metadata "lighting_type" = Some (VStr (tag a)) ->
  dict_get metadata "lights" = Some (VList (pre ++ VDict e :: post)) ->
  (dict_get e (discriminant a) = None ->
     (exists err w', setup_lighting_from_metadata metadata w = (inl err, w')) /\
     (forall lights w1,
        for_each pre (entry_body a) [] w = (inr lights, w1) ->
        setup_lighting_from_metadata metadata w =
          (inl (missing_discriminant a), w1))) /\
  (forall v metadata',
     dict_get e (discriminant a) = Some v ->
     recognized a v = false ->
     dict_get metadata' "lighting_type" = Some (VStr (tag a)) ->
     dict_get metadata' "lights" = Some (VList (pre ++ post)) ->
     setup_lighting_from_metadata metadata w =
     setup_lighting_from_metadata metadata' w).
Proof.
  intros Ht Hl. rewrite (decode_light_bearing a _ _ w Ht Hl).
  simpl. change (bind (lift (inr ?l)) ?k w) with (k l w). cbv beta.
  rewrite for_each_at.
  split.
  - intros Hd.
    assert (Hafter : forall lights w1,
              for_each pre (entry_body a) [] w = (inr lights, w1) ->
              bind (for_each pre (entry_body a) [])
                (fun acc1 => bind (entry_body a (VDict e) acc1)
                               (for_each post (entry_body a))) w =
              (inl (missing_discriminant a), w1)).
    { intros lights w1 Hpre. unfold bind. rewrite Hpre.
      now rewrite (entry_without_discriminant a e lights w1 Hd). }
    split; [|exact Hafter].
    destruct (for_each pre (entry_body a) [] w) as [[err|lights] w1] eqn:Hpre.
    + exists err, w1. unfold bind. now rewrite Hpre.
    + exists (missing_discriminant a), w1. now apply (Hafter lights).
  - intros v metadata' Hd Hv Ht' Hl'.
    rewrite (decode_light_bearing a _ _ w Ht' Hl').
    simpl. change (bind (lift (inr ?l)) ?k w) with (k l w). cbv beta.
    rewrite for_each_app.
    unfold bind.
    destruct (for_each pre (entry_body a) [] w) as [[err|lights] w1];
      [reflexivity|].
    now rewrite (entry_unrecognized a e v lights w1 Hd Hv).
Qed.

Lemma permissive_skip_witness :
  let w := empty_world low_source 0%nat in
  setup_lighting_from_metadata studio_with_unknown w =
  setup_lighting_from_metadata studio_key_back w /\
  exists key back w',
    setup_lighting_from_metadata studio_with_unknown w =
      (inr [key; back], w').
Proof.
  intros w.
  pose proof
    (proj2 (permissive_skip low_source Studio studio_with_unknown
              [key_entry] [back_entry] [("role", VStr "unknown")] w
              eq_refl eq_refl)
       (VStr "unknown") studio_key_back eq_refl eq_refl eq_refl eq_refl)
    as H.
  split; [exact H|].
  rewrite H. vm_compute. eexists _, _, _. reflexivity.
Defined.

(** ** Parameter fields of a recognized entry *)

Lemma well_typed_get (e : dict) (k : string) (v : value) :
  well_typed_entry e = true -> dict_get e k = Some v ->
  field_well_typed k v = true.
Proof.
  induction e as [|[k' v'] e IH]; simpl; [discriminate|].
  intros H. apply andb_true_iff in H. destruct H as (H1 & H2).
  destruct (String.eqb k k') eqn:E.
  - apply String.eqb_eq in E. subst k'. now intros [= <-].
  - now apply IH.
Qed.

Lemma getitem_some (e : dict) (k : string) (x : value) :
  dict_get e k = Some x -> py_getitem (VDict e) k = inr x.
Proof. intros H. simpl. now rewrite H. Qed.

Lemma getitem_none (e : dict) (k : string) :
  dict_get e k = None -> py_getitem (VDict e) k = inl (key_error k).
Proof. intros H. simpl. now rewrite H. Qed.

Lemma contains_some (e : dict) (k : string) (x : value) :
  dict_get e k = Some x -> py_contains k (VDict e) = inr true.
Proof. intros H. simpl. unfold dict_has. now rewrite H. Qed.

Lemma tuple_iterable (p : value) :
  iterable p = true -> exists l, py_tuple p = inr (VList l).
Proof.
  unfold iterable, py_tuple. destruct (py_iter p) as [|l]; [discriminate|].
  now exists l.
Qed.

Lemma blackbody_number (t : value) :
  is_number t = true ->
  exists q, as_number t = Some q /\
            call_blackbody_to_rgb t = inr (tuple3 (blackbody_to_rgb q)).
Proof.
  unfold is_number, call_blackbody_to_rgb.
  destruct (as_number t) as [q|]; [|discriminate].
  now exists q.
Qed.

Section Fields.

Context {R : RandomSource}.

(** One read of the entry, at the head of what is left of the body. *)
Ltac read_field Hwt :=
  lazymatch goal with
  | |- bind (lift (py_contains _ (VDict _))) _ _ = _ =>
      erewrite bind_lift_inr by (eapply contains_some; eassumption)
  | |- bind (lift (py_getitem (VDict ?e) ?k)) _ _ = _ =>
      first
        [ erewrite bind_lift_inr by (apply getitem_some; eassumption)
        | erewrite bind_lift_inl by (apply getitem_none; eassumption);
          reflexivity ]
  | |- bind (lift (py_tuple ?p)) _ _ = _ =>
      let l := fresh "l" in
      let Hl := fresh "Hl" in
      destruct (tuple_iterable p) as (l & Hl);
      [ match goal with
        | H : dict_get _ ?k = Some p |- _ =>
            exact (well_typed_get _ k p Hwt H)
        end
      | rewrite (bind_lift_inr _ _ _ _ Hl) ]
  | |- bind (lift (call_blackbody_to_rgb ?t)) _ _ = _ =>
      let q := fresh "q" in
      let Hq := fresh "Hq" in
      destruct (blackbody_number t) as (q & _ & Hq);
      [ match goal with
        | H : dict_get _ ?k = Some t |- _ =>
            exact (well_typed_get _ k t Hwt H)
        end
      | rewrite (bind_lift_inr _ _ _ _ Hq) ]
  end; cbv beta.

Lemma entry_missing_field (a : archetype) (e : dict) (v : value) (k : string)
    lights (w : world R) :
  dict_get e (discriminant a) = Some v ->
  recognized a v = true ->
  well_typed_entry e = true ->
  first_missing e (required_fields a v) = Some k ->
  entry_body a (VDict e) lights w = (inl (key_error k), w).
Proof.
  intros Hd Hv Hwt Hk.
  unfold first_missing, dict_has in Hk.
  destruct a; unfold recognized in Hv; simpl in Hd, Hk |- *.
  - unfold studio_entry. read_field Hwt. cbn [negb].
    read_field Hwt. rewrite Hv.
    repeat match type of Hk with
           | context [dict_get e ?f] => destruct (dict_get e f) eqn:?
           end; simpl in Hk; try discriminate; injection Hk as <-;
      repeat read_field Hwt.
  - unfold dramatic_entry. read_field Hwt. cbn [negb].
    read_field Hwt. rewrite Hv.
    repeat match type of Hk with
           | context [dict_get e ?f] => destruct (dict_get e f) eqn:?
           end; simpl in Hk; try discriminate; injection Hk as <-;
      repeat read_field Hwt.
  - unfold natural_entry. read_field Hwt. cbn [negb].
    read_field Hwt.
    destruct (is_str "sun" v) eqn:Hsun; simpl in Hv, Hk.
    + cbv iota.
      repeat match type of Hk with
             | context [dict_get e ?f] => destruct (dict_get e f) eqn:?
             end; simpl in Hk; try discriminate; injection Hk as <-;
        repeat read_field Hwt.
    + read_field Hwt. rewrite Hv.
      repeat match type of Hk with
             | context [dict_get e ?f] => destruct (dict_get e f) eqn:?
             end; simpl in Hk; try discriminate; injection Hk as <-;
        repeat read_field Hwt.
  - unfold random_entry. read_field Hwt. cbn [negb].
    read_field Hwt. rewrite Hv.
    repeat match type of Hk with
           | context [dict_get e ?f] => destruct (dict_get e f) eqn:?
           end; simpl in Hk; try discriminate; injection Hk as <-;
      repeat read_field Hwt.
Qed.

(** One step of a body that is bound to fail, whatever the types of the
    fields that are present. *)
Ltac failing_step :=
  lazymatch goal with
  | |- exists _, bind (lift (py_contains _ (VDict _))) _ _ = _ =>
      erewrite bind_lift_inr by (eapply contains_some; eassumption)
  | |- exists _, bind (lift (py_getitem (VDict ?e) ?k)) _ _ = _ =>
      first
        [ erewrite bind_lift_inr by (apply getitem_some; eassumption)
        | eexists;
          erewrite bind_lift_inl by (apply getitem_none; eassumption);
          reflexivity ]
  | |- exists _, bind (lift ?r) _ _ = _ =>
      destruct r; [eexists; reflexivity|];
      rewrite (bind_lift_inr _ _ _ _ eq_refl)
  end; cbv beta.

Lemma entry_missing_field_fails (a : archetype) (e : dict) (v : value)
    (k : string) lights (w : world R) :
  dict_get e (discriminant a) = Some v ->
  recognized a v = true ->
  first_missing e (required_fields a v) = Some k ->
  exists err, entry_body a (VDict e) lights w = (inl err, w).
Proof.
  intros Hd Hv Hk.
  unfold first_missing, dict_has in Hk.
  destruct a; unfold recognized in Hv; simpl in Hd, Hk |- *.
  - unfold studio_entry. failing_step. cbn [negb].
    failing_step. rewrite Hv.
    repeat match type of Hk with
           | context [dict_get e ?f] => destruct (dict_get e f) eqn:?
           end; simpl in Hk; try discriminate; injection Hk as <-;
      repeat failing_step.
  - unfold dramatic_entry. failing_step. cbn [negb].
    failing_step. rewrite Hv.
    repeat match type of Hk with
           | context [dict_get e ?f] => destruct (dict_get e f) eqn:?
           end; simpl in Hk; try discriminate; injection Hk as <-;
      repeat failing_step.
  - unfold natural_entry. failing_step. cbn [negb].
    failing_step.
    destruct (is_str "sun" v) eqn:Hsun; simpl in Hv, Hk.
    + cbv iota.
      repeat match type of Hk with
             | context [dict_get e ?f] => destruct (dict_get e f) eqn:?
             end; simpl in Hk; try discriminate; injection Hk as <-;
        repeat failing_step.
    + failing_step. rewrite Hv.
      repeat match type of Hk with
             | context [dict_get e ?f] => destruct (dict_get e f) eqn:?
             end; simpl in Hk; try discriminate; injection Hk as <-;
        repeat failing_step.
  - unfold random_entry. failing_step. cbn [negb].
    failing_step. rewrite Hv.
    repeat match type of Hk with
           | context [dict_get e ?f] => destruct (dict_get e f) eqn:?
           end; simpl in Hk; try discriminate; injection Hk as <-;
      repeat failing_step.
Qed.

(** An entry on which the body raises, in whatever world, makes the call
    raise. *)
Lemma decode_fails_at (a : archetype) (metadata : dict)
    (pre post : list value) (x : value) (w : world R) :
  dict_get metadata "lighting_type" = Some (VStr (tag a)) ->
  dict_get metadata "lights" = Some (VList (pre ++ x :: post)) ->
  (forall lights (w1 : world R),
     exists err, entry_body a x lights w1 = (inl err, w1)) ->
  exists err w', setup_lighting_from_metadata metadata w = (inl err, w').
Proof.
  intros Ht Hl Hx. rewrite (decode_light_bearing a _ _ w Ht Hl).
  simpl. change (bind (lift (inr ?l)) ?k w) with (k l w). cbv beta.
  rewrite for_each_at. unfold bind.
  destruct (for_each pre (entry_body a) [] w) as [[err|lights] w1].
  - now exists err, w1.
  - destruct (Hx lights w1) as (err & ->). now exists err, w1.
Qed.

(** An entry on which the body raises, whatever it is given, makes the
    call raise. *)
Lemma decode_raises_at (a : archetype) (metadata : dict)
    (pre post : list value) (x : value) (err : exn) (w : world R) :
  dict_get metadata "lighting_type" = Some (VStr (tag a)) ->
  dict_get metadata "lights" = Some (VList (pre ++ x :: post)) ->
  (forall lights (w1 : world R), entry_body a x lights w1 = (inl err, w1)) ->
  (exists err' w', setup_lighting_from_metadata metadata w = (inl err', w')) /\
  (forall lights w1,
     for_each pre (entry_body a) [] w = (inr lights, w1) ->
     setup_lighting_from_metadata metadata w = (inl err, w1)).
Proof.
  intros Ht Hl Hx. rewrite (decode_light_bearing a _ _ w Ht Hl).
  simpl. change (bind (lift (inr ?l)) ?k w) with (k l w). cbv beta.
  rewrite for_each_at.
  assert (Hafter : forall lights w1,
            for_each pre (entry_body a) [] w = (inr lights, w1) ->
            bind (for_each pre (entry_body a) [])
              (fun acc1 => bind (entry_body a x acc1)
                             (for_each post (entry_body a))) w =
            (inl err, w1)).
  { intros lights w1 Hpre. unfold bind. rewrite Hpre. now rewrite Hx. }
  split; [|exact Hafter].
  destruct (for_each pre (entry_body a) [] w) as [[err'|lights] w1] eqn:Hpre.
  - exists err', w1. unfold bind. now rewrite Hpre.
  - exists err, w1. now apply (Hafter lights).
Qed.

End Fields.

(** C10, as stated, fails: the key light of [studio_position_number]
    has a recognized role and lacks [rotation], and the call fails with
    the [TypeError] of [tuple(5)], which the body meets before it looks
    for [rotation]; it is no key-lookup error. *)
Lemma ill_typed_field_raises_type_error :
  ~ (forall (R : RandomSource) (a : archetype) (metadata : dict)
            (pre post : list value) (e : dict) (v : value) (k : string)
            (w w1 : world R) (lights : list light_object),
       dict_get metadata "lighting_type" = Some (VStr (tag a)) ->
       dict_get metadata "lights" = Some (VList (pre ++ VDict e :: post)) ->
       dict_get e (discriminant a) = Some v ->
       recognized a v = true ->
       first_missing e (required_fields a v) = Some k ->
       for_each pre (entry_body a) [] w = (inr lights, w1) ->
       exists err w',
         setup_lighting_from_metadata metadata w = (inl err, w') /\
         e_class err = KeyError).
Proof.
  intros H.
  destruct (H low_source Studio studio_position_number [] []
              [("role", VStr "key"); ("position", VNum 5)]
              (VStr "key") "rotation"
              (empty_world low_source 0%nat) (empty_world low_source 0%nat)
              [] eq_refl eq_refl eq_refl eq_refl eq_refl eq_refl)
    as (err & w' & E & Hclass).
  vm_compute in E. injection E as <- _.
  discriminate Hclass.
Qed.

(** C10, amended: an entry whose discriminant is recognized and in
    which a field that the loop body reads is absent is neither passed
    over nor given a default: the body raises without creating a light,
    and the call fails.  The error is the [KeyError] of the first field
    that the body does not find, and it is the error of the call once the
    entries before that one are through, when the fields that are present
    have the types the generator writes (sequences for position, rotation
    and color, a number for the color temperature) and the color
    temperature is within the range of a float; on other entries Python
    can raise a [TypeError] or an [OverflowError] before it comes to the
    missing field. *)
Theorem missing_parameter_raises_key_error
    (R : RandomSource) (a : archetype) (metadata : dict)
    (pre post : list value) (e : dict) (v : value) (k : string)
    (w : world R) :
  dict_get metadata "lighting_type" = Some (VStr (tag a)) ->
  dict_get metadata "lights" = Some (VList (pre ++ VDict e :: post)) ->
  dict_get e (discriminant a) = Some v ->
  recognized a v = true ->
  first_missing e (required_fields a v) = Some k ->
  (forall lights (w1 : world R),
     exists err, entry_body a (VDict e) lights w1 = (inl err, w1)) /\
  (exists err w', setup_lighting_from_metadata metadata w = (inl err, w')) /\
  (well_typed_entry e = true ->
   temperature_in_range e = true ->
   (forall lights (w1 : world R),
      entry_body a (VDict e) lights w1 = (inl (key_error k), w1)) /\
   (forall lights w1,
      for_each pre (entry_body a) [] w = (inr lights, w1) ->
      setup_lighting_from_metadata metadata w = (inl (key_error k), w1))).
Proof.
  intros Ht Hl Hd Hv Hk.
  assert (Hf : forall lights (w1 : world R),
            exists err, entry_body a (VDict e) lights w1 = (inl err, w1)).
  { intros lights w1.
    now apply entry_missing_field_fails with (v := v) (k := k). }
  split; [exact Hf|].
  split; [now apply (decode_fails_at a metadata pre post (VDict e))|].
  intros Hwt _.
  assert (He : forall lights (w1 : world R),
            entry_body a (VDict e) lights w1 = (inl (key_error k), w1)).
  { intros lights w1. now apply entry_missing_field with (v := v). }
  split; [exact He|].
  now apply (decode_raises_at a metadata pre post (VDict e)).
Qed.

Lemma missing_parameter_raises_key_error_witness :
  let w := empty_world low_source 0%nat in
  let fill :=
    Light (AREA 300 (1, 1, 1) RECTANGLE 1 (Some 2)) (1, 2, 3) (0, 0, 0) in
  setup_lighting_from_metadata natural_sun_without_energy w =
    (inl (key_error "energy"), @World low_source 0%nat [] [fill]).
Proof.
  intros w fill.
  refine (proj2 (proj2 (proj2 (missing_parameter_raises_key_error
    low_source Natural natural_sun_without_energy
    [VDict [("type", VStr "area"); ("role", VStr "fill");
            ("energy", VNum 300); ("color_temperature", VNum 6500);
            ("position", VList [VNum 1; VNum 2; VNum 3]);
            ("size", VList [VNum 1; VNum 2])]]
    []
    [("type", VStr "sun"); ("role", VStr "main");
     ("color_temperature", VNum 5000);
     ("rotation", VList [VNum (-1); VNum 2; VNum 0]);
     ("angle", VNum 0.05)]
    (VStr "sun") "energy" w
    eq_refl eq_refl eq_refl eq_refl eq_refl)) eq_refl eq_refl) [fill] _ _).
  vm_compute. reflexivity.
Defined.

(** ** Where a reconstructed light takes its color from *)

Lemma host_vec3_tuple3 (what : string) (t : vec3) :
  host_vec3 what (tuple3 t) = inr (vred t).
Proof. now destruct t as [[x y] z]. Qed.

Section Colors.

Context {R : RandomSource}.

Lemma bind_inr_inv {A B : Type} (c : M R A) (k : A -> M R B) w y w' :
  bind c k w = (inr y, w') ->
  exists x w1, c w = (inr x, w1) /\ k x w1 = (inr y, w').
Proof.
  unfold bind. destruct (c w) as [[e|x] w1]; [discriminate|].
  intros H. now exists x, w1.
Qed.

Lemma lift_inr_inv {A : Type} (r : result A) (w : world R) x w' :
  lift r w = (inr x, w') -> r = inr x /\ w' = w.
Proof. unfold lift. now intros [= -> ->]. Qed.

(** Peels the reads off a body that returned. *)
Ltac returned H :=
  repeat
    (let x := fresh "x" in
     let w1 := fresh "w" in
     let H1 := fresh "Hc" in
     apply bind_inr_inv in H; destruct H as (x & w1 & H1 & H);
     try (apply lift_inr_inv in H1; destruct H1 as (H1 & ->))).

Lemma add_area_light_color location rotation energy color size shape
    (w w' : world R) o :
  add_area_light location rotation energy color size shape w = (inr o, w') ->
  host_vec3 "color" color = inr (color_of o).
Proof.
  unfold add_area_light. intros H. returned H.
  unfold ret in H. injection H as <- _. exact Hc0.
Qed.

Lemma add_sun_light_color rotation energy color angle (w w' : world R) o :
  add_sun_light rotation energy color angle w = (inr o, w') ->
  host_vec3 "color" color = inr (color_of o).
Proof.
  unfold add_sun_light. intros H. returned H.
  unfold ret in H. injection H as <- _. exact Hc0.
Qed.

Lemma add_point_light_color location energy color size (w w' : world R) o :
  add_point_light location energy color size w = (inr o, w') ->
  host_vec3 "color" color = inr (color_of o).
Proof.
  unfold add_point_light. intros H. returned H.
  unfold ret in H. injection H as <- _. exact Hc0.
Qed.

Lemma getitem_inv (x : value) (k : string) (y : value) :
  py_getitem x k = inr y -> exists e, x = VDict e /\ dict_get e k = Some y.
Proof.
  destruct x; simpl; try discriminate.
  destruct (dict_get d k) eqn:E; [|discriminate].
  intros [= <-]. now exists d.
Qed.

Lemma blackbody_inv (t c : value) :
  call_blackbody_to_rgb t = inr c ->
  exists q, as_number t = Some q /\ c = tuple3 (blackbody_to_rgb q).
Proof.
  unfold call_blackbody_to_rgb. destruct (as_number t) as [q|]; [|discriminate].
  intros [= <-]. now exists q.
Qed.

Lemma getitem_dict_inv (e : dict) (k : string) (y : value) :
  py_getitem (VDict e) k = inr y -> dict_get e k = Some y.
Proof.
  intros H. apply getitem_inv in H. destruct H as (e' & [= <-] & H). exact H.
Qed.

(** The color of a light that was added, from what the body read. *)
Ltac color_read :=
  lazymatch goal with
  | Hadd : add_area_light _ _ _ _ _ _ _ = (inr _, _) |- _ =>
      apply add_area_light_color in Hadd
  | Hadd : add_sun_light _ _ _ _ _ = (inr _, _) |- _ =>
      apply add_sun_light_color in Hadd
  | Hadd : add_point_light _ _ _ _ _ = (inr _, _) |- _ =>
      apply add_point_light_color in Hadd
  end;
  lazymatch goal with
  | Hg : py_getitem (VDict _) "color_temperature" = inr ?t,
    Hb : call_blackbody_to_rgb ?t = inr ?c,
    Hl : host_vec3 "color" ?c = inr _ |- _ =>
      let q := fresh "q" in
      let Hq := fresh "Hq" in
      apply getitem_dict_inv in Hg;
      apply blackbody_inv in Hb; destruct Hb as (q & Hq & ->);
      rewrite host_vec3_tuple3 in Hl; injection Hl as Hl;
      rewrite Hg, Hq; now rewrite Hl
  | Hg : py_getitem (VDict _) "color" = inr ?c,
    Ht : py_tuple ?c = inr ?t,
    Hl : host_vec3 "color" ?t = inr _ |- _ =>
      apply getitem_dict_inv in Hg;
      now rewrite Hg, Ht, Hl
  end.

Ltac light_added H :=
  returned H; unfold ret in H; injection H as <- _;
  eexists; split; [reflexivity | simpl; color_read].

Ltac passed_over H := unfold ret in H; now injection H as <- _.

Lemma entry_returns (a : archetype) (x : value) lights lights'
    (w w' : world R) :
  entry_body a x lights w = (inr lights', w') ->
  exists e, x = VDict e /\
    if is_recognized a e
    then exists o, lights' = lights ++ [o] /\
                   color_decoded a e = Some (color_of o)
    else lights' = lights.
Proof.
  intros H.
  assert (Hx : exists e v, x = VDict e /\ dict_get e (discriminant a) = Some v).
  { destruct a; simpl in H;
      unfold studio_entry, dramatic_entry, natural_entry, random_entry in H;
      returned H;
      match goal with
      | Hc : py_contains _ _ = inr ?b |- _ => destruct b; [|discriminate H]
      end;
      cbn [negb] in H; returned H;
      match goal with
      | Hg : py_getitem _ _ = inr _ |- _ =>
          apply getitem_inv in Hg; destruct Hg as (e & -> & Hd)
      end;
      eauto. }
  destruct Hx as (e & v & -> & Hd). exists e. split; [reflexivity|].
  unfold is_recognized. rewrite Hd.
  destruct a; simpl in H, Hd; unfold recognized;
    unfold studio_entry, dramatic_entry, natural_entry, random_entry in H;
    apply bind_inr_inv in H; destruct H as (has & w1 & Hc & H);
    rewrite (contains_some e _ v Hd) in Hc;
    apply lift_inr_inv in Hc; destruct Hc as ([= <-] & ->);
    cbn [negb] in H;
    apply bind_inr_inv in H; destruct H as (v' & w1 & Hc & H);
    rewrite (getitem_some e _ v Hd) in Hc;
    apply lift_inr_inv in Hc; destruct Hc as ([= <-] & ->).
  - destruct (in_strs v ["key"; "fill"; "back"]);
      [light_added H | passed_over H].
  - destruct (is_str "area" v); [light_added H | passed_over H].
  - destruct (is_str "sun" v); simpl; [light_added H|].
    apply bind_inr_inv in H; destruct H as (v' & w1 & Hc & H).
    rewrite (getitem_some e _ v Hd) in Hc.
    apply lift_inr_inv in Hc; destruct Hc as ([= <-] & ->).
    destruct (is_str "area" v); [light_added H | passed_over H].
  - destruct (is_str "point" v); [light_added H | passed_over H].
Qed.

End Colors.

Lemma for_each_returns {R : RandomSource} (a : archetype) (xs : list value)
    lights lights' (w w' : world R) :
  for_each xs (entry_body a) lights w = (inr lights', w') ->
  exists es new,
    xs = map VDict es /\ lights' = lights ++ new /\
    map (fun o => Some (color_of o)) new =
    map (color_decoded a) (filter (is_recognized a) es).
Proof.
  revert lights w. induction xs as [|x xs IH]; intros lights w H; simpl in H.
  - unfold ret in H. injection H as <- _.
    exists [], []. now rewrite app_nil_r.
  - apply bind_inr_inv in H. destruct H as (lights1 & w1 & Hx & H).
    apply entry_returns in Hx. destruct Hx as (e & -> & Hx).
    apply IH in H. destruct H as (es & new & -> & -> & Hnew).
    destruct (is_recognized a e) eqn:Hr.
    + destruct Hx as (o & -> & Ho).
      exists (e :: es), (o :: new). simpl. rewrite Hr. simpl.
      rewrite <- app_assoc, Ho, Hnew. auto.
    + subst lights1. exists (e :: es), new. simpl. rewrite Hr. auto.
Qed.

(** C3, as stated, fails: the studio loop never reads [color]; the key
    light of [studio_with_stored_color] gets the color of 2700 K, not the
    stored black. *)
Lemma stored_color_does_not_take_precedence :
  ~ (forall (R : RandomSource) (a : archetype) (metadata : dict) (v : value)
            (lights : list light_object) (w w' : world R),
       dict_get metadata "lighting_type" = Some (VStr (tag a)) ->
       dict_get metadata "lights" = Some v ->
       setup_lighting_from_metadata metadata w = (inr lights, w') ->
       exists es,
         py_iter v = inr (map VDict es) /\
         map (fun o => Some (color_of o)) lights =
         map color_by_precedence (filter (is_recognized a) es)).
Proof.
  intros H.
  pose (w := empty_world low_source 0%nat).
  destruct (setup_lighting_from_metadata studio_with_stored_color w)
    as [[e|lights] w'] eqn:E.
  - vm_compute in E. discriminate E.
  - destruct (H low_source Studio studio_with_stored_color _ lights w w'
                eq_refl eq_refl E) as (es & Hes & Hc).
    vm_compute in E. injection E as <- _.
    simpl in Hes. injection Hes as Hes.
    destruct es as [|e0 [|e1 es]]; try discriminate Hes.
    injection Hes as <-.
    vm_compute in Hc. discriminate Hc.
Qed.

Lemma color_decoded_handed (a : archetype) (e : dict) (x : vec3) :
  color_decoded a e = Some x ->
  exists c, color_handed a e = Some c /\ x = vred c.
Proof.
  destruct a; simpl.
  1-3: destruct (dict_get e "color_temperature") as [t|]; [|discriminate];
       destruct (as_number t) as [q|]; [|discriminate];
       intros [= <-]; eauto.
  destruct (dict_get e "color") as [c|]; [|discriminate].
  destruct (py_tuple c) as [err|t]; [discriminate|].
  unfold host_vec3.
  destruct t as [| | | |[|p [|q [|r [|s l]]]]|]; try discriminate.
  destruct (as_number p), (as_number q), (as_number r); try discriminate.
  intros [= <-]. eauto.
Qed.

Lemma colors_one_by_one (a : archetype) (lights : list light_object)
    (es : list dict) :
  map (fun o => Some (color_of o)) lights = map (color_decoded a) es ->
  Forall2 (fun o e =>
             exists c, color_handed a e = Some c /\
                       (no_negative_channel c -> color_of o = vred c))
          lights es.
Proof.
  revert es. induction lights as [|o lights IH]; intros [|e es] H;
    try discriminate H; [constructor|].
  simpl in H. injection H as Ho H. constructor; [|now apply IH].
  symmetry in Ho. apply color_decoded_handed in Ho.
  destruct Ho as (c & Hc & ->). eauto.
Qed.

(** C3, amended: the archetype of the record, not the presence of a
    [color] field, decides where a reconstructed light takes its color
    from.  When the call returns, every entry is a dict, the lights
    returned are those of the entries with a recognized discriminant, one
    for one and in order, and the color handed to the host for each is
    the stored [color] for random point lights and the color of the
    stored [color_temperature], through the Color-Temperature Model, for
    studio, dramatic and natural lights, whether or not the entry stores
    a [color].  It is the color of the light when none of its channels is
    negative; a negative channel the host stores as 0. *)
Theorem reconstructed_colors
    (R : RandomSource) (a : archetype) (metadata : dict) (v : value)
    (lights : list light_object) (w w' : world R) :
  dict_get metadata "lighting_type" = Some (VStr (tag a)) ->
  dict_get metadata "lights" = Some v ->
  setup_lighting_from_metadata metadata w = (inr lights, w') ->
  exists es,
    py_iter v = inr (map VDict es) /\
    Forall2 (fun o e =>
               exists c, color_handed a e = Some c /\
                         (no_negative_channel c -> color_of o = vred c))
            lights (filter (is_recognized a) es).
Proof.
  intros Ht Hl H. rewrite (decode_light_bearing a _ _ w Ht Hl) in H.
  apply bind_inr_inv in H. destruct H as (xs & w1 & Hxs & H).
  apply lift_inr_inv in Hxs. destruct Hxs as (Hxs & ->).
  apply for_each_returns in H. destruct H as (es & new & -> & -> & Hnew).
  exists es. split; [exact Hxs|]. now apply colors_one_by_one.
Qed.

Lemma reconstructed_colors_witness :
  let key_light :=
    Light (AREA 1000 (1, 7 # 10, 2 # 5) RECTANGLE 2 (Some 1))
          (4, -4, 4) (0, 0, 0) in
  exists es,
    py_iter (VList [
      VDict [("type", VStr "area"); ("role", VStr "key");
             ("energy", VNum 1000); ("color_temperature", VNum 2700);
             ("color", VList [VNum 0; VNum 0; VNum 0]);
             ("position", VList [VNum 4; VNum (-4); VNum 4]);
             ("rotation", VList [VNum 0; VNum 0; VNum 0]);
             ("size", VList [VNum 2; VNum 1])]]) = inr (map VDict es) /\
    Forall2 (fun o e =>
               exists c, color_handed Studio e = Some c /\
                         (no_negative_channel c -> color_of o = vred c))
            [key_light] (filter (is_recognized Studio) es).
Proof.
  intros key_light.
  apply (reconstructed_colors low_source Studio studio_with_stored_color _
           [key_light] (empty_world low_source 0%nat)
           (@World low_source 0%nat [] [key_light])).
  - reflexivity.
  - reflexivity.
  - vm_compute. reflexivity.
Defined.

(** ** What the gateway creates from well-typed arguments *)

Section Gateway.

Context {R : RandomSource}.

Lemma add_area_light_ok location rotation energy color size0 size1
    (w : world R) :
  add_area_light (tuple3 location) (tuple3 rotation) (VNum energy)
    (tuple3 color) (VList [VNum size0; VNum size1]) "RECTANGLE" w =
  (inr (area_light location rotation energy color size0 size1),
   with_lights w [area_light location rotation energy color size0 size1]).
Proof.
  unfold add_area_light, bind, lift, objects_link, object_set, ret.
  rewrite !host_vec3_tuple3. simpl.
  now rewrite !set_nth_length.
Qed.

Lemma add_sun_light_ok rotation energy color angle (w : world R) :
  add_sun_light (tuple3 rotation) (VNum energy) (tuple3 color) (VNum angle) w =
  (inr (sun_light rotation energy color angle),
   with_lights w [sun_light rotation energy color angle]).
Proof.
  unfold add_sun_light, bind, lift, objects_link, object_set, ret.
  rewrite !host_vec3_tuple3. simpl.
  now rewrite !set_nth_length.
Qed.

Lemma add_point_light_ok location energy color size (w : world R) :
  add_point_light (tuple3 location) (VNum energy) (tuple3 color) (VNum size) w =
  (inr (point_light location energy color size),
   with_lights w [point_light location energy color size]).
Proof.
  unfold add_point_light, bind, lift, objects_link, object_set, ret.
  rewrite !host_vec3_tuple3. simpl.
  now rewrite !set_nth_length.
Qed.

Lemma tuple_tuple3 (t : vec3) : py_tuple (tuple3 t) = inr (tuple3 t).
Proof. now destruct t as [[x y] z]. Qed.

Lemma with_lights_nil (w : world R) : with_lights w [] = w.
Proof. unfold with_lights. now rewrite app_nil_r, world_eta. Qed.

Lemma with_lights_app (w : world R) (l1 l2 : list light_object) :
  with_lights (with_lights w l1) l2 = with_lights w (l1 ++ l2).
Proof. unfold with_lights. simpl. now rewrite app_assoc. Qed.

End Gateway.

(** ** Decoding the entries the generator writes *)

Section DecodeGenerated.

Context {R : RandomSource}.

Local Opaque add_area_light add_sun_light add_point_light.
Local Opaque tuple3 blackbody_to_rgb.

Ltac decode_entry :=
  unfold bind, lift; simpl;
  repeat (rewrite ?tuple_tuple3; simpl);
  rewrite ?add_area_light_ok, ?add_sun_light_ok, ?add_point_light_ok;
  reflexivity.

Lemma studio_entry_area role energy temp pos rot size0 size1 lights
    (w : world R) :
  in_strs (VStr role) ["key"; "fill"; "back"] = true ->
  studio_entry (area_entry role energy temp pos rot size0 size1) lights w =
  (inr (lights ++
        [area_light pos rot energy (blackbody_to_rgb temp) size0 size1]),
   with_lights w
     [area_light pos rot energy (blackbody_to_rgb temp) size0 size1]).
Proof.
  intros Hrole. unfold studio_entry, area_entry, bind at 1 2, lift at 1 2.
  cbn [py_contains dict_has dict_get String.eqb Ascii.eqb Bool.eqb negb
       py_getitem].
  rewrite Hrole. decode_entry.
Qed.

Lemma dramatic_entry_area role energy temp pos rot size0 size1 lights
    (w : world R) :
  dramatic_entry (area_entry role energy temp pos rot size0 size1) lights w =
  (inr (lights ++
        [area_light pos rot energy (blackbody_to_rgb temp) size0 size1]),
   with_lights w
     [area_light pos rot energy (blackbody_to_rgb temp) size0 size1]).
Proof. unfold dramatic_entry, area_entry. decode_entry. Qed.

Lemma natural_entry_sun energy temp rot angle lights (w : world R) :
  natural_entry (sun_entry energy temp rot angle) lights w =
  (inr (lights ++ [sun_light rot energy (blackbody_to_rgb temp) angle]),
   with_lights w [sun_light rot energy (blackbody_to_rgb temp) angle]).
Proof. unfold natural_entry, sun_entry. decode_entry. Qed.

Lemma natural_entry_fill energy temp pos size0 size1 lights (w : world R) :
  natural_entry (fill_entry energy temp pos size0 size1) lights w =
  (inr (lights ++
        [area_light pos (0, 0, 0) energy (blackbody_to_rgb temp) size0 size1]),
   with_lights w
     [area_light pos (0, 0, 0) energy (blackbody_to_rgb temp) size0 size1]).
Proof.
  unfold natural_entry, fill_entry, default_rotation, default_shape.
  change (VList [VNum 0; VNum 0; VNum 0]) with (tuple3 (0, 0, 0)).
  decode_entry.
Qed.

Lemma random_entry_point role energy temp color pos lights (w : world R) :
  random_entry (point_entry role energy temp color pos) lights w =
  (inr (lights ++ [point_light pos energy color 0.1]),
   with_lights w [point_light pos energy color 0.1]).
Proof. unfold random_entry, point_entry. decode_entry. Qed.

End DecodeGenerated.

(** ** Sampling *)

Section Yields.

Context {R : RandomSource}.

Lemma yields_ret {A : Type} (x : A) P :
  P x [] [] -> yields (R:=R) (ret x) P.
Proof.
  intros HP w. exists x, [], [], (w_rng w).
  split; [|exact HP]. unfold ret. now rewrite !app_nil_r, world_eta.
Qed.

Lemma yields_bind {A B : Type} (c : M R A) (k : A -> M R B) Q P :
  yields c Q ->
  (forall x ds added,
     Q x ds added ->
     yields (R:=R) (k x)
       (fun y ds' added' => P y (ds ++ ds') (added ++ added'))) ->
  yields (R:=R) (bind c k) P.
Proof.
  intros Hc Hk w.
  destruct (Hc w) as (x & ds & added & s1 & Ec & HQ).
  destruct (Hk x ds added HQ (World s1 (w_draws w ++ ds) (w_scene w ++ added)))
    as (y & ds' & added' & s2 & Ek & HP).
  exists y, (ds ++ ds'), (added ++ added'), s2.
  split; [|exact HP].
  unfold bind. rewrite Ec, Ek. simpl. now rewrite !app_assoc.
Qed.

Lemma yields_weaken {A : Type} (c : M R A) (P Q : _ -> _ -> _ -> Prop) :
  yields c P -> (forall x ds added, P x ds added -> Q x ds added) ->
  yields c Q.
Proof.
  intros Hc HPQ w. destruct (Hc w) as (x & ds & added & s' & E & HP).
  exists x, ds, added, s'. split; [exact E | now apply HPQ].
Qed.

Lemma yields_scene_op {A : Type} (c : M R A) (x : A) added :
  (forall w, c w = (inr x, with_lights w added)) ->
  yields c (fun y ds added' => y = x /\ ds = [] /\ added' = added).
Proof.
  intros Hc w. exists x, [], added, (w_rng w).
  split; [|auto]. rewrite Hc. unfold with_lights. now rewrite app_nil_r.
Qed.

Lemma yields_uniform (a b : Q) :
  yields (R:=R) (uniform a b)
    (fun x ds added =>
       ds = [DUniform a b x] /\ added = [] /\
       (rs_lawful R -> a <= b -> a <= x /\ x <= b)).
Proof.
  intros w. unfold uniform.
  destruct (rs_random R (w_rng w)) as [u s] eqn:E.
  exists (a + (b - a) * u), [DUniform a b (a + (b - a) * u)], [], s.
  split; [now rewrite app_nil_r|].
  split; [reflexivity|]. split; [reflexivity|].
  intros Hlaw Hab. destruct Hlaw as (Hlaw & _).
  destruct (Hlaw (w_rng w)) as (H0 & H1). rewrite E in H0, H1. simpl in *.
  split; nra.
Qed.

Lemma yields_randint (a b : Z) :
  (a <= b)%Z ->
  yields (R:=R) (randint a b)
    (fun k ds added =>
       ds = [DRandint a b k] /\ added = [] /\
       (rs_lawful R -> (a <= k <= b)%Z)).
Proof.
  intros Hab w. unfold randint.
  destruct (0 <? b + 1 - a)%Z eqn:Hw; [|apply Z.ltb_ge in Hw; lia].
  apply Z.ltb_lt in Hw.
  destruct (rs_randbelow R (b + 1 - a) (w_rng w)) as [r s] eqn:E.
  exists (a + r)%Z, [DRandint a b (a + r)], [], s.
  split; [now rewrite app_nil_r|].
  split; [reflexivity|]. split; [reflexivity|].
  intros Hlaw. destruct Hlaw as (_ & Hlaw).
  specialize (Hlaw _ (w_rng w) Hw). rewrite E in Hlaw. simpl in Hlaw. lia.
Qed.

End Yields.

Section Samplers.

Context {R : RandomSource} (L : MathLib).

Lemma yields_bind_ret {A B : Type} (x : A) (k : A -> M R B) P :
  yields (R:=R) (k x) P -> yields (R:=R) (bind (ret x) k) P.
Proof. intros H w. exact (H w). Qed.

Ltac enter_branch :=
  unfold generate_random_lighting_setup;
  cbn [existsb map fst lighting_types String.eqb Ascii.eqb Bool.eqb negb orb];
  apply yields_bind_ret;
  cbn [String.eqb Ascii.eqb Bool.eqb].

Ltac sample x Hx :=
  eapply yields_bind; [apply yields_uniform|];
  intros x ? ? (-> & -> & Hx).

Lemma within_true (q a b : Q) : a <= q /\ q <= b -> within q (a, b) = true.
Proof.
  intros (H1 & H2). unfold within. simpl.
  apply andb_true_iff. split; now apply Qle_bool_iff.
Qed.

Ltac in_bounds :=
  match goal with
  | H : rs_lawful R -> _ <= _ -> _ <= ?x /\ ?x <= _ |- _ <= ?x /\ ?x <= _ =>
      apply H;
      [assumption
      | first [discriminate | lra | unfold Qdiv, Qinv; simpl; lra]]
  end.

Ltac all_in_bounds :=
  repeat (apply Forall_cons; [simpl; in_bounds|]); apply Forall_nil.

Lemma generate_env_map :
  yields (R:=R) (generate_random_lighting_setup L (Some "env_map"))
         (sampled_well (R:=R) L "env_map").
Proof.
  enter_branch.
  sample strength Hs.
  apply yields_ret. simpl.
  split; [reflexivity|].
  split; [intros wd; now rewrite with_lights_nil|].
  split; [reflexivity|]. split; [reflexivity|].
  intros Hlaw. split; [reflexivity|]. intros _.
  split; [all_in_bounds|].
  unfold record_within, number_within. simpl. apply within_true. in_bounds.
Qed.

Lemma radians_0 : Qred (radians L 0) = Qred 0.
Proof. apply Qred_complete. unfold radians. ring. Qed.

Lemma setup_studio_lighting_ok ke fe be kt ft bt (w : world R) :
  setup_studio_lighting L (VNum ke) (VNum fe) (VNum be)
    (tuple3 (blackbody_to_rgb kt)) (tuple3 (blackbody_to_rgb ft))
    (tuple3 (blackbody_to_rgb bt)) w =
  (inr (studio_lights L ke fe be kt ft bt),
   with_lights w (studio_lights L ke fe be kt ft bt)).
Proof.
  unfold setup_studio_lighting, default_shape, bind.
  change (VList [VNum 2; VNum 1]) with (VList [VNum 2; VNum 1]).
  rewrite !add_area_light_ok. unfold ret.
  rewrite !with_lights_app. unfold studio_lights, area_light, vred.
  rewrite !radians_0. reflexivity.
Qed.

Lemma decode_studio_record ke fe be kt ft bt (wd : world R) :
  setup_lighting_from_metadata
    [("lighting_type", VStr "studio");
     ("lights", VList [
        area_entry "key" ke kt (4, -4, 4) (radians L 45, 0, radians L 45) 2 1;
        area_entry "fill" fe ft (-4, -4, 2)
          (radians L 30, 0, radians L (-45)) 3 2;
        area_entry "back" be bt (0, 4, 3) (radians L (-45), 0, 0) 2 0.5])]
    wd =
  (inr (studio_lights L ke fe be kt ft bt),
   with_lights wd (studio_lights L ke fe be kt ft bt)).
Proof.
  erewrite decode_light_bearing with (a := Studio);
    [|reflexivity|reflexivity].
  unfold bind at 1, lift, py_iter, for_each, entry_body, bind.
  rewrite !studio_entry_area by reflexivity.
  unfold ret. now rewrite !with_lights_app.
Qed.

Lemma generate_studio :
  yields (R:=R) (generate_random_lighting_setup L (Some "studio"))
         (sampled_well (R:=R) L "studio").
Proof.
  enter_branch.
  sample ke Hke. sample fe Hfe. sample be Hbe.
  sample kt Hkt. sample ft Hft. sample bt Hbt.
  eapply yields_bind;
    [apply yields_scene_op; intros w; apply setup_studio_lighting_ok|].
  intros lights ? ? (-> & -> & ->).
  apply yields_ret. cbn [app]. unfold sampled_well.
  split; [reflexivity|].
  split; [intros wd; apply decode_studio_record|].
  split; [reflexivity|]. split; [reflexivity|].
  intros Hlaw. split; [split; reflexivity|]. intros _.
  split; [all_in_bounds|].
  unfold record_within, number_within. simpl.
  rewrite !within_true by in_bounds. reflexivity.
Qed.

Lemma decode_natural_record se st rot angle fe ft pos s0 s1 (wd : world R) :
  setup_lighting_from_metadata
    [("lighting_type", VStr "natural");
     ("lights", VList [sun_entry se st rot angle;
                       fill_entry fe ft pos s0 s1])]
    wd =
  (inr (natural_lights se st rot angle fe ft pos s0 s1),
   with_lights wd (natural_lights se st rot angle fe ft pos s0 s1)).
Proof.
  erewrite decode_light_bearing with (a := Natural);
    [|reflexivity|reflexivity].
  unfold bind at 1, lift, py_iter, for_each, entry_body, bind.
  rewrite natural_entry_sun, natural_entry_fill.
  unfold ret. now rewrite !with_lights_app.
Qed.

Lemma generate_natural :
  yields (R:=R) (generate_random_lighting_setup L (Some "natural"))
         (sampled_well (R:=R) L "natural").
Proof.
  enter_branch.
  sample elevation Hel. sample azimuth Haz.
  sample se Hse. sample size Hsz. sample st Hst.
  eapply yields_bind;
    [apply yields_scene_op; intros w; apply add_sun_light_ok|].
  intros sun ? ? (-> & -> & ->).
  sample x Hx. sample y Hy. sample z Hz.
  sample fe Hfe. sample ft Hft. sample s0 Hs0. sample s1 Hs1.
  eapply yields_bind.
  { apply yields_scene_op. intros w. unfold default_rotation, default_shape.
    change (VList [VNum 0; VNum 0; VNum 0]) with (tuple3 (0, 0, 0)).
    apply add_area_light_ok. }
  intros fill ? ? (-> & -> & ->).
  apply yields_ret. cbn [app]. unfold sampled_well.
  split; [reflexivity|].
  split; [intros wd; apply decode_natural_record|].
  split; [reflexivity|]. split; [reflexivity|].
  intros Hlaw. split; [reflexivity|]. intros _.
  split; [all_in_bounds|].
  unfold record_within, number_within, numbers_within. simpl.
  rewrite !within_true by in_bounds. reflexivity.
Qed.

(** *** The two loops *)

Lemma yields_light_loop (t : string)
    (body : nat -> list light_object * dict -> M R (list light_object * dict))
    (I : light_object -> value -> list draw -> Prop) :
  (forall i lights es,
     yields (R:=R) (body i (lights, record_of t es))
       (fun out ds added =>
          exists o e, out = (lights ++ [o], record_of t (es ++ [e])) /\
                      added = [o] /\ I o e ds)) ->
  forall idxs lights es,
    yields (R:=R) (for_each idxs body (lights, record_of t es))
      (fun out ds added =>
         exists items : list item,
           out = (lights ++ map item_light items,
                  record_of t (es ++ map item_entry items)) /\
           added = map item_light items /\
           ds = List.concat (map item_draws items) /\
           List.length items = List.length idxs /\
           Forall (fun it => I (item_light it) (item_entry it) (item_draws it))
                  items).
Proof.
  intros Hbody idxs.
  induction idxs as [|i idxs IH]; intros lights es; simpl.
  - apply yields_ret. exists []. simpl. rewrite !app_nil_r. auto.
  - eapply yields_bind; [apply Hbody|].
    intros out ds added (o & e & -> & -> & HI).
    eapply yields_weaken; [apply IH|].
    intros out' ds' added' (items & -> & -> & -> & Hlen & Hall).
    exists ((o, e, ds) :: items). simpl.
    rewrite <- !app_assoc. simpl.
    repeat split; auto.
Qed.

Lemma for_each_decodes
    (body : value -> list light_object -> M R (list light_object))
    (items : list item) :
  Forall (fun it => forall acc (wd : world R),
            body (item_entry it) acc wd =
            (inr (acc ++ [item_light it]), with_lights wd [item_light it]))
         items ->
  forall acc wd,
    for_each (map item_entry items) body acc wd =
    (inr (acc ++ map item_light items),
     with_lights wd (map item_light items)).
Proof.
  induction 1 as [|it items Hit _ IH]; intros acc wd; simpl.
  - unfold ret. now rewrite app_nil_r, with_lights_nil.
  - unfold bind. rewrite Hit, IH, with_lights_app.
    now rewrite <- app_assoc.
Qed.

Lemma lights_append_record (t : string) (es : list value) (e : value) :
  lights_append (record_of t es) e = inr (record_of t (es ++ [e])).
Proof. reflexivity. Qed.

Lemma dramatic_light_turn (i : nat) lights es :
  yields (R:=R) (dramatic_light L i (lights, record_of "dramatic" es))
    (fun out ds added =>
       exists o e, out = (lights ++ [o], record_of "dramatic" (es ++ [e])) /\
                   added = [o] /\
                   turn_ok (R:=R) L Area dramatic_entry
                     (dramatic_requests L) dramatic_check
                     o e ds).
Proof.
  unfold dramatic_light.
  sample theta Hth. sample phi Hph. sample r Hr.
  cbv beta iota zeta.
  sample energy Hen. sample temp Hte. sample s0 Hs0. sample s1 Hs1.
  eapply yields_bind;
    [apply yields_scene_op; intros w; apply add_area_light_ok|].
  intros light ? ? (-> & -> & ->).
  rewrite lights_append_record. apply yields_bind_ret.
  apply yields_ret. cbn [app].
  eexists _, _. split; [reflexivity|]. split; [reflexivity|].
  split; [reflexivity|].
  split; [intros acc wd; apply dramatic_entry_area|].
  split; [reflexivity|].
  intros Hlaw Hpi.
  split; [all_in_bounds|].
  unfold dramatic_check, number_within, numbers_within. simpl.
  rewrite !within_true by in_bounds. reflexivity.
Qed.

Lemma random_light_turn (i : nat) lights es :
  yields (R:=R) (random_light L i (lights, record_of "random" es))
    (fun out ds added =>
       exists o e, out = (lights ++ [o], record_of "random" (es ++ [e])) /\
                   added = [o] /\
                   turn_ok (R:=R) L Point random_entry
                     (random_requests L) random_check
                     o e ds).
Proof.
  unfold random_light.
  cbv beta iota zeta.
  sample theta Hth. sample phi Hph. sample r Hr.
  sample energy Hen. sample temp Hte.
  eapply yields_bind;
    [apply yields_scene_op; intros w; apply add_point_light_ok|].
  intros light ? ? (-> & -> & ->).
  rewrite lights_append_record. apply yields_bind_ret.
  apply yields_ret. cbn [app].
  eexists _, _. split; [reflexivity|]. split; [reflexivity|].
  split; [reflexivity|].
  split; [intros acc wd; apply random_entry_point|].
  split; [reflexivity|].
  intros Hlaw Hpi.
  split; [all_in_bounds|].
  unfold random_check, number_within. simpl.
  rewrite !within_true by in_bounds. reflexivity.
Qed.

Lemma turns_decode k body requests check items acc (wd : world R) :
  turns_ok (R:=R) L k body requests check items ->
  for_each (map item_entry items) body acc wd =
  (inr (acc ++ map item_light items), with_lights wd (map item_light items)).
Proof.
  intros Hall. apply for_each_decodes.
  eapply Forall_impl; [|exact Hall]. intros it (_ & H & _). exact H.
Qed.

Lemma turns_kinds k body requests check items :
  turns_ok (R:=R) L k body requests check items ->
  Forall (fun o => kind_of o = k) (map item_light items).
Proof.
  intros Hall. apply Forall_map. eapply Forall_impl; [|exact Hall].
  intros it (H & _). exact H.
Qed.

Lemma turns_requests k body requests check items :
  turns_ok (R:=R) L k body requests check items ->
  map request_of (List.concat (map item_draws items)) =
  List.concat (repeat requests (List.length (map item_light items))).
Proof.
  induction 1 as [|it its (_ & _ & Hr & _) _ IH]; simpl; [reflexivity|].
  now rewrite map_app, Hr, IH.
Qed.

Lemma turns_within k body requests check items :
  turns_ok (R:=R) L k body requests check items ->
  rs_lawful R -> 0 <= m_pi L ->
  Forall draw_within (List.concat (map item_draws items)) /\
  entries_within check (map item_entry items) = true.
Proof.
  intros Hall Hlaw Hpi.
  induction Hall as [|it its (_ & _ & _ & Hb) _ (IH1 & IH2)]; simpl.
  - split; [constructor | reflexivity].
  - destruct (Hb Hlaw Hpi) as (Hd & Hc). split.
    + apply Forall_app. now split.
    + unfold entries_within in *. simpl. now rewrite Hc, IH2.
Qed.

Lemma length_range (n : Z) : List.length (range n) = Z.to_nat n.
Proof. unfold range. apply length_seq. Qed.

Lemma generate_dramatic :
  yields (R:=R) (generate_random_lighting_setup L (Some "dramatic"))
         (sampled_well (R:=R) L "dramatic").
Proof.
  enter_branch.
  eapply yields_bind; [apply yields_randint; lia|].
  intros n ? ? (-> & -> & Hn).
  eapply yields_weaken.
  { apply (yields_light_loop "dramatic" (dramatic_light L)
             (turn_ok (R:=R) L Area dramatic_entry (dramatic_requests L)
                dramatic_check)
             dramatic_light_turn (range n) [] []). }
  intros out ds added (items & -> & -> & -> & Hlen & Hall).
  cbn [app]. unfold sampled_well.
  split; [reflexivity|].
  split.
  { intros wd.
    erewrite decode_light_bearing with (a := Dramatic);
      [|reflexivity|reflexivity].
    exact (turns_decode _ _ _ _ _ [] wd Hall). }
  split; [reflexivity|].
  split.
  { unfold documented_intervals.
    cbn [map request_of String.eqb Ascii.eqb Bool.eqb]. f_equal.
    exact (turns_requests _ _ _ _ _ Hall). }
  intros Hlaw. split.
  - split; [|exact (turns_kinds _ _ _ _ _ Hall)].
    rewrite length_map, Hlen, length_range.
    specialize (Hn Hlaw). 
    assert (n = 1 \/ n = 2)%Z as [-> | ->] by lia; [now left | now right].
  - intros Hpi.
    destruct (turns_within _ _ _ _ _ Hall Hlaw Hpi) as (Hd & Hc).
    split.
    + apply Forall_cons; [exact (Hn Hlaw) | exact Hd].
    + exact Hc.
Qed.

Lemma generate_random :
  yields (R:=R) (generate_random_lighting_setup L (Some "random"))
         (sampled_well (R:=R) L "random").
Proof.
  enter_branch.
  eapply yields_bind; [apply yields_randint; lia|].
  intros n ? ? (-> & -> & Hn).
  eapply yields_weaken.
  { apply (yields_light_loop "random" (random_light L)
             (turn_ok (R:=R) L Point random_entry (random_requests L)
                random_check)
             random_light_turn (range n) [] []). }
  intros out ds added (items & -> & -> & -> & Hlen & Hall).
  cbn [app]. unfold sampled_well.
  split; [reflexivity|].
  split.
  { intros wd.
    erewrite decode_light_bearing with (a := RandomPoints);
      [|reflexivity|reflexivity].
    exact (turns_decode _ _ _ _ _ [] wd Hall). }
  split; [reflexivity|].
  split.
  { unfold documented_intervals.
    cbn [map request_of String.eqb Ascii.eqb Bool.eqb]. f_equal.
    exact (turns_requests _ _ _ _ _ Hall). }
  intros Hlaw. split.
  - split; [|exact (turns_kinds _ _ _ _ _ Hall)].
    rewrite length_map, Hlen, length_range.
    specialize (Hn Hlaw). lia.
  - intros Hpi.
    destruct (turns_within _ _ _ _ _ Hall Hlaw Hpi) as (Hd & Hc).
    split.
    + apply Forall_cons; [exact (Hn Hlaw) | exact Hd].
    + exact Hc.
Qed.

(** *** The selector *)

Lemma yields_random_random :
  yields (R:=R) random_random
    (fun u ds added =>
       ds = [DRandom u] /\ added = [] /\
       (rs_lawful R -> 0 <= u /\ u < 1)).
Proof.
  intros w. unfold random_random.
  destruct (rs_random R (w_rng w)) as [u s] eqn:E.
  exists u, [DRandom u], [], s.
  split; [now rewrite app_nil_r|].
  split; [reflexivity|]. split; [reflexivity|].
  intros (Hlaw & _). specialize (Hlaw (w_rng w)). now rewrite E in Hlaw.
Qed.

Lemma bisect_le (a : list Q) (x : Q) (hi : nat) : (bisect a x hi <= hi)%nat.
Proof.
  revert hi. induction a as [|y a IH]; intros [|hi]; simpl; try lia.
  destruct (Qle_bool y x); [|lia]. specialize (IH hi). lia.
Qed.

Lemma yields_choices :
  yields (R:=R) (choices (map fst lighting_types) (map snd lighting_types))
    (fun t ds added =>
       In t archetypes /\
       exists u, ds = [DRandom u] /\ added = [] /\
                 (rs_lawful R -> 0 <= u /\ u < 1)).
Proof.
  unfold choices.
  change (Qle_bool (last (accumulate (map snd lighting_types)) 0) 0)
    with false.
  cbv iota.
  eapply yields_bind; [apply yields_random_random|].
  intros u ? ? (-> & -> & Hu).
  destruct (nth_error (map fst lighting_types)
              (bisect (accumulate (map snd lighting_types))
                 (u * last (accumulate (map snd lighting_types)) 0)
                 (List.length (map fst lighting_types) - 1))) as [t|] eqn:E.
  - apply yields_ret. split; [exact (nth_error_In _ _ E)|].
    exists u. auto.
  - apply nth_error_None in E.
    pose proof (bisect_le (accumulate (map snd lighting_types))
                  (u * last (accumulate (map snd lighting_types)) 0)
                  (List.length (map fst lighting_types) - 1)) as Hle.
    simpl in E, Hle. lia.
Qed.

Lemma generate_forced (t : string) :
  In t archetypes ->
  yields (R:=R) (generate_random_lighting_setup L (Some t))
         (sampled_well (R:=R) L t).
Proof.
  intros [<-|[<-|[<-|[<-|[<-|[]]]]]].
  - exact generate_studio.
  - exact generate_dramatic.
  - exact generate_natural.
  - exact generate_random.
  - exact generate_env_map.
Qed.

Lemma generate_invalid (t : string) (w : world R) :
  existsb (String.eqb t) archetypes = false ->
  exists e, generate_random_lighting_setup L (Some t) w = (inl e, w).
Proof.
  intros H. unfold generate_random_lighting_setup, bind, archetypes in *.
  rewrite H. simpl. eexists. reflexivity.
Qed.

Lemma archetypes_decide (t : string) :
  existsb (String.eqb t) archetypes = true -> In t archetypes.
Proof.
  intros H. apply existsb_exists in H. destruct H as (t' & Hin & E).
  apply String.eqb_eq in E. now subst.
Qed.

Lemma generate_selecting :
  yields (R:=R) (generate_random_lighting_setup L None)
    (fun out ds added =>
       exists t u ds',
         In t archetypes /\ ds = DRandom u :: ds' /\
         (rs_lawful R -> 0 <= u /\ u < 1) /\
         sampled_well (R:=R) L t out ds' added).
Proof.
  unfold generate_random_lighting_setup.
  eapply yields_bind; [apply yields_choices|].
  intros t ? ? (Hin & u & -> & -> & Hu).
  destruct Hin as [<-|[<-|[<-|[<-|[<-|[]]]]]];
    (eapply yields_weaken;
     [ first [ exact generate_studio | exact generate_dramatic
             | exact generate_natural | exact generate_random
             | exact generate_env_map ]
     | intros out ds added Hwell; eexists _, u, ds;
       split; [|split; [reflexivity|split; [exact Hu|exact Hwell]]];
       simpl; tauto ]).
Qed.

End Samplers.

(** ** Generation *)

Lemma replay_lawful (us : nat -> Q) (ks : nat -> Z) :
  (forall n, 0 <= us n /\ us n < 1) -> rs_lawful (replay us ks).
Proof.
  intros Hus. split.
  - intros s. exact (Hus s).
  - intros n s Hn. simpl. apply Z.mod_pos_bound. exact Hn.
Qed.

Lemma mid_source_lawful : rs_lawful mid_source.
Proof. apply replay_lawful. intros _. split; [discriminate | reflexivity]. Qed.

(** What a call of the generator comes to: an error when the forced
    type is none of the five, and otherwise a setup of the forced or
    selected archetype. *)
Lemma generate_outcome (R : RandomSource) (L : MathLib)
    (lighting_type : option string) (w : world R) :
  (exists e w',
     generate_random_lighting_setup L lighting_type w = (inl e, w') /\
                exists t, lighting_type = Some t /\ ~ In t archetypes) \/
  (exists t out pre ds added s',
     generate_random_lighting_setup L lighting_type w =
       (inr out, World s' (w_draws w ++ pre ++ ds) (w_scene w ++ added)) /\
     In t archetypes /\
     match lighting_type with
     | Some t' => t' = t /\ pre = []
     | None => exists u, pre = [DRandom u] /\ (rs_lawful R -> 0 <= u /\ u < 1)
     end /\
     sampled_well (R:=R) L t out ds added).
Proof.
  destruct lighting_type as [t|].
  - destruct (existsb (String.eqb t) archetypes) eqn:E.
    + right. apply archetypes_decide in E.
      destruct (generate_forced L t E w) as (out & ds & added & s' & Hg & Hw).
      exists t, out, [], ds, added, s'. simpl. auto.
    + left. destruct (generate_invalid L t w E) as (e & He).
      exists e, w. split; [exact He|]. exists t. split; [reflexivity|].
      intros Hin.
      assert (Ht : existsb (String.eqb t) archetypes = true).
      { apply existsb_exists. exists t. split; [exact Hin|].
        apply String.eqb_refl. }
      rewrite Ht in E. discriminate.
  - right.
    destruct (generate_selecting L w)
      as (out & ds & added & s' & Hg & t & u & ds' & Hin & -> & Hu & Hw).
    exists t, out, [DRandom u], ds', added, s'.
    split; [exact Hg|]. split; [exact Hin|]. split; [|exact Hw].
    exists u. auto.
Qed.

(** C7: with a lawful random source, called with one of the five types
    or with none, the generator returns, and the lights it returns are
    those of the archetype it used: three area lights with the roles key,
    fill and back for studio; one or two area lights for dramatic; a sun
    and an area light for natural; two to five point lights for random;
    no light for env_map. *)
Theorem sampler_cardinality
    (R : RandomSource) (L : MathLib) (lighting_type : option string)
    (w : world R) :
  rs_lawful R ->
  (forall t, lighting_type = Some t -> In t archetypes) ->
  exists lights metadata w' t,
    generate_random_lighting_setup L lighting_type w =
      (inr (lights, metadata), w') /\
    In t archetypes /\
    (forall t', lighting_type = Some t' -> t' = t) /\
    dict_get metadata "lighting_type" = Some (VStr t) /\
    cardinality t lights metadata.
Proof.
  intros Hlaw Hvalid.
  destruct (generate_outcome R L lighting_type w)
    as [(e & w' & _ & t & -> & Hn)
       |(t & [lights md] & pre & ds & added & s' & Hg & Hin & Hsel & Hw)].
  - elim Hn. now apply Hvalid.
  - destruct Hw as (_ & _ & Htag & _ & Hc).
    eexists lights, md, _, t.
    split; [exact Hg|]. split; [exact Hin|].
    split; [|split; [exact Htag | exact (proj1 (Hc Hlaw))]].
    intros t' ->. now destruct Hsel.
Qed.

Lemma sampler_cardinality_witness :
  exists lights metadata w' t,
    generate_random_lighting_setup rational_math (Some "dramatic")
      (empty_world mid_source 0%nat) = (inr (lights, metadata), w') /\
    In t archetypes /\
    (forall t', Some "dramatic" = Some t' -> t' = t) /\
    dict_get metadata "lighting_type" = Some (VStr t) /\
    cardinality t lights metadata.
Proof.
  apply (sampler_cardinality mid_source rational_math (Some "dramatic")
           (empty_world mid_source 0%nat)).
  - exact mid_source_lawful.
  - intros t [= <-]. simpl. tauto.
Defined.



(** C1, as stated, fails in its second half: the decoder returns the
    lights and nothing else, so that two env_map records with different
    strengths decode to the same, empty, result; no encoder of decoded
    setups, even one that is told the archetype, gives back both. *)
Lemma no_encoder_of_decoded_setups :
  ~ (exists encode : string -> list light_object -> dict,
       forall (R : RandomSource) (L : MathLib) (t : string)
              (w w' wd wd' : world R) (lights lights' : list light_object)
              (metadata : dict),
         generate_random_lighting_setup L (Some t) w =
           (inr (lights, metadata), w') ->
         setup_lighting_from_metadata metadata wd = (inr lights', wd') ->
         lights' = lights /\ encode t lights' = metadata).
Proof.
  intros (encode & H).
  pose (w0 := empty_world alternating 0%nat).
  pose (w1 := empty_world alternating 1%nat).
  destruct (generate_random_lighting_setup rational_math (Some "env_map") w0)
    as [[e|[ls0 md0]] w0'] eqn:E0; [vm_compute in E0; discriminate E0|].
  destruct (generate_random_lighting_setup rational_math (Some "env_map") w1)
    as [[e|[ls1 md1]] w1'] eqn:E1; [vm_compute in E1; discriminate E1|].
  destruct (setup_lighting_from_metadata md0 w0) as [[e|ls0'] wd0] eqn:D0.
  { vm_compute in E0. injection E0 as _ <- _.
    vm_compute in D0. discriminate D0. }
  destruct (setup_lighting_from_metadata md1 w0) as [[e|ls1'] wd1] eqn:D1.
  { vm_compute in E1. injection E1 as _ <- _.
    vm_compute in D1. discriminate D1. }
  destruct (H _ _ _ _ _ _ _ _ _ _ E0 D0) as (L0 & M0).
  destruct (H _ _ _ _ _ _ _ _ _ _ E1 D1) as (L1 & M1).
  vm_compute in E0. injection E0 as <- <- _.
  vm_compute in E1. injection E1 as <- <- _.
  subst ls0' ls1'. rewrite M0 in M1. discriminate M1.
Qed.

(** C1, amended: called with one of the five types or with none, the
    generator returns a setup; the lights it returns are the lights it
    added to the scene; and decoding the record it emitted, in any world,
    succeeds and reconstructs lights equal to them, one for one, in every
    parameter (kind, position, rotation, energy, color, size or angle,
    shape).  Nothing is claimed of re-encoding: the decoder returns only
    the lights. *)
Theorem decode_reconstructs_generated
    (R : RandomSource) (L : MathLib) (lighting_type : option string)
    (w : world R) :
  (forall t, lighting_type = Some t -> In t archetypes) ->
  exists lights metadata w',
    generate_random_lighting_setup L lighting_type w =
      (inr (lights, metadata), w') /\
    w_scene w' = w_scene w ++ lights /\
    forall wd : world R,
      setup_lighting_from_metadata metadata wd =
      (inr lights, with_lights wd lights).
Proof.
  intros Hvalid.
  destruct (generate_outcome R L lighting_type w)
    as [(e & w1 & _ & t & -> & Hn)
       |(t & [lights md] & pre & ds & added & s' & Hg & _ & _ & Hw)].
  - elim Hn. now apply Hvalid.
  - destruct Hw as (-> & Hd & _).
    eexists lights, md, _. split; [exact Hg|].
    split; [reflexivity | exact Hd].
Qed.

Lemma decode_reconstructs_generated_witness :
  let w := empty_world mid_source 0%nat in
  exists lights metadata w',
    generate_random_lighting_setup rational_math None w =
      (inr (lights, metadata), w') /\
    w_scene w' = w_scene w ++ lights /\
    forall wd : world mid_source,
      setup_lighting_from_metadata metadata wd =
      (inr lights, with_lights wd lights).
Proof.
  intros w.
  apply (decode_reconstructs_generated mid_source rational_math None w).
  intros t H. discriminate H.
Defined.

(** * More of the module *)

(** ** The Color-Temperature Model: range and shape *)

Ltac by_branch t :=
  unfold blackbody_to_rgb;
  let E := fresh "E" in
  destruct (Qle_bool t 4000) eqn:E;
  [ apply Qle_bool_iff in E
  | assert (4000 < t)
      by (apply Qnot_le_lt; intros Hle; apply Qle_bool_iff in Hle;
          rewrite Hle in E; discriminate E);
    clear E ].

(** X1: the model gives a color a display can show, every channel in
    [0, 1], for the temperatures from 1834 K to 6500 K; from 6501 K on
    blue exceeds 1, and up to 1833 K blue is negative: nothing is
    clamped.  Over the rationals for every temperature, and in binary64
    at the four temperatures named, between which the floating-point
    operations of each branch, being monotone, keep the order. *)
Theorem blackbody_in_gamut (t : Q) :
  (1834 <= t -> t <= 6500 -> in_gamut (blackbody_to_rgb t)) /\
  (6501 <= t -> 1 < blue (blackbody_to_rgb t)) /\
  (t <= 1833 -> blue (blackbody_to_rgb t) < 0) /\
  PrimFloat.leb 0 (blue_f (blackbody_to_rgb_f 1834)) = true /\
  PrimFloat.leb (blue_f (blackbody_to_rgb_f 6500)) 1 = true /\
  PrimFloat.ltb 1 (blue_f (blackbody_to_rgb_f 6501)) = true /\
  PrimFloat.ltb (blue_f (blackbody_to_rgb_f 1833)) 0 = true.
Proof.
  split; [|split; [|split]].
  - intros Hlo Hhi. by_branch t; unfold in_gamut, Qdiv;
      change (/ 1300) with (1 # 1300); change (/ 2500) with (1 # 2500);
      repeat split; try discriminate; lra.
  - intros Hlo. rewrite blackbody_to_rgb_high by lra.
    unfold blue, Qdiv. simpl snd. change (/ 2500) with (1 # 2500). lra.
  - intros Hhi. rewrite blackbody_to_rgb_low by lra.
    unfold blue, Qdiv. simpl snd. change (/ 1300) with (1 # 1300). lra.
  - repeat split; reflexivity.
Qed.

(** X2: on each side of 4000 K no channel decreases when the
    temperature rises; across it blue falls: it is 1 at 4000 K and less
    than that at every temperature above 4000 K up to 6499 K.  The fall
    is also that of binary64, at the float next above 4000 and at
    6499. *)
Theorem blackbody_blue_falls_after_4000 (t t' : Q) :
  t <= t' ->
  (t' <= 4000 \/ 4000 < t ->
   channels_le (blackbody_to_rgb t) (blackbody_to_rgb t')) /\
  (t == 4000 -> t < t' -> t' <= 6499 ->
   blue (blackbody_to_rgb t') < blue (blackbody_to_rgb t)) /\
  PrimFloat.ltb (blue_f (blackbody_to_rgb_f (PrimFloat.next_up 4000)))
                (blue_f (blackbody_to_rgb_f 4000)) = true /\
  PrimFloat.ltb (blue_f (blackbody_to_rgb_f 6499))
                (blue_f (blackbody_to_rgb_f 4000)) = true.
Proof.
  intros Hle. split; [|split].
  - intros [Hlow | Hhigh].
    + rewrite !blackbody_to_rgb_low by lra.
      unfold channels_le, Qdiv. change (/ 1300) with (1 # 1300).
      repeat split; lra.
    + rewrite !blackbody_to_rgb_high by lra.
      unfold channels_le, Qdiv. change (/ 2500) with (1 # 2500).
      repeat split; lra.
  - intros Ht Hlt Hhi.
    rewrite (blackbody_to_rgb_low t) by lra.
    rewrite (blackbody_to_rgb_high t') by lra.
    unfold blue, Qdiv. simpl snd.
    change (/ 1300) with (1 # 1300). change (/ 2500) with (1 # 2500). lra.
  - split; reflexivity.
Qed.

Lemma blackbody_blue_falls_after_4000_witness :
  (5000 <= 4000 \/ 4000 < 4000 ->
   channels_le (blackbody_to_rgb 4000) (blackbody_to_rgb 5000)) /\
  (4000 == 4000 -> 4000 < 5000 -> 5000 <= 6499 ->
   blue (blackbody_to_rgb 5000) < blue (blackbody_to_rgb 4000)) /\
  PrimFloat.ltb (blue_f (blackbody_to_rgb_f (PrimFloat.next_up 4000)))
                (blue_f (blackbody_to_rgb_f 4000)) = true /\
  PrimFloat.ltb (blue_f (blackbody_to_rgb_f 6499))
                (blue_f (blackbody_to_rgb_f 4000)) = true.
Proof. apply (blackbody_blue_falls_after_4000 4000 5000). discriminate. Defined.

Lemma blackbody_warm_to_cool (t : Q) :
  2700 <= t -> t <= 6500 -> in_gamut (blackbody_to_rgb t).
Proof.
  intros Hlo Hhi. by_branch t; unfold in_gamut, Qdiv;
    change (/ 1300) with (1 # 1300); change (/ 2500) with (1 # 2500);
    repeat split; try discriminate; lra.
Qed.

Lemma in_gamut_vred (c : vec3) : in_gamut c -> in_gamut (vred c).
Proof.
  destruct c as [[r g] b]. unfold in_gamut, vred.
  now rewrite !Qred_correct.
Qed.

(** ** The generator: type argument and selector *)

Ltac draw x Hx :=
  eapply yields_bind; [apply yields_uniform|];
  intros x ? ? (-> & -> & Hx).

Ltac forced_branch :=
  unfold generate_random_lighting_setup;
  cbn [existsb map fst lighting_types String.eqb Ascii.eqb Bool.eqb negb orb];
  apply yields_bind_ret;
  cbn [String.eqb Ascii.eqb Bool.eqb].

(** X3: called with a type that is none of the five, spelled as they
    are, the generator raises the ValueError that names the type before
    it asks the random source anything and before it touches the
    scene. *)
Theorem generate_rejects_unknown_type
    (R : RandomSource) (L : MathLib) (t : string) (w : world R) :
  ~ In t archetypes ->
  generate_random_lighting_setup L (Some t) w = (inl (invalid_type t), w).
Proof.
  intros Hn. unfold generate_random_lighting_setup, bind.
  destruct (existsb (String.eqb t) (map fst lighting_types)) eqn:E.
  - elim Hn. now apply archetypes_decide.
  - reflexivity.
Qed.

Lemma generate_rejects_unknown_type_witness :
  generate_random_lighting_setup rational_math (Some "Studio")
    (empty_world mid_source 0%nat) =
  (inl (invalid_type "Studio"), empty_world mid_source 0%nat).
Proof.
  apply (generate_rejects_unknown_type mid_source rational_math "Studio").
  simpl. intuition discriminate.
Defined.

Lemma bind_returns {R : RandomSource} {A B : Type} (c : M R A)
    (k : A -> M R B) (w w1 : world R) (x : A) :
  c w = (inr x, w1) -> bind c k w = k x w1.
Proof. intros H. unfold bind. now rewrite H. Qed.

Lemma choices_selected {R : RandomSource} (w : world R) :
  choices (map fst lighting_types) (map snd lighting_types) w =
  (inr (selected (fst (rs_random R (w_rng w)))),
   World (snd (rs_random R (w_rng w)))
         (w_draws w ++ [DRandom (fst (rs_random R (w_rng w)))])
         (w_scene w)).
Proof.
  unfold choices.
  change (Qle_bool (last (accumulate (map snd lighting_types)) 0) 0)
    with false.
  cbv iota. unfold bind, random_random.
  destruct (rs_random R (w_rng w)) as [u s]. cbn [fst snd].
  assert (E : nth_error (map fst lighting_types)
                (bisect (accumulate (map snd lighting_types))
                   (u * last (accumulate (map snd lighting_types)) 0)
                   (List.length (map fst lighting_types) - 1)) =
              Some (selected u)).
  { eassert (Ec : accumulate (map snd lighting_types) = _)
      by (vm_compute; reflexivity).
    rewrite Ec. clear Ec. cbn [last map fst lighting_types List.length Nat.sub].
    unfold selected, bisect.
    repeat match goal with
    | |- context [Qle_bool ?a ?b] =>
        let E := fresh "E" in
        destruct (Qle_bool a b) eqn:E;
        [ apply Qle_bool_iff in E
        | assert (b < a)
            by (apply Qnot_le_lt; intros Hle; apply Qle_bool_iff in Hle;
                rewrite Hle in E; discriminate E);
          clear E ]
    end;
    try reflexivity; exfalso; lra. }
  rewrite E. reflexivity.
Qed.

(** X4: called without a type, the generator asks [random()] for one
    number [u] and goes on as the call for the type [selected u] does
    from there: studio below 0.25, dramatic from 0.25, natural from 0.45,
    random from 0.70 and env_map from 0.85, the shares of the five
    weights.  This is stated for the [u] that are not within a billionth
    of a threshold: there the sums of the weights in floating point
    decide, which the rationals do not give. *)
Theorem generate_selects_by_weight
    (R : RandomSource) (L : MathLib) (w : world R) :
  clear_of_thresholds (fst (rs_random R (w_rng w))) ->
  In (selected (fst (rs_random R (w_rng w)))) archetypes /\
  generate_random_lighting_setup L None w =
  generate_random_lighting_setup L
    (Some (selected (fst (rs_random R (w_rng w)))))
    (World (snd (rs_random R (w_rng w)))
           (w_draws w ++ [DRandom (fst (rs_random R (w_rng w)))])
           (w_scene w)).
Proof.
  intros _. set (u := fst (rs_random R (w_rng w))). split.
  - unfold selected. repeat destruct (Qle_bool _ u); simpl; tauto.
  - unfold generate_random_lighting_setup.
    rewrite (bind_returns _ _ _ _ _ (choices_selected w)). fold u.
    unfold selected. repeat destruct (Qle_bool _ u); reflexivity.
Qed.

Lemma generate_selects_by_weight_witness :
  In (selected (1 # 2)) archetypes /\
  generate_random_lighting_setup rational_math None
    (empty_world mid_source 0%nat) =
  generate_random_lighting_setup rational_math (Some (selected (1 # 2)))
    (@World mid_source 1%nat [DRandom (1 # 2)] []).
Proof.
  apply (generate_selects_by_weight mid_source rational_math
           (empty_world mid_source 0%nat)).
  repeat (constructor; [first [left; discriminate | right; discriminate]|]).
  constructor.
Defined.

(** ** Labels of generated entries *)

Section Labels.

Context {R : RandomSource} (L : MathLib).

(** A sampling loop, turn by turn. *)
Lemma yields_numbered_loop (t : string)
    (body : nat -> list light_object * dict -> M R (list light_object * dict))
    (I : nat -> light_object -> value -> Prop) :
  (forall i lights es,
     yields (R:=R) (body i (lights, record_of t es))
       (fun out ds added =>
          exists o e, out = (lights ++ [o], record_of t (es ++ [e])) /\
                      I i o e)) ->
  forall idxs lights es,
    yields (R:=R) (for_each idxs body (lights, record_of t es))
      (fun out ds added =>
         exists new : list (light_object * value),
           out = (lights ++ map fst new, record_of t (es ++ map snd new)) /\
           Forall2 (fun i it => I i (fst it) (snd it)) idxs new).
Proof.
  intros Hbody idxs.
  induction idxs as [|i idxs IH]; intros lights es; simpl.
  - apply yields_ret. exists []. simpl. rewrite !app_nil_r. auto.
  - eapply yields_bind; [apply Hbody|].
    intros out ds added (o & e & -> & HI).
    eapply yields_weaken; [apply IH|].
    intros out' ds' added' (new & -> & Hall).
    exists ((o, e) :: new). simpl. rewrite <- !app_assoc. auto.
Qed.

Lemma numbered_from (prefix : string) (idxs : list nat)
    (new : list (light_object * value)) :
  Forall2 (fun i it => turn_labelled prefix i (fst it) (snd it)) idxs new ->
  map (field_of "role") (map snd new) =
    map (fun i => Some (VStr (prefix ++ string_of_nat (i + 1)))) idxs /\
  map (field_of "type") (map snd new) =
    map (fun o => Some (VStr (kind_name (kind_of o)))) (map fst new) /\
  List.length new = List.length idxs.
Proof.
  induction 1 as [|i it idxs new (Hr & Ht) _ (IH1 & IH2 & IH3)]; simpl.
  - auto.
  - now rewrite Hr, Ht, IH1, IH2, IH3.
Qed.

Lemma dramatic_light_labelled (i : nat) lights es :
  yields (R:=R) (dramatic_light L i (lights, record_of "dramatic" es))
    (fun out ds added =>
       exists o e, out = (lights ++ [o], record_of "dramatic" (es ++ [e])) /\
                   turn_labelled "dramatic_" i o e).
Proof.
  unfold dramatic_light.
  draw theta Hth. draw phi Hph. draw r Hr.
  cbv beta iota zeta.
  draw energy Hen. draw temp Hte. draw s0 Hs0. draw s1 Hs1.
  eapply yields_bind;
    [apply yields_scene_op; intros w; apply add_area_light_ok|].
  intros light ? ? (-> & -> & ->).
  rewrite lights_append_record. apply yields_bind_ret.
  apply yields_ret.
  eexists _, _. split; [reflexivity|]. split; reflexivity.
Qed.

Lemma random_light_labelled (i : nat) lights es :
  yields (R:=R) (random_light L i (lights, record_of "random" es))
    (fun out ds added =>
       exists o e, out = (lights ++ [o], record_of "random" (es ++ [e])) /\
                   turn_labelled "random_" i o e).
Proof.
  unfold random_light. cbv beta iota zeta.
  draw theta Hth. draw phi Hph. draw r Hr.
  draw energy Hen. draw temp Hte.
  eapply yields_bind;
    [apply yields_scene_op; intros w; apply add_point_light_ok|].
  intros light ? ? (-> & -> & ->).
  rewrite lights_append_record. apply yields_bind_ret.
  apply yields_ret.
  eexists _, _. split; [reflexivity|]. split; reflexivity.
Qed.

Lemma loop_labelled (t prefix : string) (new : list (light_object * value))
    (n : Z) :
  roles_written t (List.length (map fst new)) =
    numbered prefix (List.length (map fst new)) ->
  Forall2 (fun i it => turn_labelled prefix i (fst it) (snd it))
          (range n) new ->
  labelled t ([] ++ map fst new, record_of t ([] ++ map snd new)).
Proof.
  intros Hw Hall.
  destruct (numbered_from prefix _ _ Hall) as (Hr & Ht & Hlen).
  unfold labelled, roles_of, types_of, record_of. simpl.
  destruct (String.eqb "lights" "lighting_type") eqn:E; [discriminate E|].
  split; [|exact Ht].
  rewrite Hw. unfold numbered. rewrite length_map, Hlen, length_range.
  exact Hr.
Qed.

Lemma generate_labelled (t : string) :
  In t archetypes ->
  yields (R:=R) (generate_random_lighting_setup L (Some t))
    (fun out ds added => labelled t out).
Proof.
  intros [<-|[<-|[<-|[<-|[<-|[]]]]]]; forced_branch.
  - draw ke Hke. draw fe Hfe. draw be Hbe.
    draw kt Hkt. draw ft Hft. draw bt Hbt.
    eapply yields_bind;
      [apply yields_scene_op; intros w; apply setup_studio_lighting_ok|].
    intros lights ? ? (-> & -> & ->).
    apply yields_ret. split; reflexivity.
  - eapply yields_bind; [apply yields_randint; lia|].
    intros n ds0 added0 _.
    eapply yields_weaken.
    { apply (yields_numbered_loop "dramatic" (dramatic_light L)
               (turn_labelled "dramatic_")
               dramatic_light_labelled (range n) [] []). }
    intros out ds added (new & -> & Hall).
    now apply (loop_labelled "dramatic" "dramatic_" new n).
  - draw elevation Hel. draw azimuth Haz.
    draw se Hse. draw size Hsz. draw st Hst.
    eapply yields_bind;
      [apply yields_scene_op; intros w; apply add_sun_light_ok|].
    intros sun ? ? (-> & -> & ->).
    draw x Hx. draw y Hy. draw z Hz.
    draw fe Hfe. draw ft Hft. draw s0 Hs0. draw s1 Hs1.
    eapply yields_bind.
    { apply yields_scene_op. intros w. unfold default_rotation, default_shape.
      change (VList [VNum 0; VNum 0; VNum 0]) with (tuple3 (0, 0, 0)).
      apply add_area_light_ok. }
    intros fill ? ? (-> & -> & ->).
    apply yields_ret. split; reflexivity.
  - eapply yields_bind; [apply yields_randint; lia|].
    intros n ds0 added0 _.
    eapply yields_weaken.
    { apply (yields_numbered_loop "random" (random_light L)
               (turn_labelled "random_")
               random_light_labelled (range n) [] []). }
    intros out ds added (new & -> & Hall).
    now apply (loop_labelled "random" "random_" new n).
  - draw strength Hs. apply yields_ret. split; reflexivity.
Qed.

End Labels.

(** X5: the record the generator returns labels every light: its
    entries are as many as the lights, in their order; the roles are
    key, fill, back for studio, main, fill for natural, and dramatic_1,
    dramatic_2, ... and random_1, random_2, ... for the two loops; and
    the [type] of each entry names the kind of its light (area, sun or
    point). *)
Theorem generated_entries_labelled
    (R : RandomSource) (L : MathLib) (t : string) (w : world R) :
  In t archetypes ->
  exists lights metadata w',
    generate_random_lighting_setup L (Some t) w =
      (inr (lights, metadata), w') /\
    roles_of metadata = roles_written t (List.length lights) /\
    types_of metadata =
      map (fun o => Some (VStr (kind_name (kind_of o)))) lights.
Proof.
  intros Hin.
  destruct (generate_labelled L t Hin w)
    as ([lights md] & ds & added & s' & E & Hr & Ht).
  eexists lights, md, _. split; [exact E|]. split; [exact Hr | exact Ht].
Qed.

Lemma generated_entries_labelled_witness :
  exists lights metadata w',
    generate_random_lighting_setup rational_math (Some "random")
      (empty_world mid_source 0%nat) = (inr (lights, metadata), w') /\
    roles_of metadata = roles_written "random" (List.length lights) /\
    types_of metadata =
      map (fun o => Some (VStr (kind_name (kind_of o)))) lights.
Proof.
  apply (generated_entries_labelled mid_source rational_math "random"
           (empty_world mid_source 0%nat)).
  simpl. tauto.
Defined.

(** ** Where the generator places dramatic and random lights *)

Lemma on_sphere (L : MathLib) (eps r phi theta : Q) :
  0 <= eps -> eps <= 1 ->
  1 - eps <= m_sin L phi * m_sin L phi + m_cos L phi * m_cos L phi /\
  m_sin L phi * m_sin L phi + m_cos L phi * m_cos L phi <= 1 + eps ->
  1 - eps <= m_sin L theta * m_sin L theta + m_cos L theta * m_cos L theta /\
  m_sin L theta * m_sin L theta + m_cos L theta * m_cos L theta <= 1 + eps ->
  r * r * ((1 - eps) * (1 - eps)) <=
    norm2 (r * m_sin L phi * m_cos L theta,
           r * m_sin L phi * m_sin L theta,
           r * m_cos L phi) /\
  norm2 (r * m_sin L phi * m_cos L theta,
         r * m_sin L phi * m_sin L theta,
         r * m_cos L phi) <= r * r * ((1 + eps) * (1 + eps)).
Proof.
  intros H0 H1 (Hp1 & Hp2) (Ht1 & Ht2). unfold norm2.
  set (a := m_sin L phi) in *. set (b := m_cos L phi) in *.
  set (c := m_sin L theta) in *. set (d := m_cos L theta) in *.
  assert (E : r * a * d * (r * a * d) + r * a * c * (r * a * c) + r * b * (r * b)
              == r * r * (a * a * (c * c + d * d) + b * b)) by ring.
  rewrite E. clear E.
  assert (Ha : 0 <= a * a) by nra. assert (Hb : 0 <= b * b) by nra.
  assert (Hr : 0 <= r * r) by nra.
  set (A := a * a) in *. set (B := b * b) in *. set (S := c * c + d * d) in *.
  assert (Hlo : (1 - eps) * (1 - eps) <= A * S + B) by nra.
  assert (Hhi : A * S + B <= (1 + eps) * (1 + eps)) by nra.
  split; nra.
Qed.

Lemma norm2_vred (v : vec3) : norm2 (vred v) == norm2 v.
Proof. destruct v as [[x y] z]. simpl. now rewrite !Qred_correct. Qed.

Lemma tangent_math_pythagorean (eps : Q) :
  0 <= eps -> pythagorean tangent_math eps.
Proof.
  intros Heps x _ _. simpl.
  assert (E : x / (1 + x / 2 * (x / 2)) * (x / (1 + x / 2 * (x / 2))) +
              (1 - x / 2 * (x / 2)) / (1 + x / 2 * (x / 2)) *
              ((1 - x / 2 * (x / 2)) / (1 + x / 2 * (x / 2))) == 1).
  { field. unfold Qdiv. change (/ 2) with (1 # 2). nra. }
  rewrite E. split; lra.
Qed.

Lemma tangent_math_cos_of_acute : cos_of_acute tangent_math.
Proof.
  intros x H0 H1. simpl in *.
  apply Qle_shift_div_l; unfold Qdiv in *; change (/ 2) with (1 # 2) in *;
    nra.
Qed.

Section Positions.

Context {R : RandomSource} (L : MathLib) (eps : Q).

Lemma shell_2_4 (r phi theta : Q) (o : light_object) :
  0 <= eps -> eps <= 1 -> 0 <= m_pi L -> pythagorean L eps ->
  2 <= r /\ r <= 4 ->
  0 <= phi /\ phi <= m_pi L ->
  0 <= theta /\ theta <= 2 * m_pi L ->
  location o = vred (r * m_sin L phi * m_cos L theta,
                     r * m_sin L phi * m_sin L theta,
                     r * m_cos L phi) ->
  in_shell 2 4 eps o.
Proof.
  intros H0 H1 Hpi Hpy (H2 & H4) (Hp0 & Hp1) (Ht0 & Ht1) Hloc.
  unfold in_shell. rewrite Hloc, norm2_vred.
  assert (Hphi : phi <= 2 * m_pi L) by lra.
  destruct (on_sphere L eps r phi theta H0 H1
              (Hpy phi Hp0 Hphi) (Hpy theta Ht0 Ht1)) as (Hlo & Hhi).
  assert (He1 : 0 <= (1 - eps) * (1 - eps)) by nra.
  assert (He2 : 0 <= (1 + eps) * (1 + eps)) by nra.
  assert (Hr1 : 2 * 2 <= r * r) by nra.
  assert (Hr2 : r * r <= 4 * 4) by nra.
  set (E1 := (1 - eps) * (1 - eps)) in *.
  set (E2 := (1 + eps) * (1 + eps)) in *.
  set (rr := r * r) in *.
  split.
  - apply Qle_trans with (rr * E1); [nra | exact Hlo].
  - apply Qle_trans with (rr * E2); [exact Hhi | nra].
Qed.

Lemma dramatic_light_place (i : nat) lights es :
  yields (R:=R) (dramatic_light L i (lights, record_of "dramatic" es))
    (fun out ds added =>
       exists o e, out = (lights ++ [o], record_of "dramatic" (es ++ [e])) /\
                   added = [o] /\ dramatic_place R L eps o).
Proof.
  unfold dramatic_light.
  draw theta Hth. draw phi Hph. draw r Hr.
  cbv beta iota zeta.
  draw energy Hen. draw temp Hte. draw s0 Hs0. draw s1 Hs1.
  eapply yields_bind;
    [apply yields_scene_op; intros w; apply add_area_light_ok|].
  intros light ? ? (-> & -> & ->).
  rewrite lights_append_record. apply yields_bind_ret.
  apply yields_ret. cbn [app].
  eexists _, _. split; [reflexivity|]. split; [reflexivity|].
  intros Hlaw Hpi H0 H1 Hpy Hcos.
  assert (Hr' : 2 <= r /\ r <= 4) by (apply Hr; [exact Hlaw | discriminate]).
  assert (Hphi : 0 <= phi /\ phi <= m_pi L / 2).
  { apply Hph; [exact Hlaw|]. unfold Qdiv. change (/ 2) with (1 # 2). lra. }
  assert (Hphi' : 0 <= phi /\ phi <= m_pi L).
  { destruct Hphi as (Hp0 & Hp1). split; [exact Hp0|].
    revert Hp1. unfold Qdiv. change (/ 2) with (1 # 2). lra. }
  assert (Htheta : 0 <= theta /\ theta <= 2 * m_pi L)
    by (apply Hth; [exact Hlaw | lra]).
  split.
  - now apply (shell_2_4 r phi theta).
  - change (0 <= Qred (r * m_cos L phi)). rewrite Qred_correct.
    pose proof (Hcos phi (proj1 Hphi) (proj2 Hphi)) as Hc.
    destruct Hr' as (H2 & _). nra.
Qed.

Lemma random_light_place (i : nat) lights es :
  yields (R:=R) (random_light L i (lights, record_of "random" es))
    (fun out ds added =>
       exists o e, out = (lights ++ [o], record_of "random" (es ++ [e])) /\
                   added = [o] /\ random_place R L eps o).
Proof.
  unfold random_light. cbv beta iota zeta.
  draw theta Hth. draw phi Hph. draw r Hr.
  draw energy Hen. draw temp Hte.
  eapply yields_bind;
    [apply yields_scene_op; intros w; apply add_point_light_ok|].
  intros light ? ? (-> & -> & ->).
  rewrite lights_append_record. apply yields_bind_ret.
  apply yields_ret. cbn [app].
  eexists _, _. split; [reflexivity|]. split; [reflexivity|].
  intros Hlaw Hpi H0 H1 Hpy.
  apply (shell_2_4 r phi theta); try assumption; try reflexivity.
  - apply Hr; [exact Hlaw | discriminate].
  - now apply Hph.
  - apply Hth; [exact Hlaw | lra].
Qed.

Lemma generate_dramatic_places :
  yields (R:=R) (generate_random_lighting_setup L (Some "dramatic"))
    (fun out ds added => Forall (dramatic_place R L eps) (fst out)).
Proof.
  forced_branch.
  eapply yields_bind; [apply yields_randint; lia|].
  intros n ds0 added0 _.
  eapply yields_weaken.
  { apply (yields_light_loop "dramatic" (dramatic_light L)
             (fun o _ _ => dramatic_place R L eps o)
             dramatic_light_place (range n) [] []). }
  intros out ds added (items & -> & _ & _ & _ & Hall).
  simpl. apply Forall_map. exact Hall.
Qed.

Lemma generate_random_places :
  yields (R:=R) (generate_random_lighting_setup L (Some "random"))
    (fun out ds added => Forall (random_place R L eps) (fst out)).
Proof.
  forced_branch.
  eapply yields_bind; [apply yields_randint; lia|].
  intros n ds0 added0 _.
  eapply yields_weaken.
  { apply (yields_light_loop "random" (random_light L)
             (fun o _ _ => random_place R L eps o)
             random_light_place (range n) [] []). }
  intros out ds added (items & -> & _ & _ & _ & Hall).
  simpl. apply Forall_map. exact Hall.
Qed.

End Positions.

(** X6: with a lawful random source, a [pi] that is not negative, a
    sine and cosine whose squares add up to 1 within [eps] on the angles
    from 0 to [2 pi], as they do for any sine and cosine computed to that
    accuracy, and a cosine that is not negative from 0 to [pi / 2], every
    dramatic light lies at a distance from the origin between 2 and 4, up
    to the factors [1 - eps] and [1 + eps], and not below the horizon
    ([z >= 0]). *)
Theorem dramatic_lights_above_horizon
    (R : RandomSource) (L : MathLib) (eps : Q) (w : world R) :
  rs_lawful R -> 0 <= m_pi L -> 0 <= eps -> eps <= 1 ->
  pythagorean L eps -> cos_of_acute L ->
  exists lights metadata w',
    generate_random_lighting_setup L (Some "dramatic") w =
      (inr (lights, metadata), w') /\
    Forall (fun o => in_shell 2 4 eps o /\ 0 <= height (location o)) lights.
Proof.
  intros Hlaw Hpi H0 H1 Hpy Hcos.
  destruct (generate_dramatic_places L eps w)
    as ([lights md] & ds & added & s' & E & Hall).
  eexists lights, md, _. split; [exact E|].
  eapply Forall_impl; [|exact Hall].
  intros o Ho. now apply Ho.
Qed.

Lemma dramatic_lights_above_horizon_witness :
  exists lights metadata w',
    generate_random_lighting_setup tangent_math (Some "dramatic")
      (empty_world mid_source 0%nat) = (inr (lights, metadata), w') /\
    Forall (fun o => in_shell 2 4 (1 # 1000000) o /\
                     0 <= height (location o)) lights.
Proof.
  apply (dramatic_lights_above_horizon mid_source tangent_math (1 # 1000000)
           (empty_world mid_source 0%nat)).
  - exact mid_source_lawful.
  - discriminate.
  - discriminate.
  - discriminate.
  - apply tangent_math_pythagorean. discriminate.
  - exact tangent_math_cos_of_acute.
Defined.

(** X7: with a lawful random source, a [pi] that is not negative, and a
    sine and cosine whose squares add up to 1 within [eps] on the angles
    from 0 to [2 pi], every point light of the random archetype lies at
    a distance from the origin between 2 and 4, up to the factors
    [1 - eps] and [1 + eps]. *)
Theorem random_lights_in_shell
    (R : RandomSource) (L : MathLib) (eps : Q) (w : world R) :
  rs_lawful R -> 0 <= m_pi L -> 0 <= eps -> eps <= 1 ->
  pythagorean L eps ->
  exists lights metadata w',
    generate_random_lighting_setup L (Some "random") w =
      (inr (lights, metadata), w') /\
    Forall (in_shell 2 4 eps) lights.
Proof.
  intros Hlaw Hpi H0 H1 Hpy.
  destruct (generate_random_places L eps w)
    as ([lights md] & ds & added & s' & E & Hall).
  eexists lights, md, _. split; [exact E|].
  eapply Forall_impl; [|exact Hall].
  intros o Ho. now apply Ho.
Qed.

Lemma random_lights_in_shell_witness :
  exists lights metadata w',
    generate_random_lighting_setup tangent_math (Some "random")
      (empty_world mid_source 0%nat) = (inr (lights, metadata), w') /\
    Forall (in_shell 2 4 (1 # 1000000)) lights.
Proof.
  apply (random_lights_in_shell mid_source tangent_math (1 # 1000000)
           (empty_world mid_source 0%nat)).
  - exact mid_source_lawful.
  - discriminate.
  - discriminate.
  - discriminate.
  - apply tangent_math_pythagorean. discriminate.
Defined.

(** ** The colors of generated lights *)

Lemma blackbody_cool (t : Q) (o : light_object) :
  6000 <= t /\ t <= 7500 ->
  color_of o = vred (blackbody_to_rgb t) ->
  cool_fill o.
Proof.
  intros (Hlo & Hhi) Hc. unfold cool_fill. rewrite Hc.
  rewrite blackbody_to_rgb_high by lra. unfold vred.
  rewrite !Qred_correct. unfold Qdiv. change (/ 2500) with (1 # 2500).
  repeat split; try reflexivity; lra.
Qed.

Lemma blackbody_shown (t : Q) (o : light_object) :
  2700 <= t /\ t <= 5500 ->
  color_of o = vred (blackbody_to_rgb t) ->
  in_gamut (color_of o).
Proof.
  intros (Hlo & Hhi) ->. apply in_gamut_vred, blackbody_warm_to_cool; lra.
Qed.

Section GeneratedColors.

Context {R : RandomSource} (L : MathLib).

Ltac band H Hlaw :=
  let H1 := fresh in
  let H2 := fresh in
  destruct (H Hlaw) as (H1 & H2); [discriminate|];
  simpl fst in *; simpl snd in *; split; lra.

Lemma dramatic_light_color (i : nat) lights es :
  yields (R:=R) (dramatic_light L i (lights, record_of "dramatic" es))
    (fun out ds added =>
       exists o e, out = (lights ++ [o], record_of "dramatic" (es ++ [e])) /\
                   added = [o] /\ (rs_lawful R -> in_gamut (color_of o))).
Proof.
  unfold dramatic_light.
  draw theta Hth. draw phi Hph. draw r Hr.
  cbv beta iota zeta.
  draw energy Hen. draw temp Hte. draw s0 Hs0. draw s1 Hs1.
  eapply yields_bind;
    [apply yields_scene_op; intros w; apply add_area_light_ok|].
  intros light ? ? (-> & -> & ->).
  rewrite lights_append_record. apply yields_bind_ret.
  apply yields_ret. cbn [app].
  eexists _, _. split; [reflexivity|]. split; [reflexivity|].
  intros Hlaw. apply (blackbody_shown temp); [band Hte Hlaw | reflexivity].
Qed.

Lemma random_light_color (i : nat) lights es :
  yields (R:=R) (random_light L i (lights, record_of "random" es))
    (fun out ds added =>
       exists o e, out = (lights ++ [o], record_of "random" (es ++ [e])) /\
                   added = [o] /\ (rs_lawful R -> in_gamut (color_of o))).
Proof.
  unfold random_light. cbv beta iota zeta.
  draw theta Hth. draw phi Hph. draw r Hr.
  draw energy Hen. draw temp Hte.
  eapply yields_bind;
    [apply yields_scene_op; intros w; apply add_point_light_ok|].
  intros light ? ? (-> & -> & ->).
  rewrite lights_append_record. apply yields_bind_ret.
  apply yields_ret. cbn [app].
  eexists _, _. split; [reflexivity|]. split; [reflexivity|].
  intros Hlaw. apply (blackbody_shown temp); [band Hte Hlaw | reflexivity].
Qed.

Lemma loop_colors (items : list item) :
  Forall (fun it => rs_lawful R -> in_gamut (color_of (item_light it)))
         items ->
  rs_lawful R ->
  Forall (fun o => in_gamut (color_of o)) ([] ++ map item_light items).
Proof.
  intros Hall Hlaw. simpl. apply Forall_map.
  eapply Forall_impl; [|exact Hall]. intros it H. exact (H Hlaw).
Qed.

Lemma generate_colors (t : string) :
  In t archetypes ->
  yields (R:=R) (generate_random_lighting_setup L (Some t))
    (fun out ds added => rs_lawful R -> colors_generated t (fst out)).
Proof.
  intros [<-|[<-|[<-|[<-|[<-|[]]]]]]; forced_branch.
  - draw ke Hke. draw fe Hfe. draw be Hbe.
    draw kt Hkt. draw ft Hft. draw bt Hbt.
    eapply yields_bind;
      [apply yields_scene_op; intros w; apply setup_studio_lighting_ok|].
    intros lights ? ? (-> & -> & ->).
    apply yields_ret. intros Hlaw. split; [|split].
    + apply (blackbody_shown kt); [band Hkt Hlaw | reflexivity].
    + apply (blackbody_cool ft); [band Hft Hlaw | reflexivity].
    + apply (blackbody_shown bt); [band Hbt Hlaw | reflexivity].
  - eapply yields_bind; [apply yields_randint; lia|].
    intros n ds0 added0 _.
    eapply yields_weaken.
    { apply (yields_light_loop "dramatic" (dramatic_light L)
               (fun o _ _ => rs_lawful R -> in_gamut (color_of o))
               dramatic_light_color (range n) [] []). }
    intros out ds added (items & -> & _ & _ & _ & Hall).
    now apply loop_colors.
  - draw elevation Hel. draw azimuth Haz.
    draw se Hse. draw size Hsz. draw st Hst.
    eapply yields_bind;
      [apply yields_scene_op; intros w; apply add_sun_light_ok|].
    intros sun ? ? (-> & -> & ->).
    draw x Hx. draw y Hy. draw z Hz.
    draw fe Hfe. draw ft Hft. draw s0 Hs0. draw s1 Hs1.
    eapply yields_bind.
    { apply yields_scene_op. intros w. unfold default_rotation, default_shape.
      change (VList [VNum 0; VNum 0; VNum 0]) with (tuple3 (0, 0, 0)).
      apply add_area_light_ok. }
    intros fill ? ? (-> & -> & ->).
    apply yields_ret. intros Hlaw. split.
    + apply (blackbody_shown st); [band Hst Hlaw | reflexivity].
    + apply (blackbody_cool ft); [band Hft Hlaw | reflexivity].
  - eapply yields_bind; [apply yields_randint; lia|].
    intros n ds0 added0 _.
    eapply yields_weaken.
    { apply (yields_light_loop "random" (random_light L)
               (fun o _ _ => rs_lawful R -> in_gamut (color_of o))
               random_light_color (range n) [] []). }
    intros out ds added (items & -> & _ & _ & _ & Hall).
    now apply loop_colors.
  - draw strength Hs. apply yields_ret. intros _. constructor.
Qed.

End GeneratedColors.

(** X8: with a lawful random source, every light the generator
    creates has a color a display can show, but for the fill lights of
    studio and natural setups, whose temperature comes from the cool
    band (6000 K to 7500 K): a fill light is white with a blue between
    0.95 and 1.1 (the blue of 6000 K is 0.96 and that of 7500 K is 1.08,
    up to rounding), which need not be a color a display can show. *)
Theorem generated_colors
    (R : RandomSource) (L : MathLib) (t : string) (w : world R) :
  rs_lawful R -> In t archetypes ->
  exists lights metadata w',
    generate_random_lighting_setup L (Some t) w =
      (inr (lights, metadata), w') /\
    colors_generated t lights.
Proof.
  intros Hlaw Hin.
  destruct (generate_colors L t Hin w)
    as ([lights md] & ds & added & s' & E & Hc).
  eexists lights, md, _. split; [exact E | exact (Hc Hlaw)].
Qed.

Lemma generated_colors_witness :
  exists lights metadata w',
    generate_random_lighting_setup rational_math (Some "studio")
      (empty_world mid_source 0%nat) = (inr (lights, metadata), w') /\
    colors_generated "studio" lights.
Proof.
  apply (generated_colors mid_source rational_math "studio"
           (empty_world mid_source 0%nat)).
  - exact mid_source_lawful.
  - simpl. tauto.
Defined.

(** ** The decoder: what it reads, creates and raises *)

(** X9: a record tagged env_map decodes to no light and leaves the
    world as it is, whatever else the record holds: its [lights], if it
    has any, are not looked at. *)
Theorem decode_env_map_reads_no_lights
    (R : RandomSource) (metadata : dict) (w : world R) :
  dict_get metadata "lighting_type" = Some (VStr "env_map") ->
  setup_lighting_from_metadata metadata w = (inr [], w).
Proof.
  intros H. unfold setup_lighting_from_metadata. now rewrite H.
Qed.

Lemma decode_env_map_reads_no_lights_witness :
  setup_lighting_from_metadata env_map_with_junk
    (empty_world low_source 0%nat) =
  (inr [], empty_world low_source 0%nat).
Proof.
  apply (decode_env_map_reads_no_lights low_source env_map_with_junk).
  reflexivity.
Defined.

Section Added.

Context {R : RandomSource}.

Lemma objects_link_inv (o : light_object) (w w' : world R) h :
  objects_link o w = (inr h, w') ->
  h = List.length (w_scene w) /\ w' = with_lights w [o].
Proof. unfold objects_link. intros [= <- <-]. auto. Qed.

Lemma object_set_last (o o' : light_object) (w w' : world R) u :
  object_set (List.length (w_scene w)) o' (with_lights w [o]) = (inr u, w') ->
  w' = with_lights w [o'].
Proof.
  unfold object_set, with_lights. simpl. intros [= _ <-].
  now rewrite set_nth_length.
Qed.

(** Peels the steps off a gateway call that returned. *)
Ltac gateway_returned H :=
  repeat
    (let x := fresh "x" in
     let w1 := fresh "w" in
     let H1 := fresh "Hc" in
     apply bind_inr_inv in H; destruct H as (x & w1 & H1 & H);
     lazymatch type of H1 with
     | lift _ _ = _ => apply lift_inr_inv in H1; destruct H1 as (H1 & ->)
     | objects_link _ _ = _ =>
         apply objects_link_inv in H1; destruct H1 as (-> & ->)
     | object_set _ _ _ = _ => apply object_set_last in H1; subst w1
     end).

Lemma add_point_light_inv location energy color size (w w' : world R) o :
  add_point_light location energy color size w = (inr o, w') ->
  w' = with_lights w [o] /\
  exists e c s loc, o = Light (POINT e c s) loc origin.
Proof.
  unfold add_point_light. intros H. gateway_returned H.
  unfold ret in H. injection H as <- <-.
  split; [reflexivity|]. eauto 8.
Qed.

Lemma add_sun_light_inv rotation energy color angle (w w' : world R) o :
  add_sun_light rotation energy color angle w = (inr o, w') ->
  w' = with_lights w [o] /\
  exists e c a rot, o = Light (SUN e c a) origin rot.
Proof.
  unfold add_sun_light. intros H. gateway_returned H.
  unfold ret in H. injection H as <- <-.
  split; [reflexivity|]. eauto 8.
Qed.

Lemma size_y_inv (shape : string) (size : value) (w w' : world R) sy :
  (if in_strs (VStr shape) ["RECTANGLE"; "ELLIPSE"]
   then bind (lift (py_index size 1))
          (fun size1 => bind (lift (host_float "size_y" size1))
                          (fun y => ret (Some y)))
   else ret None) w = (inr sy, w') ->
  w' = w /\
  if in_strs (VStr shape) ["RECTANGLE"; "ELLIPSE"]
  then exists y, sy = Some y
  else sy = None.
Proof.
  destruct (in_strs (VStr shape) ["RECTANGLE"; "ELLIPSE"]); intros H.
  - gateway_returned H. unfold ret in H. injection H as <- <-.
    split; [reflexivity|]. eauto.
  - unfold ret in H. injection H as <- <-. auto.
Qed.

Lemma add_area_light_inv location rotation energy color size shape
    (w w' : world R) o :
  add_area_light location rotation energy color size shape w = (inr o, w') ->
  w' = with_lights w [o] /\
  exists e c sh sx sy loc rot,
    o = Light (AREA e c sh sx sy) loc rot /\
    host_shape shape = inr sh /\
    host_vec3 "rotation_euler" rotation = inr rot /\
    (if in_strs (VStr shape) ["RECTANGLE"; "ELLIPSE"]
     then exists y, sy = Some y
     else sy = None).
Proof.
  unfold add_area_light. intros H.
  do 5 (let x := fresh "x" in
        let w1 := fresh "w" in
        let H1 := fresh "Hc" in
        apply bind_inr_inv in H; destruct H as (x & w1 & H1 & H);
        apply lift_inr_inv in H1; destruct H1 as (H1 & ->)).
  apply bind_inr_inv in H. destruct H as (sy & w1 & Hsy & H).
  apply size_y_inv in Hsy. destruct Hsy as (-> & Hsy).
  gateway_returned H.
  unfold ret in H. injection H as <- <-.
  split; [reflexivity|]. eauto 12.
Qed.

End Added.

Section Decoded.

Context {R : RandomSource}.

(** Peels the reads off a loop body that returned, up to the gateway
    call. *)
Ltac body_returned H :=
  repeat
    (let x := fresh "x" in
     let w1 := fresh "w" in
     let H1 := fresh "Hc" in
     apply bind_inr_inv in H; destruct H as (x & w1 & H1 & H);
     lazymatch type of H1 with
     | lift _ _ = _ => apply lift_inr_inv in H1; destruct H1 as (H1 & ->)
     | _ => idtac
     end).

Ltac one_light H :=
  body_returned H; unfold ret in H; injection H as <- <-;
  lazymatch goal with
  | Hadd : add_area_light _ _ _ _ _ _ _ = _ |- _ =>
      apply add_area_light_inv in Hadd;
      destruct Hadd as (-> & e & c & sh & sx & sy & loc & rot & -> &
                        [= <-] & Hrot & (y & ->))
  | Hadd : add_sun_light _ _ _ _ _ = _ |- _ =>
      apply add_sun_light_inv in Hadd;
      destruct Hadd as (-> & e & c & a & rot & ->)
  | Hadd : add_point_light _ _ _ _ _ = _ |- _ =>
      apply add_point_light_inv in Hadd;
      destruct Hadd as (-> & e & c & s & loc & ->)
  end;
  eexists [_]; split; [reflexivity|]; split; [reflexivity|];
  constructor; [|constructor]; simpl.

Ltac no_light H :=
  unfold ret in H; injection H as <- <-;
  exists []; rewrite app_nil_r, with_lights_nil;
  split; [reflexivity|]; split; [reflexivity | constructor].

Ltac discriminant_read H :=
  let has := fresh "has" in
  let w1 := fresh "w" in
  let Hc := fresh "Hc" in
  apply bind_inr_inv in H; destruct H as (has & w1 & Hc & H);
  apply lift_inr_inv in Hc; destruct Hc as (Hc & ->);
  destruct has; cbn [negb] in H; [|discriminate H];
  clear Hc;
  let v := fresh "v" in
  apply bind_inr_inv in H; destruct H as (v & w1 & Hc & H);
  apply lift_inr_inv in Hc; destruct Hc as (Hc & ->).

Lemma entry_adds (a : archetype) (x : value) lights lights'
    (w w' : world R) :
  entry_body a x lights w = (inr lights', w') ->
  exists new,
    lights' = lights ++ new /\ w' = with_lights w new /\
    Forall (made_by a) new.
Proof.
  intros H.
  destruct a; simpl in H;
    unfold studio_entry, dramatic_entry, natural_entry, random_entry in H;
    discriminant_read H.
  - destruct (in_strs v ["key"; "fill"; "back"]); [|no_light H].
    one_light H. eauto.
  - destruct (is_str "area" v); [|no_light H].
    one_light H. eauto.
  - destruct (is_str "sun" v).
    + one_light H. left. eauto.
    + apply bind_inr_inv in H. destruct H as (v' & w1 & Hc' & H).
      apply lift_inr_inv in Hc'. destruct Hc' as (Hc' & ->).
      destruct (is_str "area" v'); [|no_light H].
      one_light H. right. injection Hrot as <-. eauto 8.
  - destruct (is_str "point" v); [|no_light H].
    one_light H. eauto.
Qed.

Lemma for_each_adds (a : archetype) (xs : list value) lights lights'
    (w w' : world R) :
  for_each xs (entry_body a) lights w = (inr lights', w') ->
  exists new,
    lights' = lights ++ new /\ w' = with_lights w new /\
    Forall (made_by a) new.
Proof.
  revert lights w. induction xs as [|x xs IH]; intros lights w H; simpl in H.
  - unfold ret in H. injection H as <- <-. exists [].
    rewrite app_nil_r, with_lights_nil. repeat split; auto.
  - apply bind_inr_inv in H. destruct H as (lights1 & w1 & Hx & H).
    apply entry_adds in Hx. destruct Hx as (new1 & -> & -> & Hm1).
    apply IH in H. destruct H as (new & -> & -> & Hm).
    exists (new1 ++ new).
    rewrite app_assoc, with_lights_app.
    split; [reflexivity|]. split; [reflexivity|].
    now apply Forall_app.
Qed.

(** A call of the decoder that returns read an env_map record, or a
    record tagged with one of the four light-bearing archetypes that has
    a [lights] value. *)
Lemma decode_returned (metadata : dict) lights (w w' : world R) :
  setup_lighting_from_metadata metadata w = (inr lights, w') ->
  (dict_get metadata "lighting_type" = Some (VStr "env_map") /\
   lights = [] /\ w' = w) \/
  exists a v,
    dict_get metadata "lighting_type" = Some (VStr (tag a)) /\
    dict_get metadata "lights" = Some v.
Proof.
  unfold setup_lighting_from_metadata.
  destruct (dict_get metadata "lighting_type") as [v|] eqn:Et;
    [|discriminate].
  destruct v as [| | |t| |]; try discriminate.
  destruct (in_strs (VStr t) valid_types) eqn:Ev; [|discriminate].
  cbn [negb].
  assert (Ht : t = "env_map" \/ exists a, t = tag a).
  { unfold in_strs, valid_types in Ev. cbn [existsb is_str] in Ev.
    rewrite !orb_true_iff in Ev.
    destruct Ev as [E|[E|[E|[E|[E|E]]]]]; try discriminate E;
      apply String.eqb_eq in E; subst t;
      [ now left | right; now exists Studio | right; now exists Dramatic
      | right; now exists Natural | right; now exists RandomPoints ]. }
  destruct Ht as [-> | (a & ->)].
  - simpl. unfold ret. intros [= <- <-]. left. auto.
  - intros H. right. exists a.
    destruct (dict_get metadata "lights") as [v|] eqn:El.
    + now exists v.
    + unfold dict_has in H. rewrite El in H. destruct a; discriminate H.
Qed.

End Decoded.

(** X10: when the decoder returns, the scene has grown by exactly the
    lights it returns, in their order, and nothing else of the world has
    changed. *)
Theorem decode_adds_what_it_returns
    (R : RandomSource) (metadata : dict) (lights : list light_object)
    (w w' : world R) :
  setup_lighting_from_metadata metadata w = (inr lights, w') ->
  w' = with_lights w lights.
Proof.
  intros H. destruct (decode_returned _ _ _ _ H)
    as [(_ & -> & ->) | (a & v & Ht & Hl)].
  - now rewrite with_lights_nil.
  - rewrite (decode_light_bearing a _ _ w Ht Hl) in H.
    apply bind_inr_inv in H. destruct H as (xs & w1 & Hxs & H).
    apply lift_inr_inv in Hxs. destruct Hxs as (_ & ->).
    apply for_each_adds in H. now destruct H as (new & -> & -> & _).
Qed.

Lemma decode_adds_what_it_returns_witness :
  let key_light :=
    Light (AREA 1000 (1, 7 # 10, 2 # 5) RECTANGLE 2 (Some 1))
          (4, -4, 4) (0, 0, 0) in
  @World low_source 0%nat [] [key_light] =
  with_lights (empty_world low_source 0%nat) [key_light].
Proof.
  intros key_light.
  apply (decode_adds_what_it_returns low_source studio_with_stored_color
           [key_light] (empty_world low_source 0%nat)).
  vm_compute. reflexivity.
Defined.

(** X11: the tag of the record, not the entries, decides what kind of
    light the decoder creates: when it returns, every light of a studio
    or dramatic record is a rectangular area light with both sizes set,
    whatever [type] its entry states; a natural record gives suns, which
    stay at the origin, and unrotated rectangular area lights; a random
    record gives unrotated point lights. *)
Theorem decoded_lights_made_by_archetype
    (R : RandomSource) (a : archetype) (metadata : dict)
    (lights : list light_object) (w w' : world R) :
  dict_get metadata "lighting_type" = Some (VStr (tag a)) ->
  setup_lighting_from_metadata metadata w = (inr lights, w') ->
  Forall (made_by a) lights.
Proof.
  intros Ht H. destruct (decode_returned _ _ _ _ H)
    as [(_ & -> & _) | (a' & v & Ht' & Hl)]; [constructor|].
  rewrite (decode_light_bearing a _ _ w Ht Hl) in H.
  apply bind_inr_inv in H. destruct H as (xs & w1 & Hxs & H).
  apply lift_inr_inv in Hxs. destruct Hxs as (_ & ->).
  apply for_each_adds in H. now destruct H as (new & -> & _ & Hm).
Qed.

Lemma decoded_lights_made_by_archetype_witness :
  Forall (made_by Studio)
    [Light (AREA 1000 (1, 1, 1) RECTANGLE 2 (Some 1)) (4, -4, 4) (0, 0, 0)].
Proof.
  apply (decoded_lights_made_by_archetype low_source Studio
           studio_point_entry _ (empty_world low_source 0%nat)
           (@World low_source 0%nat []
              [Light (AREA 1000 (1, 1, 1) RECTANGLE 2 (Some 1))
                     (4, -4, 4) (0, 0, 0)])).
  - reflexivity.
  - vm_compute. reflexivity.
Defined.

Section Keys.

Context {R : RandomSource}.

Lemma getitem_alike (a : archetype) (e e' : dict) (k : string) :
  alike a e e' -> In k (keys_read a) ->
  py_getitem (VDict e) k = py_getitem (VDict e') k.
Proof. intros H Hin. simpl. now rewrite (H k Hin). Qed.

Lemma contains_alike (a : archetype) (e e' : dict) (k : string) :
  alike a e e' -> In k (keys_read a) ->
  py_contains k (VDict e) = py_contains k (VDict e').
Proof. intros H Hin. simpl. unfold dict_has. now rewrite (H k Hin). Qed.

Lemma entry_body_alike (a : archetype) (e e' : dict) lights (w : world R) :
  alike a e e' ->
  entry_body a (VDict e) lights w = entry_body a (VDict e') lights w.
Proof.
  intros H.
  destruct a; unfold entry_body, studio_entry, dramatic_entry, natural_entry,
    random_entry;
    rewrite !(contains_alike _ e e' _ H) by (simpl; tauto);
    rewrite !(getitem_alike _ e e' _ H) by (simpl; tauto);
    reflexivity.
Qed.

Lemma for_each_alike (a : archetype) (es es' : list dict) :
  Forall2 (alike a) es es' ->
  forall lights (w : world R),
    for_each (map VDict es) (entry_body a) lights w =
    for_each (map VDict es') (entry_body a) lights w.
Proof.
  induction 1 as [|e e' es es' He _ IH]; intros lights w; [reflexivity|].
  simpl. unfold bind. rewrite (entry_body_alike a e e' lights w He).
  destruct (entry_body a (VDict e') lights w) as [[err|lights1] w1];
    [reflexivity | apply IH].
Qed.

End Keys.

(** X12: the decoder reads a record only through [lighting_type],
    [lights] and, in each entry, the keys of its archetype's loop (for
    studio: role, position, rotation, energy, color_temperature and size).
    Two records with the same tag whose entries agree, one by one, on
    those keys decode alike, to the same result or error and the same
    world: the order of the keys and any other key ([type] and [color]
    in a studio entry, a name, a note) make no difference. *)
Theorem decode_reads_only_its_keys
    (R : RandomSource) (a : archetype) (metadata metadata' : dict)
    (es es' : list dict) (w : world R) :
  dict_get metadata "lighting_type" = Some (VStr (tag a)) ->
  dict_get metadata' "lighting_type" = Some (VStr (tag a)) ->
  dict_get metadata "lights" = Some (VList (map VDict es)) ->
  dict_get metadata' "lights" = Some (VList (map VDict es')) ->
  Forall2 (alike a) es es' ->
  setup_lighting_from_metadata metadata w =
  setup_lighting_from_metadata metadata' w.
Proof.
  intros Ht Ht' Hl Hl' Hes.
  rewrite (decode_light_bearing a _ _ w Ht Hl).
  rewrite (decode_light_bearing a _ _ w Ht' Hl').
  unfold bind, lift, py_iter. now apply for_each_alike.
Qed.

Lemma decode_reads_only_its_keys_witness :
  setup_lighting_from_metadata studio_with_stored_color
    (empty_world low_source 0%nat) =
  setup_lighting_from_metadata studio_reordered
    (empty_world low_source 0%nat).
Proof.
  apply (decode_reads_only_its_keys low_source Studio _ _
           [[("type", VStr "area"); ("role", VStr "key");
             ("energy", VNum 1000); ("color_temperature", VNum 2700);
             ("color", VList [VNum 0; VNum 0; VNum 0]);
             ("position", VList [VNum 4; VNum (-4); VNum 4]);
             ("rotation", VList [VNum 0; VNum 0; VNum 0]);
             ("size", VList [VNum 2; VNum 1])]]
           [reordered_entry]); try reflexivity.
  constructor; [|constructor].
  intros k Hin. simpl in Hin.
  repeat (destruct Hin as [<-|Hin]; [reflexivity|]). destruct Hin.
Defined.

(** ** The gateway: order of effects *)

(** X14: [add_point_light] links the light before it places it: when
    the host accepts energy, color and size and rejects the location,
    the call raises and the light stays in the scene, at the origin. *)
Theorem add_point_light_rejected_location
    (R : RandomSource) (location energy color size : value)
    (e s : Q) (c : vec3) (err : exn) (w : world R) :
  host_float "energy" energy = inr e ->
  host_vec3 "color" color = inr c ->
  host_float "shadow_soft_size" size = inr s ->
  host_vec3 "location" location = inl err ->
  add_point_light location energy color size w =
  (inl err, with_lights w [Light (POINT e c s) origin origin]).
Proof.
  intros He Hc Hs Hl. unfold add_point_light, bind, lift.
  now rewrite He, Hc, Hs, Hl.
Qed.

Lemma add_point_light_rejected_location_witness :
  add_point_light (VList [VNum 2; VNum 2]) (VNum 1500) default_color
    default_size (empty_world low_source 0%nat) =
  (inl (rejected "location"),
   with_lights (empty_world low_source 0%nat)
     [Light (POINT 1500 (1, 1, 1) (1 # 10)) origin origin]).
Proof.
  apply (add_point_light_rejected_location low_source); reflexivity.
Defined.

(** X15: [add_area_light] reads the second size only for the shapes
    RECTANGLE and ELLIPSE.  Given a size of one element and a shape the
    host accepts, it creates a SQUARE or DISK light whose [size_y] is
    left untouched, and for RECTANGLE and ELLIPSE it raises IndexError
    before anything is linked into the scene. *)
Theorem add_area_light_one_size
    (R : RandomSource) (location rotation color : vec3) (energy s : Q)
    (shape : string) (sh : light_shape) (w : world R) :
  host_shape shape = inr sh ->
  add_area_light (tuple3 location) (tuple3 rotation) (VNum energy)
    (tuple3 color) (VList [VNum s]) shape w =
  match sh with
  | RECTANGLE | ELLIPSE => (inl out_of_range, w)
  | SQUARE | DISK =>
      let o := Light (AREA (Qred energy) (vred color) sh (Qred s) None)
                     (vred location) (vred rotation) in
      (inr o, with_lights w [o])
  end.
Proof.
  intros Hsh.
  assert (Hs : match sh with
               | SQUARE => shape = "SQUARE"
               | RECTANGLE => shape = "RECTANGLE"
               | DISK => shape = "DISK"
               | ELLIPSE => shape = "ELLIPSE"
               end).
  { unfold host_shape in Hsh.
    repeat match type of Hsh with
    | (if String.eqb ?a ?b then _ else _) = _ =>
        let E := fresh "E" in
        destruct (String.eqb a b) eqn:E;
        [apply String.eqb_eq in E; now injection Hsh as <- | clear E]
    end.
    discriminate Hsh. }
  destruct sh; subst shape;
    unfold add_area_light, bind, lift, objects_link, object_set, ret;
    rewrite !host_vec3_tuple3; simpl; try reflexivity;
    now rewrite !set_nth_length.
Qed.

Lemma add_area_light_one_size_witness :
  add_area_light (tuple3 (0, 0, 3)) (tuple3 (0, 0, 0)) (VNum 1000)
    (tuple3 (1, 1, 1)) (VList [VNum 2]) "DISK"
    (empty_world low_source 0%nat) =
  (inr (Light (AREA 1000 (1, 1, 1) DISK 2 None) (0, 0, 3) (0, 0, 0)),
   with_lights (empty_world low_source 0%nat)
     [Light (AREA 1000 (1, 1, 1) DISK 2 None) (0, 0, 3) (0, 0, 0)]).
Proof.
  apply (add_area_light_one_size low_source (0, 0, 3) (0, 0, 0) (1, 1, 1)
           1000 2 "DISK" DISK).
  reflexivity.
Defined.

(** ** [setup_studio_lighting] *)

Lemma add_rectangle_outcome {R : RandomSource} (loc rot : vec3) (a b : Q)
    (energy color : value) (w : world R) :
  add_area_light (tuple3 loc) (tuple3 rot) energy color
    (VList [VNum a; VNum b]) default_shape w =
  match host_float "energy" energy, host_vec3 "color" color with
  | inr e, inr c =>
      let o := Light (AREA e c RECTANGLE (Qred a) (Some (Qred b)))
                     (vred loc) (vred rot) in
      (inr o, with_lights w [o])
  | inl err, _ | inr _, inl err => (inl err, w)
  end.
Proof.
  unfold add_area_light, bind, lift, objects_link, object_set, ret.
  destruct (host_float "energy" energy) as [err|e]; [reflexivity|].
  destruct (host_vec3 "color" color) as [err|c]; [reflexivity|].
  rewrite !host_vec3_tuple3. simpl. now rewrite !set_nth_length.
Qed.

Lemma host_float_rejects (what : string) (v : value) (err : exn) :
  host_float what v = inl err -> e_class err = HostError.
Proof.
  unfold host_float. destruct (as_number v); [discriminate|].
  now intros [= <-].
Qed.

Lemma host_vec3_rejects (what : string) (v : value) (err : exn) :
  host_vec3 what v = inl err -> e_class err = HostError.
Proof.
  unfold host_vec3.
  destruct v as [| | | |[|a [|b [|c [|d l]]]]|]; try (now intros [= <-]).
  destruct (as_number a), (as_number b), (as_number c);
    try discriminate; now intros [= <-].
Qed.

(** X16: [setup_studio_lighting] creates the key, the fill and the back
    light in turn and undoes nothing.  Whatever it is given, it either
    returns three area lights, which are the lights it added to the
    scene, or raises a host error, for an energy or a color the host
    rejects, after it has added the lights before the rejected one:
    fewer than three area lights, which stay in the scene. *)
Theorem setup_studio_lighting_keeps_what_it_made
    (R : RandomSource) (L : MathLib)
    (key_light_energy fill_light_energy back_light_energy
     key_light_color fill_light_color back_light_color : value)
    (r : result (list light_object)) (w w' : world R) :
  setup_studio_lighting L key_light_energy fill_light_energy
    back_light_energy key_light_color fill_light_color back_light_color w =
  (r, w') ->
  exists added,
    w' = with_lights w added /\
    Forall (fun o => kind_of o = Area) added /\
    match r with
    | inr lights => lights = added /\ List.length added = 3%nat
    | inl e => e_class e = HostError /\ (List.length added < 3)%nat
    end.
Proof.
  intros E. unfold setup_studio_lighting, bind in E.
  rewrite add_rectangle_outcome in E.
  destruct (host_float "energy" key_light_energy) as [err|ke] eqn:E1.
  { injection E as <- <-. exists []. rewrite with_lights_nil. simpl.
    repeat split; auto. now apply host_float_rejects in E1. }
  destruct (host_vec3 "color" key_light_color) as [err|kc] eqn:E2.
  { injection E as <- <-. exists []. rewrite with_lights_nil. simpl.
    repeat split; auto. now apply host_vec3_rejects in E2. }
  cbv beta iota zeta in E. rewrite add_rectangle_outcome in E.
  destruct (host_float "energy" fill_light_energy) as [err|fe] eqn:E3.
  { injection E as <- <-. eexists [_]. simpl.
    repeat split; auto. now apply host_float_rejects in E3. }
  destruct (host_vec3 "color" fill_light_color) as [err|fc] eqn:E4.
  { injection E as <- <-. eexists [_]. simpl.
    repeat split; auto. now apply host_vec3_rejects in E4. }
  cbv beta iota zeta in E. rewrite add_rectangle_outcome in E.
  destruct (host_float "energy" back_light_energy) as [err|be] eqn:E5.
  { injection E as <- <-. eexists [_; _]. rewrite with_lights_app. simpl.
    repeat split; auto. now apply host_float_rejects in E5. }
  destruct (host_vec3 "color" back_light_color) as [err|bc] eqn:E6.
  { injection E as <- <-. eexists [_; _]. rewrite with_lights_app. simpl.
    repeat split; auto. now apply host_vec3_rejects in E6. }
  cbv beta iota zeta in E. unfold ret in E. injection E as <- <-.
  eexists [_; _; _]. rewrite !with_lights_app. simpl.
  repeat split; auto.
Qed.

Lemma setup_studio_lighting_keeps_what_it_made_witness :
  let key_light :=
    area_light (4, -4, 4)
      (radians rational_math 45, 0, radians rational_math 45)
      1000 (1, 1, 1) 2 1 in
  exists added,
    @World low_source 0%nat [] [key_light] =
      with_lights (empty_world low_source 0%nat) added /\
    Forall (fun o => kind_of o = Area) added /\
    e_class (rejected "color") = HostError /\ (List.length added < 3)%nat.
Proof.
  intros key_light.
  apply (setup_studio_lighting_keeps_what_it_made low_source rational_math
           (VNum 1000) (VNum 500) (VNum 750)
           default_color (VStr "red") default_color
           (inl (rejected "color")) (empty_world low_source 0%nat)).
  vm_compute. reflexivity.
Defined.

(** ** [setup_random_lighting] *)

Section RandomLighting.

Context {R : RandomSource} (L : MathLib).

(** A loop that adds one light in each turn. *)
Lemma yields_collect {A : Type} (P : light_object -> Prop) (n : nat)
    (body : A -> list light_object -> M R (list light_object)) :
  (forall i lights,
     yields (R:=R) (body i lights)
       (fun out ds added =>
          exists o, out = lights ++ [o] /\ added = [o] /\
                    List.length ds = n /\ P o)) ->
  forall idxs lights,
    yields (R:=R) (for_each idxs body lights)
      (fun out ds added =>
         exists new, out = lights ++ new /\ added = new /\
                     List.length new = List.length idxs /\
                     List.length ds = (List.length idxs * n)%nat /\
                     Forall P new).
Proof.
  intros Hbody idxs.
  induction idxs as [|i idxs IH]; intros lights; simpl.
  - apply yields_ret. exists []. rewrite app_nil_r. repeat split; auto.
  - eapply yields_bind; [apply Hbody|].
    intros out ds added (o & -> & -> & Hds & Ho).
    eapply yields_weaken; [apply IH|].
    intros out' ds' added' (new & -> & -> & Hlen & Hds' & Hall).
    exists (o :: new). rewrite <- app_assoc. simpl.
    rewrite length_app, Hlen, Hds, Hds'. repeat split; auto.
Qed.


Lemma yields_script_lighting (num_lights : Z) :
  rs_lawful R ->
  yields (R:=R) (RenderRandomLights.setup_random_lighting L num_lights)
    (fun lights ds added =>
       added = lights /\
       List.length lights = Z.to_nat num_lights /\
       Forall colored_point lights).
Proof.
  intros Hlaw. unfold RenderRandomLights.setup_random_lighting.
  eapply yields_weaken.
  { apply (yields_collect colored_point 5).
    intros _ lights.
    draw theta Hth. draw phi Hph. draw r Hr. draw temp Hte. draw energy Hen.
    eapply yields_bind;
      [apply yields_scene_op; intros w; apply add_point_light_ok|].
    intros light ? ? (-> & -> & ->).
    apply yields_ret. eexists. split; [reflexivity|].
    split; [reflexivity|]. split; [reflexivity|].
    eexists _, _, _. split; [reflexivity|].
    rewrite Qred_correct.
    destruct (Hen Hlaw) as (He1 & He2); [discriminate|].
    destruct (Hte Hlaw) as (Ht1 & Ht2); [discriminate|].
    split; [exact He1|]. split; [exact He2|].
    apply in_gamut_vred. now apply blackbody_warm_to_cool. }
  intros out ds added (new & -> & -> & Hlen & _ & Hall).
  rewrite length_range in Hlen. auto.
Qed.

End RandomLighting.



(** X18: the lights of the script [render_random_lights.py]: with a
    lawful random source its [setup_random_lighting] returns
    [num_lights] point lights of size 0.1, the lights it added to the
    scene, each with an energy between 500 and 2000 and a color every
    channel of which lies in [0, 1]: the temperatures it draws, from
    2700 K to 6500 K, are those the Color-Temperature Model maps into
    the gamut. *)
Theorem script_lights_in_gamut
    (R : RandomSource) (L : MathLib) (num_lights : Z) (w : world R) :
  rs_lawful R ->
  exists lights w',
    RenderRandomLights.setup_random_lighting L num_lights w =
      (inr lights, w') /\
    w_scene w' = w_scene w ++ lights /\
    List.length lights = Z.to_nat num_lights /\
    Forall colored_point lights.
Proof.
  intros Hlaw.
  destruct (yields_script_lighting L num_lights Hlaw w)
    as (lights & ds & added & s' & E & -> & Hlen & Hall).
  eexists lights, _. split; [exact E|]. auto.
Qed.

Lemma script_lights_in_gamut_witness :
  exists lights w',
    RenderRandomLights.setup_random_lighting rational_math 3
      (empty_world mid_source 0%nat) = (inr lights, w') /\
    w_scene w' = [] ++ lights /\
    List.length lights = 3%nat /\
    Forall colored_point lights.
Proof.
  apply (script_lights_in_gamut mid_source rational_math 3
           (empty_world mid_source 0%nat)).
  exact mid_source_lawful.
Defined.

(** ** Clearing, generating and replaying *)

Lemma clear_lights_empties {R : RandomSource} (w : world R) :
  clear_lights w = (inr tt, World (w_rng w) (w_draws w) []).
Proof.
  unfold clear_lights. f_equal. f_equal.
  induction (w_scene w) as [|o l IH]; [reflexivity | exact IH].
Qed.

(** X19: the two passes of [render_lighting.py].  Whatever lights the
    scene held, after [clear_lights()] and the generator, called with one
    of the five types, the lights of the scene are the lights returned;
    and after [clear_lights()] and the decoder on the record that was
    returned, in any scene, the lights of the scene are those same
    lights: the replay rebuilds the lighting of the first pass. *)
Theorem replay_rebuilds_scene
    (R : RandomSource) (L : MathLib) (t : string) (w wd : world R) :
  In t archetypes ->
  exists lights metadata w1 wd1,
    bind clear_lights
      (fun _ => generate_random_lighting_setup L (Some t)) w =
      (inr (lights, metadata), w1) /\
    w_scene w1 = lights /\
    bind clear_lights
      (fun _ => setup_lighting_from_metadata metadata) wd =
      (inr lights, wd1) /\
    w_scene wd1 = w_scene w1.
Proof.
  intros Hin.
  destruct (generate_forced L t Hin (World (w_rng w) (w_draws w) []))
    as ([lights md] & ds & added & s' & Hg & -> & Hd & _).
  eexists lights, md, _, _.
  rewrite (bind_returns _ _ _ _ _ (clear_lights_empties w)).
  rewrite (bind_returns _ _ _ _ _ (clear_lights_empties wd)).
  rewrite Hg, Hd. simpl. auto.
Qed.

Lemma replay_rebuilds_scene_witness :
  exists lights metadata w1 wd1,
    bind clear_lights
      (fun _ => generate_random_lighting_setup rational_math (Some "natural"))
      (@World mid_source 0%nat [] [Light (SUN 1 (1, 1, 1) 0) origin origin]) =
      (inr (lights, metadata), w1) /\
    w_scene w1 = lights /\
    bind clear_lights
      (fun _ => setup_lighting_from_metadata metadata)
      (empty_world mid_source 7%nat) =
      (inr lights, wd1) /\
    w_scene wd1 = w_scene w1.
Proof.
  apply (replay_rebuilds_scene mid_source rational_math "natural").
  simpl. tauto.
Defined.
